(** * DWE Command Center: cron next-run estimation and cached Notion statistics

    A shallow embedding of the routines of the dashboard:

    - [calculateNextRun] of [server.js], the best-effort cron next-run label,
      with [getCrons], which applies it to the lines of the crontab;
    - [fetchAllNotionTasks] and [getDWEStats] of the widget API, the paginated
      fetch, the record mapping, the statistics and the five-minute cache,
      with [getNotionTasks] of [server.js], which runs the second copy of the
      fetch;
    - [getServices], [getLaunchd] and [handleActivity] of [server.js];
    - [ApiClient.request], [checkServerStatus] and [performBatchOperations]
      of [client.js].

    JavaScript data is kept as the code sees it: JSON values with optional
    chaining and truthiness, numbers as integers extended with [NaN], the
    module-level cache as an explicit state, thrown errors as an error monad,
    and [Date] objects as ECMAScript time values. *)

From Stdlib Require Import ZArith List String Ascii Bool Lia.
From Stdlib Require Import Numbers.DecimalString.
Import ListNotations.

Set Warnings "-register-all".
Local Open Scope string_scope.
Local Open Scope Z_scope.

(* ================================================================== *)
(** * JavaScript values *)
(* ================================================================== *)

Module JS.

(** A JavaScript number as far as the two routines need it: an integer or
    [NaN].  Fractions and infinities are outside the model; the sequence ids,
    counts and clock fields the code computes with are integers. *)
Inductive num : Type :=
| NaN
| Num (z : Z).

(** A value produced by [JSON.parse], extended with [undefined] (the result of
    reading an absent property). *)
Inductive value : Type :=
| VUndefined
| VNull
| VBool (b : bool)
| VNum (n : Z)
| VStr (s : string)
| VArr (xs : list value)
| VObj (fields : list (string * value)).

(** The outcome of evaluating an expression: a value, or a thrown error with
    its [message]. *)
Inductive completion (A : Type) : Type :=
| Normal (a : A)
| Throw (message : string).
Arguments Normal {A} a.
Arguments Throw {A} message.

Definition bind {A B : Type} (c : completion A) (k : A -> completion B)
  : completion B :=
  match c with
  | Normal a => k a
  | Throw m => Throw m
  end.

Notation "x <- c ;; k" := (bind c (fun x => k))
  (at level 61, c at next level, right associativity).

(** ToBoolean. *)
Definition truthy (v : value) : bool :=
  match v with
  | VUndefined | VNull => false
  | VBool b => b
  | VNum n => negb (n =? 0)%Z
  | VStr s => negb (String.eqb s "")
  | VArr _ | VObj _ => true
  end.

Definition nullish (v : value) : bool :=
  match v with
  | VUndefined | VNull => true
  | _ => false
  end.

(** [a || b]. *)
Definition or_else (a b : value) : value := if truthy a then a else b.

Fixpoint assoc (k : string) (fields : list (string * value)) : value :=
  match fields with
  | [] => VUndefined
  | (k', v) :: rest => if String.eqb k k' then v else assoc k rest
  end.

(** Reading a named property of a non-nullish value.  Primitives and arrays
    have none of the names the code reads except [length]. *)
Definition member (v : value) (k : string) : value :=
  match v with
  | VObj fields => assoc k fields
  | VArr xs => if String.eqb k "length" then VNum (Z.of_nat (List.length xs)) else VUndefined
  | VStr s => if String.eqb k "length" then VNum (Z.of_nat (String.length s)) else VUndefined
  | _ => VUndefined
  end.

Definition type_error (v : value) (k : string) : string :=
  "Cannot read properties of "
  ++ (match v with VNull => "null" | _ => "undefined" end)
  ++ " (reading '" ++ k ++ "')".

(** [v.k]: a TypeError on [undefined] and [null]. *)
Definition get (v : value) (k : string) : completion value :=
  if nullish v then Throw (type_error v k) else Normal (member v k).

(** [v?.k]. *)
Definition opt_get (v : value) (k : string) : value :=
  if nullish v then VUndefined else member v k.

(** [v?.[0]]. *)
Definition opt_first (v : value) : value :=
  match v with
  | VArr xs => nth 0 xs VUndefined
  | VStr (String c _) => VStr (String c "")
  | VObj fields => assoc "0" fields
  | _ => VUndefined
  end.

(** [v === 'literal']. *)
Definition is_str (v : value) (s : string) : bool :=
  match v with
  | VStr s' => String.eqb s' s
  | _ => false
  end.

(** ToNumber.  On strings and objects it goes through the numeric-literal
    grammar and ToPrimitive, which the model takes as [ToNumberObj]. *)
Definition ToNumber (ToNumberObj : value -> num) (v : value) : num :=
  match v with
  | VUndefined => NaN
  | VNull => Num 0
  | VBool b => Num (if b then 1 else 0)
  | VNum n => Num n
  | _ => ToNumberObj v
  end.

(** [Math.max(a, b)] on numbers. *)
Definition math_max (a b : num) : num :=
  match a, b with
  | Num x, Num y => Num (Z.max x y)
  | _, _ => NaN
  end.

(** [Number.MAX_SAFE_INTEGER]. *)
Definition MAX_SAFE_INTEGER : Z := 2 ^ 53 - 1.

(** The numbers on which the integer arithmetic below is the arithmetic of
    the code: [NaN], and the integers that a double holds exactly together
    with their neighbours. *)
Definition safe (n : num) : Prop :=
  match n with
  | NaN => True
  | Num z => - MAX_SAFE_INTEGER <= z <= MAX_SAFE_INTEGER
  end.

(** [a - b], for [safe] operands with a [safe] difference; past
    [MAX_SAFE_INTEGER] the code rounds. *)
Definition sub (a b : num) : num :=
  match a, b with
  | Num x, Num y => Num (x - y)
  | _, _ => NaN
  end.

(** [a <= b] on numbers and dates: false as soon as one side is [NaN]. *)
Definition lte (a b : num) : bool :=
  match a, b with
  | Num x, Num y => x <=? y
  | _, _ => false
  end.

(** [a >= b]. *)
Definition gte (a b : num) : bool := lte b a.

(** [a === b] on numbers. *)
Definition strict_eq (a b : num) : bool :=
  match a, b with
  | Num x, Num y => x =? y
  | _, _ => false
  end.

Definition add (a b : num) : num :=
  match a, b with
  | Num x, Num y => Num (x + y)
  | _, _ => NaN
  end.

(** [a % b] for a non-zero [b]: the remainder takes the sign of [a]. *)
Definition rem (a b : num) : num :=
  match a, b with
  | Num x, Num y => if y =? 0 then NaN else Num (Z.rem x y)
  | _, _ => NaN
  end.

(** [Array.prototype.map] with a callback that may throw: the first throw
    aborts the traversal. *)
Fixpoint map_throwing {A : Type} (f : value -> completion A) (xs : list value)
  : completion (list A) :=
  match xs with
  | [] => Normal []
  | x :: rest =>
      bind (f x) (fun y => bind (map_throwing f rest) (fun ys => Normal (y :: ys)))
  end.

End JS.

(* ================================================================== *)
(** * The paginated fetch (both copies of [fetchAllNotionTasks]) *)
(* ================================================================== *)

Module Fetch.
Import JS.

(** What the HTTPS promise settles to: the parsed body, or a rejection (a
    socket error, or the [SyntaxError] of [JSON.parse]). *)
Inductive reply : Type :=
| Resolve (response : value)
| Reject (message : string).

(** The query endpoint: the reply to the [n]-th request the process has
    issued, given the [start_cursor] of its body ([None] when the body has
    only [page_size]). *)
Definition endpoint : Type := nat -> option value -> reply.

(** How a run of the loop ends: it returns, it throws, or it is still
    requesting pages when the fuel of the model is spent. *)
Inductive outcome (A : Type) : Type :=
| Returned (a : A)
| Thrown (message : string)
| Running.
Arguments Returned {A} a.
Arguments Thrown {A} message.
Arguments Running {A}.

(** The status label: [props.Status.status.name] when
    [props.Status?.status?.name] is truthy, else [props.Status.select.name]
    when [props.Status?.select?.name] is truthy, else ['No Status']. *)
Definition status_of (props : value) : completion value :=
  Status <- get props "Status" ;;
  if truthy (opt_get (opt_get Status "status") "name") then
    Status <- get props "Status" ;;
    st <- get Status "status" ;;
    get st "name"
  else
    Status <- get props "Status" ;;
    if truthy (opt_get (opt_get Status "select") "name") then
      Status <- get props "Status" ;;
      sel <- get Status "select" ;;
      get sel "name"
    else Normal (VStr "No Status").

(** The label [status_of] computes when nothing throws, as a function of
    [props.Status]. *)
Definition status_label (Status : value) : value :=
  if truthy (opt_get (opt_get Status "status") "name")
  then opt_get (opt_get Status "status") "name"
  else if truthy (opt_get (opt_get Status "select") "name")
  then opt_get (opt_get Status "select") "name"
  else VStr "No Status".

(** The record of the widget API (no [taskType]). *)
Record Task : Type := mkTask {
  id : value;
  idNumber : value;
  name : value;
  status : value;
  priority : value;
  role : value;
  dueDate : value;
  pastDue : value;
  summary : value
}.

(** The record of [server.js], which adds [taskType]. *)
Record ServerTask : Type := mkServerTask {
  base : Task;
  taskType : value
}.

(** [props.K?.a?.b || dflt]. *)
Definition field2 (props : value) (K a b : string) (dflt : value) : completion value :=
  P <- get props K ;;
  Normal (or_else (opt_get (opt_get P a) b) dflt).

(** [props.K?.a?.[0]?.plain_text || dflt]. *)
Definition text_field (props : value) (K a : string) (dflt : value) : completion value :=
  P <- get props K ;;
  Normal (or_else (opt_get (opt_first (opt_get P a)) "plain_text") dflt).

(** The callback of [response.results.map] in the widget API. *)
Definition mapTask (task : value) : completion Task :=
  props <- get task "properties" ;;
  status <- status_of props ;;
  id <- get task "id" ;;
  idNumber <- field2 props "ID" "unique_id" "number" (VNum 0) ;;
  name <- text_field props "Task name" "title" (VStr "Untitled") ;;
  priority <- field2 props "Priority" "select" "name" (VStr "Medium") ;;
  role <- field2 props "Role" "select" "name" (VStr "Unassigned") ;;
  dueDate <- field2 props "Due date" "date" "start" VNull ;;
  pastDue <- field2 props "Past due" "formula" "boolean" (VBool false) ;;
  summary <- text_field props "Summary" "rich_text" (VStr "") ;;
  Normal {| id := id; idNumber := idNumber; name := name; status := status;
            priority := priority; role := role; dueDate := dueDate;
            pastDue := pastDue; summary := summary |}.

(** The callback of [response.results.map] in [server.js]. *)
Definition mapServerTask (task : value) : completion ServerTask :=
  props <- get task "properties" ;;
  status <- status_of props ;;
  idNumber <- field2 props "ID" "unique_id" "number" (VNum 0) ;;
  id <- get task "id" ;;
  name <- text_field props "Task name" "title" (VStr "Untitled") ;;
  priority <- field2 props "Priority" "select" "name" (VStr "Medium") ;;
  role <- field2 props "Role" "select" "name" (VStr "Unassigned") ;;
  dueDate <- field2 props "Due date" "date" "start" VNull ;;
  pastDue <- field2 props "Past due" "formula" "boolean" (VBool false) ;;
  taskType <- field2 props "Task type" "select" "name" (VStr "Task") ;;
  summary <- text_field props "Summary" "rich_text" (VStr "") ;;
  Normal {| base := {| id := id; idNumber := idNumber; name := name; status := status;
                       priority := priority; role := role; dueDate := dueDate;
                       pastDue := pastDue; summary := summary |};
            taskType := taskType |}.

(** [response.results.map(...)] when [response.results] is truthy: only an
    array has [map]. *)
Definition map_results {A : Type} (f : value -> completion A) (results : value)
  : completion (list A) :=
  match results with
  | VArr xs => map_throwing f xs
  | _ => Throw "response.results.map is not a function"
  end.

(** One turn of the [while] body after the response has arrived: the new
    accumulator, [hasMore] and [nextCursor]. *)
Definition absorb {A : Type} (f : value -> completion A) (allTasks : list A)
  (response : value) : completion (list A * value * value) :=
  results <- get response "results" ;;
  allTasks' <- (if truthy results
                then (tasks <- map_results f results ;; Normal (allTasks ++ tasks)%list)
                else Normal allTasks) ;;
  hasMore <- get response "has_more" ;;
  nextCursor <- get response "next_cursor" ;;
  Normal (allTasks', hasMore, nextCursor).

(** The body sent with a request: [start_cursor] only when [nextCursor] is
    truthy. *)
Definition cursor_of (nextCursor : value) : option value :=
  if truthy nextCursor then Some nextCursor else None.

(** The accumulation cap of the loop guard. *)
Definition CAP : Z := 3000.

(** [while (hasMore && allTasks.length < 3000) { ... }], with the number of
    requests issued so far threaded through. *)
Fixpoint loop {A : Type} (f : value -> completion A) (api : endpoint)
  (fuel : nat) (allTasks : list A) (hasMore nextCursor : value) (requests : nat)
  : outcome (list A) * nat :=
  if truthy hasMore && (Z.of_nat (List.length allTasks) <? CAP) then
    match fuel with
    | O => (Running, requests)
    | S fuel' =>
        match api requests (cursor_of nextCursor) with
        | Reject m => (Thrown m, S requests)
        | Resolve response =>
            match absorb f allTasks response with
            | Throw m => (Thrown m, S requests)
            | Normal (allTasks', hasMore', nextCursor') =>
                loop f api fuel' allTasks' hasMore' nextCursor' (S requests)
            end
        end
    end
  else (Returned allTasks, requests).

(** [fetchAllNotionTasks()], generic in the mapping callback. *)
Definition fetchAll {A : Type} (f : value -> completion A) (api : endpoint)
  (fuel : nat) (requests : nat) : outcome (list A) * nat :=
  loop f api fuel [] (VBool true) VNull requests.

(** The widget API's copy and the copy in [server.js]. *)
Definition fetchAllNotionTasks := fetchAll mapTask.
Definition fetchAllNotionTasks_server := fetchAll mapServerTask.

End Fetch.

(* ================================================================== *)
(** * The widget API: statistics and the five-minute cache *)
(* ================================================================== *)

Module Widget.
Import JS Fetch.

(** [const CACHE_DURATION = 5 * 60 * 1000]. *)
Definition CACHE_DURATION : Z := 5 * 60 * 1000.

(** The object [getDWEStats] resolves to.  Keys that some paths leave out
    ([activeTasks], [cached], [error]) are options; [lastUpdated] holds the
    instant whose ISO rendering the code stores. *)
Record Stats : Type := mkStats {
  total : num;
  completed : num;
  inProgress : num;
  remaining : num;
  maxId : num;
  activeTasks : option num;
  lastUpdated : Z;
  cached : option bool;
  error : option string
}.

(** What the process holds between calls: the module-level [cachedStats] and
    [cacheTime], and the number of requests sent to the endpoint so far. *)
Record state : Type := mkState {
  cachedStats : option Stats;
  cacheTime : Z;
  requests : nat
}.

(** What the process is started with. *)
Record runtime : Type := mkRuntime {
  NOTION_API_KEY : string;
  notion : endpoint;
  ToNumberObj : value -> num
}.

(** [let cachedStats = null; let cacheTime = 0;] *)
Definition initial : state :=
  {| cachedStats := None; cacheTime := 0; requests := 0 |}.

(** [{ ...cachedStats, cached: true }]. *)
Definition mark_cached (c : Stats) : Stats :=
  {| total := total c; completed := completed c; inProgress := inProgress c;
     remaining := remaining c; maxId := maxId c; activeTasks := activeTasks c;
     lastUpdated := lastUpdated c; cached := Some true; error := error c |}.

(** The hard-coded payload of the two fallback returns. *)
Definition baseline (message : string) (clock : Z) : Stats :=
  {| total := Num 1020; completed := Num 562; inProgress := Num 4;
     remaining := Num 458; maxId := Num 1020; activeTasks := None;
     lastUpdated := clock; cached := None; error := Some message |}.

Definition is_completed (t : Task) : bool :=
  is_str (status t) "Done" || is_str (status t) "Completed"
  || is_str (status t) "Complete" || is_str (status t) "Review".

Definition is_inProgress (t : Task) : bool :=
  is_str (status t) "In Progress" || is_str (status t) "In progress".

(** [allTasks.filter(p).length]. *)
Definition count (p : Task -> bool) (allTasks : list Task) : num :=
  Num (Z.of_nat (List.length (filter p allTasks))).

(** [allTasks.reduce((max, t) => Math.max(max, t.idNumber || 0), 0)]. *)
Definition max_id (toNum : value -> num) (allTasks : list Task) : num :=
  fold_left (fun max t => math_max max (ToNumber toNum (or_else (idNumber t) (VNum 0))))
            allTasks (Num 0).

(** The object assigned to [cachedStats] after a successful pass. *)
Definition aggregate (toNum : value -> num) (allTasks : list Task) (clock : Z) : Stats :=
  let total := Num (Z.of_nat (List.length allTasks)) in
  let completed := count is_completed allTasks in
  let inProgress := count is_inProgress allTasks in
  let maxId := max_id toNum allTasks in
  {| total := maxId; completed := completed; inProgress := inProgress;
     remaining := sub maxId completed; maxId := maxId;
     activeTasks := Some total; lastUpdated := clock;
     cached := None; error := None |}.

Definition with_requests (st : state) (n : nat) : state :=
  {| cachedStats := cachedStats st; cacheTime := cacheTime st; requests := n |}.

(** Is there an entry that [now] may still be served from? *)
Definition fresh (st : state) (now : Z) : bool :=
  match cachedStats st with
  | Some _ => now - cacheTime st <? CACHE_DURATION
  | None => false
  end.

(** [getDWEStats()].  [now] is the reading of [Date.now()] at entry, [clock]
    the reading of [new Date()] when a payload is built. *)
Definition getDWEStats (rt : runtime) (fuel : nat) (now clock : Z) (st : state)
  : outcome Stats * state :=
  match cachedStats st, now - cacheTime st <? CACHE_DURATION with
  | Some c, true => (Returned (mark_cached c), st)
  | _, _ =>
      if String.eqb (NOTION_API_KEY rt) ""
      then (Returned (baseline "Notion API key not configured" clock), st)
      else
        match fetchAllNotionTasks (notion rt) fuel (requests st) with
        | (Returned allTasks, n) =>
            let c := aggregate (ToNumberObj rt) allTasks clock in
            (Returned c, {| cachedStats := Some c; cacheTime := now; requests := n |})
        | (Thrown message, n) =>
            (Returned (match cachedStats st with
                       | Some c => c
                       | None => baseline message clock
                       end),
             with_requests st n)
        | (Running, n) => (Running, with_requests st n)
        end
  end.

End Widget.

(* ================================================================== *)
(** * ECMAScript dates *)
(* ================================================================== *)

(** Time values are milliseconds of local time: the zone offset is taken to
    be constant between [now] and the candidate (no daylight-saving change),
    so that local fields are those of the value itself. *)
Module DateTime.
Import JS.

Definition msPerSecond : Z := 1000.
Definition msPerMinute : Z := 60000.
Definition msPerHour : Z := 3600000.
Definition msPerDay : Z := 86400000.

Definition Day (t : Z) : Z := t / msPerDay.
Definition TimeWithinDay (t : Z) : Z := t mod msPerDay.

Definition HourFromTime (t : Z) : Z := (t / msPerHour) mod 24.
Definition MinFromTime (t : Z) : Z := (t / msPerMinute) mod 60.
Definition SecFromTime (t : Z) : Z := (t / msPerSecond) mod 60.
Definition msFromTime (t : Z) : Z := t mod msPerSecond.

(** Day 0 (1 January 1970) was a Thursday. *)
Definition WeekDay (t : Z) : Z := (Day t + 4) mod 7.

Definition leap (y : Z) : bool :=
  if negb (y mod 4 =? 0) then false
  else if negb (y mod 100 =? 0) then true
  else if negb (y mod 400 =? 0) then false
  else true.

Definition DaysInYear (y : Z) : Z := if leap y then 366 else 365.

Definition DayFromYear (y : Z) : Z :=
  365 * (y - 1970) + (y - 1969) / 4 - (y - 1901) / 100 + (y - 1601) / 400.

(** The largest [y] with [DayFromYear y <= d]: the mean-year estimate is off
    by at most one. *)
Definition YearFromDay (d : Z) : Z :=
  let y := 1970 + (400 * d) / 146097 in
  if DayFromYear (y + 1) <=? d then y + 1
  else if d <? DayFromYear y then y - 1
  else y.

Definition YearFromTime (t : Z) : Z := YearFromDay (Day t).
Definition DayWithinYear (t : Z) : Z := Day t - DayFromYear (YearFromTime t).

(** Number of days of the year before month [m] (0 = January). *)
Definition month_start (m : Z) (lp : bool) : Z :=
  let l := if lp then 1 else 0 in
  if m <=? 0 then 0
  else if m =? 1 then 31
  else if m =? 2 then 59 + l
  else if m =? 3 then 90 + l
  else if m =? 4 then 120 + l
  else if m =? 5 then 151 + l
  else if m =? 6 then 181 + l
  else if m =? 7 then 212 + l
  else if m =? 8 then 243 + l
  else if m =? 9 then 273 + l
  else if m =? 10 then 304 + l
  else if m =? 11 then 334 + l
  else 365 + l.

Definition month_of_yday (dy : Z) (lp : bool) : Z :=
  if dy <? month_start 1 lp then 0
  else if dy <? month_start 2 lp then 1
  else if dy <? month_start 3 lp then 2
  else if dy <? month_start 4 lp then 3
  else if dy <? month_start 5 lp then 4
  else if dy <? month_start 6 lp then 5
  else if dy <? month_start 7 lp then 6
  else if dy <? month_start 8 lp then 7
  else if dy <? month_start 9 lp then 8
  else if dy <? month_start 10 lp then 9
  else if dy <? month_start 11 lp then 10
  else 11.

Definition MonthFromTime (t : Z) : Z :=
  month_of_yday (DayWithinYear t) (leap (YearFromTime t)).

Definition DateFromTime (t : Z) : Z :=
  let lp := leap (YearFromTime t) in
  DayWithinYear t - month_start (month_of_yday (DayWithinYear t) lp) lp + 1.

Definition MakeTime (hour min sec ms : Z) : Z :=
  hour * msPerHour + min * msPerMinute + sec * msPerSecond + ms.

Definition MakeDay (year month date : Z) : Z :=
  let ym := year + month / 12 in
  let mn := month mod 12 in
  DayFromYear ym + month_start mn (leap ym) + date - 1.

Definition MakeDate (day time : Z) : Z := day * msPerDay + time.

Definition TimeClip (t : Z) : num :=
  if Z.abs t >? 8640000000000000 then NaN else Num t.

(** A reading of the clock from which the estimator cannot leave the range
    of time values: the eight days before and after it are representable
    too. *)
Definition ordinary (now : Z) : Prop :=
  8 * msPerDay - 8640000000000000 <= now <= 8640000000000000 - 8 * msPerDay.

(** A [Date] object is its time value; [NaN] is the invalid date. *)
Definition date : Type := num.

Definition lift (f : Z -> Z) (d : date) : num :=
  match d with
  | Num t => Num (f t)
  | NaN => NaN
  end.

Definition getHours : date -> num := lift HourFromTime.
Definition getMinutes : date -> num := lift MinFromTime.
Definition getDate : date -> num := lift DateFromTime.
Definition getMonth : date -> num := lift MonthFromTime.
Definition getDay : date -> num := lift WeekDay.

Definition setHours (d : date) (hour : num) : date :=
  match d, hour with
  | Num t, Num h =>
      TimeClip (MakeDate (Day t) (MakeTime h (MinFromTime t) (SecFromTime t) (msFromTime t)))
  | _, _ => NaN
  end.

Definition setMinutes (d : date) (min : num) : date :=
  match d, min with
  | Num t, Num m =>
      TimeClip (MakeDate (Day t) (MakeTime (HourFromTime t) m (SecFromTime t) (msFromTime t)))
  | _, _ => NaN
  end.

Definition setDate (d : date) (dt : num) : date :=
  match d, dt with
  | Num t, Num n =>
      TimeClip (MakeDate (MakeDay (YearFromTime t) (MonthFromTime t) n) (TimeWithinDay t))
  | _, _ => NaN
  end.

(** [toLocaleDateString('en-US', {weekday: 'short'})]. *)
Definition weekday_short (d : date) : string :=
  match d with
  | NaN => "Invalid Date"
  | Num t => nth (Z.to_nat (WeekDay t)) ["Sun"; "Mon"; "Tue"; "Wed"; "Thu"; "Fri"; "Sat"] ""
  end.

(** The time value of a civil date and time of day. *)
Definition at_civil (year month day hour min : Z) : Z :=
  MakeDate (MakeDay year (month - 1) day) (MakeTime hour min 0 0).

End DateTime.

(* ================================================================== *)
(** * Strings as the cron estimator uses them *)
(* ================================================================== *)

(** Strings are ASCII, as crontab lines are. *)
Module Str.
Import JS.

(** The ASCII members of the regular-expression class [\s]. *)
Definition is_space (c : ascii) : bool :=
  let n := nat_of_ascii c in
  (Nat.eqb n 32 || (Nat.leb 9 n && Nat.leb n 13))%bool.

(** [s.split(/\s+/)] by a scan: [cur] is the field being read, [in_gap] says
    that the previous character was white space.  Leading and trailing white
    space give an empty first and last field, as in JavaScript. *)
Fixpoint split_scan (cur : string) (in_gap : bool) (s : string) : list string :=
  match s with
  | "" => [cur]
  | String c rest =>
      if is_space c
      then if in_gap then split_scan cur true rest
           else cur :: split_scan "" true rest
      else split_scan (cur ++ String c "") false rest
  end.

Definition split_ws (s : string) : list string := split_scan "" false s.

(** [s.startsWith(p)]. *)
Definition startsWith (s p : string) : bool := String.prefix p s.

Fixpoint drop (n : nat) (s : string) : string :=
  match n, s with
  | O, _ => s
  | S n', String _ rest => drop n' rest
  | S _, "" => ""
  end.

(** [s.replace(pat, rep)] for a string pattern: the first occurrence only. *)
Fixpoint replace (pat rep s : string) : string :=
  if String.prefix pat s then rep ++ drop (String.length pat) s
  else match s with
       | "" => ""
       | String c rest => String c (replace pat rep rest)
       end.

(** [s.includes(c)] for a one-character needle. *)
Fixpoint includes (s : string) (c : ascii) : bool :=
  match s with
  | "" => false
  | String c' rest => (Ascii.eqb c' c || includes rest c)%bool
  end.

Fixpoint trimStart (s : string) : string :=
  match s with
  | String c rest => if is_space c then trimStart rest else s
  | "" => ""
  end.

(** The value of [c] as a digit in [radix], if it is one. *)
Definition digit (radix : Z) (c : ascii) : option Z :=
  let n := Z.of_nat (nat_of_ascii c) in
  let v := if (48 <=? n) && (n <=? 57) then Some (n - 48)
           else if (97 <=? n) && (n <=? 122) then Some (n - 87)
           else if (65 <=? n) && (n <=? 90) then Some (n - 55)
           else None in
  match v with
  | Some d => if d <? radix then Some d else None
  | None => None
  end.

(** The longest prefix of digits, most significant first; [None] when there
    is no digit at all. *)
Fixpoint digits (radix : Z) (acc : option Z) (s : string) : option Z :=
  match s with
  | "" => acc
  | String c rest =>
      match digit radix c with
      | Some d =>
          digits radix
                 (Some (radix * (match acc with Some a => a | None => 0 end) + d)) rest
      | None => acc
      end
  end.

(** [parseInt(s)] without a radix argument: leading white space, a sign, a
    [0x] prefix, then digits. *)
Definition parseInt (s : string) : num :=
  let s := trimStart s in
  let '(sign, s) := match s with
                    | String "-" rest => (-1, rest)
                    | String "+" rest => (1, rest)
                    | _ => (1, s)
                    end in
  let '(radix, s) := if (String.prefix "0x" s || String.prefix "0X" s)%bool
                     then (16, drop 2 s) else (10, s) in
  match digits radix None s with
  | Some n => Num (sign * n)
  | None => NaN
  end.

(** [String(n)] for the numbers of the model. *)
Definition toString (n : num) : string :=
  match n with
  | NaN => "NaN"
  | Num z => NilZero.string_of_int (Z.to_int z)
  end.

Fixpoint repeat_char (c : ascii) (n : nat) : string :=
  match n with
  | O => ""
  | S n' => String c (repeat_char c n')
  end.

(** [s.padStart(width, c)] for a one-character filler. *)
Definition padStart (s : string) (width : nat) (c : ascii) : string :=
  repeat_char c (width - String.length s) ++ s.

Definition lower_char (c : ascii) : ascii :=
  let n := nat_of_ascii c in
  if (Nat.leb 65 n && Nat.leb n 90)%bool then ascii_of_nat (n + 32) else c.

(** [s.toLowerCase()]. *)
Fixpoint toLowerCase (s : string) : string :=
  match s with
  | "" => ""
  | String c rest => String (lower_char c) (toLowerCase rest)
  end.

Fixpoint last_char (s : string) : option ascii :=
  match s with
  | "" => None
  | String c "" => Some c
  | String _ rest => last_char rest
  end.

End Str.

(* ================================================================== *)
(** * [calculateNextRun] *)
(* ================================================================== *)

Module Cron.
Import JS DateTime Str.

(** [Math.floor(currentMin / interval) * interval + interval].  With a zero
    interval the quotient is infinite or [NaN] and the product is [NaN]. *)
Definition next_multiple (currentMin interval : num) : num :=
  match currentMin, interval with
  | Num c, Num i => if i =? 0 then NaN else Num (c / i * i + i)
  | _, _ => NaN
  end.

(** The minute field: the new [next] and [hourModified]. *)
Definition minute_step (minute : string) (now next : date) : date * bool :=
  if startsWith minute "*/" then
    let interval := parseInt (replace "*/" "" minute) in
    let currentMin := getMinutes now in
    let nextMin := next_multiple currentMin interval in
    if gte nextMin (Num 60) then
      let next := setHours next (add (getHours next) (Num 1)) in
      (setMinutes next (sub nextMin (Num 60)), true)
    else (setMinutes next nextMin, false)
  else if String.eqb minute "*" then
    (setMinutes next (add (getMinutes now) (Num 1)), false)
  else (setMinutes next (parseInt minute), false).

(** The hour field. *)
Definition hour_step (minute hour : string) (hourModified : bool) (now next : date)
  : date :=
  if startsWith hour "*/" then
    if negb (startsWith minute "*/") then
      let interval := parseInt (replace "*/" "" hour) in
      let currentHour := getHours now in
      let next := setHours next (add currentHour interval) in
      setMinutes next (Num 0)
    else next
  else if negb (String.eqb hour "*") then
    if negb hourModified then
      let next := setHours next (parseInt hour) in
      if lte next now then setDate next (add (getDate next) (Num 1)) else next
    else next
  else next.

(** The day-of-week field. *)
Definition weekday_step (dayOfWeek : string) (now next : date) : date :=
  if (negb (String.eqb dayOfWeek "*") && negb (includes dayOfWeek "/"))%bool then
    let targetDay := parseInt dayOfWeek in
    let currentDay := getDay now in
    let daysUntil := rem (add (sub targetDay currentDay) (Num 7)) (Num 7) in
    if (strict_eq daysUntil (Num 0) && lte next now)%bool
    then setDate next (add (getDate next) (Num 7))
    else setDate next (add (getDate next) daysUntil)
  else next.

(** The [Date] the three steps leave in [next]. *)
Definition candidate (minute hour dayOfWeek : string) (now : date) : date :=
  let '(next, hourModified) := minute_step minute now now in
  let next := hour_step minute hour hourModified now next in
  weekday_step dayOfWeek now next.

Definition isToday (now next : date) : bool :=
  (strict_eq (getDate next) (getDate now) && strict_eq (getMonth next) (getMonth now))%bool.

Definition isTomorrow (now next : date) : bool :=
  strict_eq (getDate next) (add (getDate now) (Num 1)).

Definition dayLabel (now next : date) : string :=
  if isToday now next then ""
  else if isTomorrow now next then "Tomorrow "
  else weekday_short next ++ " ".

(** [hours % 12 || 12]. *)
Definition displayHours (hours : num) : num :=
  match rem hours (Num 12) with
  | Num 0 | NaN => Num 12
  | r => r
  end.

(** The formatting tail of [calculateNextRun]. *)
Definition format (now next : date) : string :=
  let hours := getHours next in
  let mins := getMinutes next in
  let ampm := if gte hours (Num 12) then "PM" else "AM" in
  let displayMins := padStart (toString mins) 2 "0" in
  dayLabel now next ++ toString (displayHours hours) ++ ":" ++ displayMins
  ++ toLowerCase ampm.

(** [calculateNextRun(schedule)], with the instant [new Date()] reads as a
    parameter. *)
Definition calculateNextRun (schedule : string) (now : Z) : string :=
  let parts := split_ws schedule in
  if (List.length parts <? 5)%nat then "Unknown"
  else
    let minute := nth 0 parts "" in
    let hour := nth 1 parts "" in
    let dayOfWeek := nth 4 parts "" in
    format (Num now) (candidate minute hour dayOfWeek (Num now)).

End Cron.

(* ================================================================== *)
(** * Endpoints, states and predicates the statements use *)
(* ================================================================== *)

Module Scenario.
Import JS Fetch Widget.

(** A raw record with a [properties] container and nothing in it. *)
Definition bare_record : value :=
  VObj [("id", VStr "t1"); ("properties", VObj [])].

(** A raw record without a [properties] container. *)
Definition headless_record : value := VObj [("id", VStr "t1")].

(** A raw record as Notion sends it, cut down to the keys the code reads. *)
Definition done_record (n : Z) : value :=
  VObj [("id", VStr "t2");
        ("properties",
         VObj [("Status", VObj [("status", VObj [("name", VStr "Done")])]);
               ("ID", VObj [("unique_id", VObj [("number", VNum n)])])])].

(** A response carrying [k] records. *)
Definition page (record : value) (k : nat) (has_more : bool) : value :=
  VObj [("results", VArr (repeat record k));
        ("has_more", VBool has_more);
        ("next_cursor", if has_more then VStr "cursor" else VNull)].

(** An upstream that reports has-more for ever, [k] records a page. *)
Definition endless (k : nat) : endpoint :=
  fun _ _ => Resolve (page bare_record k true).

(** An upstream with a single page of two records. *)
Definition single_page : endpoint :=
  fun _ _ => Resolve (page (done_record 7) 2 false).

(** An upstream whose connection fails. *)
Definition unreachable : endpoint :=
  fun _ _ => Reject "socket hang up".

(** An upstream that answers the first request and fails afterwards. *)
Definition flaky : endpoint :=
  fun n _ => if (n <? 1)%nat then Resolve (page (done_record 7) 2 false)
             else Reject "socket hang up".

(** An upstream that sends one record without [properties]. *)
Definition malformed : endpoint :=
  fun _ _ => Resolve (page headless_record 1 false).

Definition configured (api : endpoint) : runtime :=
  {| NOTION_API_KEY := "secret"; notion := api; ToNumberObj := fun _ => NaN |}.

(** The payload [single_page] aggregates to, computed at instant [clock]. *)
Definition two_done (clock : Z) : Stats :=
  {| total := Num 7; completed := Num 2; inProgress := Num 0; remaining := Num 5;
     maxId := Num 7; activeTasks := Some (Num 2); lastUpdated := clock;
     cached := None; error := None |}.


(** [response] is a well-formed page that maps to [tasks] and reports
    has-more. *)
Definition more_page {A : Type} (f : value -> completion A) (response : value)
  (tasks : list A) : Prop :=
  nullish response = false
  /\ truthy (member response "has_more") = true
  /\ exists xs, member response "results" = VArr xs /\ map_throwing f xs = Normal tasks.

(** The upstream keeps reporting has-more, with between [lo] and [hi] records
    on every page. *)
Definition keeps_going {A : Type} (f : value -> completion A) (api : endpoint)
  (lo hi : Z) : Prop :=
  forall n cursor, exists response tasks,
    api n cursor = Resolve response
    /\ more_page f response tasks
    /\ lo <= Z.of_nat (List.length tasks) <= hi.

(** No entry of the cache carries an [error] or a [cached] mark. *)
Definition clean_cache (st : state) : Prop :=
  forall c, cachedStats st = Some c -> error c = None /\ cached c = None.

(** The call goes on to fetch: no fresh entry, and a key is configured. *)
Definition refreshes (rt : runtime) (st : state) (now : Z) : Prop :=
  fresh st now = false /\ NOTION_API_KEY rt <> "".

End Scenario.

(* ================================================================== *)
(** * Runs of the widget API and pages of the upstream *)
(* ================================================================== *)

Module Runs.
Import JS Fetch Widget.

(** One call of [getDWEStats]: the fuel of the model and the two readings of
    the clock. *)
Record call : Type := mkCall {
  call_fuel : nat;
  call_now : Z;
  call_clock : Z
}.

(** A sequence of calls, one after the other, each on the state the previous
    one left. *)
Fixpoint run_calls (rt : runtime) (calls : list call) (st : state)
  : list (outcome Stats) * state :=
  match calls with
  | [] => ([], st)
  | c :: rest =>
      let '(o, st') := getDWEStats rt (call_fuel c) (call_now c) (call_clock c) st in
      let '(os, st'') := run_calls rt rest st' in
      (o :: os, st'')
  end.

(** What one response contributes to the accumulator: the mapped records of
    an array in [results], nothing when [results] is falsy. *)
Definition page_tasks {A : Type} (f : value -> completion A) (response : value)
  (tasks : list A) : Prop :=
  nullish response = false
  /\ ((exists xs, member response "results" = VArr xs /\ map_throwing f xs = Normal tasks)
      \/ (truthy (member response "results") = false /\ tasks = [])).

(** The upstream answers the requests numbered from [r] with [responses], in
    this order, when each request after the first carries the [next_cursor]
    of the response before it. *)
Fixpoint serves (api : endpoint) (r : nat) (cursor : option value)
  (responses : list value) : Prop :=
  match responses with
  | [] => True
  | response :: rest =>
      api r cursor = Resolve response
      /\ serves api (S r) (cursor_of (member response "next_cursor")) rest
  end.

(** Every response but the last reports has-more. *)
Fixpoint last_page_ends (responses : list value) : Prop :=
  match responses with
  | [] => False
  | [response] => truthy (member response "has_more") = false
  | response :: rest =>
      truthy (member response "has_more") = true /\ last_page_ends rest
  end.

(** The payload of a pass that found no record. *)
Definition no_tasks (clock : Z) : Stats :=
  {| total := Num 0; completed := Num 0; inProgress := Num 0; remaining := Num 0;
     maxId := Num 0; activeTasks := Some (Num 0); lastUpdated := clock;
     cached := None; error := None |}.

(** The body Notion sends with status 401. *)
Definition unauthorized : value :=
  VObj [("object", VStr "error"); ("status", VNum 401);
        ("code", VStr "unauthorized"); ("message", VStr "API token is invalid.")].

(** A task of the widget API with the given sequence id and status. *)
Definition task_of (n : Z) (label : string) : Task :=
  {| id := VStr "t"; idNumber := VNum n; name := VStr "Untitled"; status := VStr label;
     priority := VStr "Medium"; role := VStr "Unassigned"; dueDate := VNull;
     pastDue := VBool false; summary := VStr "" |}.

(** A raw record with the given sequence id and status. *)
Definition raw_of (n : Z) (label : string) : value :=
  VObj [("id", VStr "t");
        ("properties",
         VObj [("Status", VObj [("status", VObj [("name", VStr label)])]);
               ("ID", VObj [("unique_id", VObj [("number", VNum n)])])])].

(** A response with the given records, has-more flag and cursor. *)
Definition response_of (records : list value) (has_more : bool) (cursor : value) : value :=
  VObj [("results", VArr records); ("has_more", VBool has_more); ("next_cursor", cursor)].

(** An upstream with two pages, the second reached through the cursor of the
    first. *)
Definition two_pages : endpoint :=
  fun n cursor =>
    match cursor with
    | None => Resolve (response_of [raw_of 1 "Done"; raw_of 2 "To Do"] true (VStr "c1"))
    | Some (VStr "c1") => Resolve (response_of [raw_of 3 "In Progress"] false VNull)
    | Some _ => Reject "bad cursor"
    end.

End Runs.

(* ================================================================== *)
(** * [getNotionTasks] of [server.js] *)
(* ================================================================== *)

Module Server.
Import JS Fetch.

(** The [stats] object of the response; the two error responses leave
    [maxIdNumber] out. *)
Record TaskStats : Type := mkTaskStats {
  total : num;
  inProgress : num;
  completed : num;
  todo : num;
  maxIdNumber : option num
}.

(** What [getNotionTasks] writes: the status code of [writeHead] and the
    object given to [JSON.stringify]. *)
Record TasksResponse : Type := mkTasksResponse {
  statusCode : Z;
  error : option string;
  tasks : list ServerTask;
  stats : TaskStats;
  source : option string;
  timestamp : option Z
}.

Definition is_inProgress (t : ServerTask) : bool :=
  is_str (status (base t)) "In Progress" || is_str (status (base t)) "In progress".

Definition is_completed (t : ServerTask) : bool :=
  is_str (status (base t)) "Done" || is_str (status (base t)) "Completed"
  || is_str (status (base t)) "Complete" || is_str (status (base t)) "Review".

Definition is_todo (t : ServerTask) : bool :=
  is_str (status (base t)) "To Do" || is_str (status (base t)) "To do"
  || is_str (status (base t)) "No Status" || is_str (status (base t)) "Not started".

(** [allTasks.filter(p).length]. *)
Definition count (p : ServerTask -> bool) (allTasks : list ServerTask) : num :=
  Num (Z.of_nat (List.length (filter p allTasks))).

(** The [stats] of a successful pass. *)
Definition task_stats (toNum : value -> num) (allTasks : list ServerTask) : TaskStats :=
  {| total := Num (Z.of_nat (List.length allTasks));
     inProgress := count is_inProgress allTasks;
     completed := count is_completed allTasks;
     todo := count is_todo allTasks;
     maxIdNumber :=
       Some (fold_left
               (fun max t =>
                  math_max max (ToNumber toNum (or_else (idNumber (base t)) (VNum 0))))
               allTasks (Num 0)) |}.

(** [{ total: 0, inProgress: 0, completed: 0, todo: 0 }]. *)
Definition no_stats : TaskStats :=
  {| total := Num 0; inProgress := Num 0; completed := Num 0; todo := Num 0;
     maxIdNumber := None |}.

Definition failure (message : string) : TasksResponse :=
  {| statusCode := 500; error := Some message; tasks := []; stats := no_stats;
     source := None; timestamp := None |}.

(** [getNotionTasks(req, res)]: the response written and the number of
    requests sent upstream.  [clock] is the reading of [new Date()]. *)
Definition getNotionTasks (rt : Widget.runtime) (fuel : nat) (requests : nat) (clock : Z)
  : outcome TasksResponse * nat :=
  if String.eqb (Widget.NOTION_API_KEY rt) ""
  then (Returned
          (failure "Notion API key not configured. Set NOTION_API_KEY environment variable."),
        requests)
  else
    match fetchAllNotionTasks_server (Widget.notion rt) fuel requests with
    | (Returned allTasks, n) =>
        (Returned {| statusCode := 200; error := None;
                     tasks := firstn 100 allTasks;
                     stats := task_stats (Widget.ToNumberObj rt) allTasks;
                     source := Some "Notion"; timestamp := Some clock |}, n)
    | (Thrown _, n) => (Returned (failure "Failed to fetch from Notion"), n)
    | (Running, n) => (Running, n)
    end.

End Server.

(* ================================================================== *)
(** * The time of day of a label *)
(* ================================================================== *)

Module Clock.
Import JS Str Cron.

(** The part of a label after the day prefix, for a candidate at hour [h]
    and minute [m]. *)
Definition clock12 (h m : Z) : string :=
  toString (displayHours (Num h)) ++ ":" ++ padStart (toString (Num m)) 2 "0"
  ++ toLowerCase (if gte (Num h) (Num 12) then "PM" else "AM").

End Clock.

(* ================================================================== *)
(** * [getCrons] of [server.js] *)
(* ================================================================== *)

Module Crontab.
Import JS Str Cron.

(** [s.trimEnd()]. *)
Fixpoint trimEnd (s : string) : string :=
  match s with
  | "" => ""
  | String c rest =>
      match trimEnd rest with
      | "" => if is_space c then "" else String c ""
      | rest' => String c rest'
      end
  end.

(** [s.trim()]. *)
Definition trim (s : string) : string := trimEnd (trimStart s).

(** [s.split(sep)] for a one-character separator, by a scan: [cur] is the
    piece being read. *)
Fixpoint split_scan_on (sep : ascii) (cur : string) (s : string) : list string :=
  match s with
  | "" => [cur]
  | String c rest =>
      if Ascii.eqb c sep then cur :: split_scan_on sep "" rest
      else split_scan_on sep (cur ++ String c "") rest
  end.

Definition split_on (sep : ascii) (s : string) : list string := split_scan_on sep "" s.

(** [parts.join(sep)]. *)
Fixpoint join (sep : string) (parts : list string) : string :=
  match parts with
  | [] => ""
  | [part] => part
  | part :: rest => part ++ sep ++ join sep rest
  end.

(** [s.includes(pat)] for a string needle. *)
Fixpoint includes_str (s pat : string) : bool :=
  (String.prefix pat s
   || match s with
      | "" => false
      | String _ rest => includes_str rest pat
      end)%bool.

(** [part.split('/').pop()]. *)
Definition basename (part : string) : string := List.last (split_on "/" part) "".

(** The script name shown for a command: the base name, without [.sh], of
    the first word that holds [.sh] or a slash; failing that (or when that
    gave [System]) the base name of the first word of more than two
    characters that starts with neither [>] nor [-]; else [System]. *)
Definition scriptName (commandParts : list string) : string :=
  let scriptName :=
    match find (fun part => includes_str part ".sh" || includes part "/")%bool commandParts with
    | Some part => replace ".sh" "" (basename part)
    | None => "System"
    end in
  if (String.eqb scriptName "System" && (0 <? List.length commandParts)%nat)%bool then
    match find (fun p => negb (startsWith p ">") && negb (startsWith p "-")
                         && (2 <? String.length p)%nat)%bool commandParts with
    | Some meaningful => basename meaningful
    | None => scriptName
    end
  else scriptName.

Fixpoint has_space (s : string) : bool :=
  match s with
  | "" => false
  | String c rest => (is_space c || has_space rest)%bool
  end.

(** A field of a line: not empty and free of white space. *)
Definition is_field (w : string) : Prop := w <> "" /\ has_space w = false.

(** A string ends well when its last character is not white space. *)
Definition ends_well (s : string) : Prop :=
  match last_char s with
  | Some c => is_space c = false
  | None => True
  end.

(** An element of [crons]. *)
Record CronEntry : Type := mkCronEntry {
  id : string;
  schedule : string;
  command : string;
  status : string;
  nextRun : string
}.

(** The body of [lines.forEach((line, idx) => ...)]: the entry a line gives,
    if it has six fields or more.  [now] is the instant [calculateNextRun]
    reads. *)
Definition cron_of_line (line : string) (idx : nat) (now : Z) : option CronEntry :=
  let parts := split_ws (trim line) in
  if (6 <=? List.length parts)%nat then
    let schedule := join " " (firstn 5 parts) in
    let commandParts := skipn 5 parts in
    Some {| id := "CRON-" ++ padStart (toString (Num (Z.of_nat idx + 1))) 3 "0";
            schedule := schedule;
            command := scriptName commandParts;
            status := "active";
            nextRun := calculateNextRun schedule now |}
  else None.

Fixpoint crons_of_lines (lines : list string) (idx : nat) (clock : nat -> Z)
  : list CronEntry :=
  match lines with
  | [] => []
  | line :: rest =>
      match cron_of_line line idx (clock idx) with
      | Some entry => entry :: crons_of_lines rest (S idx) clock
      | None => crons_of_lines rest (S idx) clock
      end
  end.

(** The callback of [exec] in [getCrons]: the [crons] of the response, from
    the error flag and the output of the [crontab] pipeline.  [clock i] is
    the instant read while line [i] is handled. *)
Definition getCrons (error : bool) (stdout : string) (clock : nat -> Z) : list CronEntry :=
  if (negb error && negb (String.eqb stdout ""))%bool
  then crons_of_lines (split_on "010" (trim stdout)) 0 clock
  else [].

(** A crontab of three lines, one of them too short. *)
Definition sample_crontab : string :=
  String.concat (String "010" "")
    ["*/15 * * * * /usr/local/bin/backup.sh >> /tmp/backup.log 2>&1";
     "@reboot /usr/bin/true";
     "0 9 * * 1 python3 -m report"].

End Crontab.

(* ================================================================== *)
(** * [getServices] of [server.js] *)
(* ================================================================== *)

Module Services.
Import JS Str Crontab.

(** An element of the [services] table: [external] stands for
    [type === 'external']. *)
Record Service : Type := mkService {
  name : string;
  port : option Z;
  url : option string;
  external : bool
}.

Definition services : list Service :=
  [ {| name := "OpenClaw Gateway"; port := Some 3000; url := None; external := false |};
    {| name := "n8n Digital Ocean"; port := None;
       url := Some "https://n8n.tvcpulse.com"; external := true |};
    {| name := "MCporter Client"; port := Some 8080; url := None; external := false |};
    {| name := "Notion API"; port := None;
       url := Some "https://api.notion.com/v1"; external := true |};
    {| name := "Pinecone"; port := None;
       url := Some "https://api.pinecone.io"; external := true |};
    {| name := "Ollama M4 GPU"; port := Some 11434; url := None; external := false |};
    {| name := "OpenRouter"; port := None;
       url := Some "https://openrouter.ai/api/v1"; external := true |} ].

(** An element of [results]. *)
Record Result : Type := mkResult {
  result_name : string;
  result_port : option Z;
  status : string;
  info : string
}.

(** Does [forEach] start a command for this service?  Only then is there a
    callback. *)
Definition spawns (service : Service) : bool :=
  (external service
   || match port service with Some p => negb (p =? 0) | None => false end)%bool.

(** What the callback of [exec] pushes for a service, from the output of its
    command. *)
Definition result_of (service : Service) (stdout : string) : Result :=
  if external service then
    let statusCode := trim stdout in
    let online := (String.eqb statusCode "200" || String.eqb statusCode "401"
                   || String.eqb statusCode "403")%bool in
    {| result_name := name service; result_port := None;
       status := if online then "online" else "offline";
       info := if online then "OK" else "Unreachable" |}
  else
    let isOpen := String.eqb (trim stdout) "open" in
    {| result_name := name service; result_port := port service;
       status := if isOpen then "online" else "offline";
       info := if isOpen
               then "Port " ++ toString (match port service with
                                         | Some p => Num p
                                         | None => NaN
                                         end) ++ " open"
               else "Not responding" |}.

(** What the handler holds while the commands run: [results], [pending], and
    the bodies [sendResponse] has written so far. *)
Record state : Type := mkState {
  results : list Result;
  pending : Z;
  sent : list (list Result)
}.

(** [const results = []; let pending = services.length;] *)
Definition start (table : list Service) : state :=
  {| results := []; pending := Z.of_nat (List.length table); sent := [] |}.

(** One callback: push the result, count down, answer at zero. *)
Definition on_exit (st : state) (event : Service * string) : state :=
  let results' := (results st ++ [result_of (fst event) (snd event)])%list in
  let pending' := pending st - 1 in
  {| results := results'; pending := pending';
     sent := if pending' =? 0 then (sent st ++ [results'])%list else sent st |}.

(** The callbacks in the order in which the commands end. *)
Definition run (table : list Service) (events : list (Service * string)) : state :=
  fold_left on_exit events (start table).

End Services.

(* ================================================================== *)
(** * [handleActivity] of [server.js] *)
(* ================================================================== *)

(** Texts are kept by what [JSON.parse] makes of them: the values that
    [JSON.parse] returns come back unchanged from [JSON.stringify] followed by
    [JSON.parse]. *)
Module Store.
Import JS.

Inductive method : Type := GET | POST | OTHER.

(** A text: empty, the JSON text of a value, or a text that does not parse. *)
Inductive text : Type :=
| EmptyText
| JsonText (v : value)
| Garbage.

(** A file: [None] when [fs.readFile] fails. *)
Definition file : Type := option text.

(** What the handler does with the request: it writes a response, it writes
    none, or a callback throws (no response is written then). *)
Inductive answer : Type :=
| Answered (code : Z) (payload : text)
| Silent
| Uncaught (message : string).

(** [JSON.parse(text)]. *)
Definition parse (t : text) : completion value :=
  match t with
  | EmptyText => Throw "Unexpected end of JSON input"
  | JsonText v => Normal v
  | Garbage => Throw "Unexpected token"
  end.

(** [data || fallback] for the text read ([None] stands for [undefined]). *)
Definition or_text (data : option text) (fallback : text) : text :=
  match data with
  | None | Some EmptyText => fallback
  | Some t => t
  end.

(** [obj[k] = v] on the fields of an object: an existing key keeps its
    place. *)
Fixpoint set_field (k : string) (v : value) (fields : list (string * value))
  : list (string * value) :=
  match fields with
  | [] => [(k, v)]
  | (k', v') :: rest =>
      if String.eqb k k' then (k, v) :: rest else (k', v') :: set_field k v rest
  end.

(** [entry.timestamp = stamp] as [JSON.stringify] later sees [entry]: a
    property set on an array or on a primitive is not written out, and
    setting it on [null] throws. *)
Definition with_timestamp (entry : value) (stamp : string) : completion value :=
  match entry with
  | VUndefined | VNull => Throw (type_error entry "timestamp")
  | VObj fields => Normal (VObj (set_field "timestamp" (VStr stamp) fields))
  | _ => Normal entry
  end.

(** [l.slice(-50)]. *)
Definition last50 {T : Type} (l : list T) : list T := skipn (List.length l - 50) l.

Fixpoint string_skipn (n : nat) (s : string) : string :=
  match n, s with
  | O, _ => s
  | S n', String _ rest => string_skipn n' rest
  | S _, "" => ""
  end.

(** [activity.entries.slice(-50)]. *)
Definition slice50 (activity : value) : completion value :=
  entries <- get activity "entries" ;;
  match entries with
  | VArr l => Normal (VArr (last50 l))
  | VStr s => Normal (VStr (string_skipn (String.length s - 50) s))
  | VUndefined | VNull => Throw (type_error entries "slice")
  | _ => Throw "activity.entries.slice is not a function"
  end.

(** [activity.entries.push(entry)], giving [activity] as it is afterwards. *)
Definition push_entry (activity entry : value) : completion value :=
  entries <- get activity "entries" ;;
  match entries, activity with
  | VArr l, VObj fields =>
      Normal (VObj (set_field "entries" (VArr (l ++ [entry])) fields))
  | VUndefined, _ | VNull, _ => Throw (type_error entries "push")
  | _, _ => Throw "activity.entries.push is not a function"
  end.

Definition error_body (message : string) : text :=
  JsonText (VObj [("error", VStr message)]).

Definition success_body : text := JsonText (VObj [("success", VBool true)]).

(** ['{"entries":[]}']. *)
Definition no_entries : text := JsonText (VObj [("entries", VArr [])]).

(** The body of a request as [JSON.parse] sees it. *)
Inductive body : Type :=
| Parses (v : value)
| Malformed.

(** [handleActivity(req, res)]: the answer and the file afterwards.  [stamp]
    is [new Date().toISOString()], [writable] says whether [fs.writeFile]
    succeeds. *)
Definition handleActivity (m : method) (b : body) (stamp : string) (writable : bool)
  (f : file) : answer * file :=
  match m with
  | GET =>
      match f with
      | None => (Answered 500 (error_body "Failed to read"), f)
      | Some data =>
          match (activity <- parse (or_text (Some data) no_entries) ;; slice50 activity) with
          | Normal shown => (Answered 200 (JsonText (VObj [("entries", shown)])), f)
          | Throw message => (Uncaught message, f)
          end
      end
  | POST =>
      match b with
      | Malformed => (Answered 400 (error_body "Invalid JSON"), f)
      | Parses entry =>
          match with_timestamp entry stamp with
          | Throw _ => (Answered 400 (error_body "Invalid JSON"), f)
          | Normal entry' =>
              match (activity <- parse (or_text f no_entries) ;; push_entry activity entry') with
              | Throw message => (Uncaught message, f)
              | Normal activity' =>
                  if writable then (Answered 200 success_body, Some (JsonText activity'))
                  else (Answered 500 (error_body "Failed to save"), f)
              end
          end
      end
  | OTHER => (Silent, f)
  end.

(** [{"entries": l}]. *)
Definition log_of (l : list value) : value := VObj [("entries", VArr l)].

End Store.

(* ================================================================== *)
(** * [getLaunchd] of [server.js] *)
(* ================================================================== *)

Module Launchd.
Import JS Str Crontab.

(** An element of the [services] array of [getLaunchd]; [pid] is absent
    until a line sets it. *)
Record Job : Type := mkJob {
  id : string;
  name : string;
  status : string;
  nextRun : string;
  pid : option string
}.

Definition jobs : list Job :=
  [ {| id := "DWE-001"; name := "Ops Report"; status := "waiting"; nextRun := "10:00a";
       pid := None |};
    {| id := "DWE-002"; name := "Ops Monitor"; status := "waiting"; nextRun := "10:05a";
       pid := None |};
    {| id := "DWE-003"; name := "Project Monitor"; status := "waiting"; nextRun := "10:00a";
       pid := None |};
    {| id := "DWE-007"; name := "COO Task Mgr"; status := "running"; nextRun := "Active";
       pid := None |};
    {| id := "DWE-008"; name := "Lucy Email"; status := "waiting"; nextRun := "7:00a";
       pid := None |} ].

(** [s.replace(/\s/g, '')]. *)
Fixpoint squeeze (s : string) : string :=
  match s with
  | "" => ""
  | String c rest => if is_space c then squeeze rest else String c (squeeze rest)
  end.

(** The test of [services.find]: the label of the line names the job. *)
Definition names (label : string) (job : Job) : bool :=
  includes_str (toLowerCase label) (squeeze (toLowerCase (name job))).

(** [service.status = 'running'; service.pid = pid] on the first job the
    label names, if there is one. *)
Fixpoint mark_running (label pid : string) (table : list Job) : list Job :=
  match table with
  | [] => []
  | job :: rest =>
      if names label job
      then {| id := id job; name := name job; status := "running";
              nextRun := nextRun job; pid := Some pid |} :: rest
      else job :: mark_running label pid rest
  end.

(** The body of [forEach] for one line of the output. *)
Definition on_line (table : list Job) (line : string) : list Job :=
  if includes_str line "com.dwe" then
    let parts := split_ws (trim line) in
    if (3 <=? List.length parts)%nat then
      let pid := nth 0 parts "" in
      let label := nth 2 parts "" in
      if existsb (names label) table && negb (String.eqb pid "-")
      then mark_running label pid table
      else table
    else table
  else table.

(** The callback of [exec] in [getLaunchd]: the [services] of the response. *)
Definition getLaunchd (error : bool) (stdout : string) : list Job :=
  if (negb error && negb (String.eqb stdout ""))%bool
  then fold_left on_line (split_on "010" stdout) jobs
  else jobs.

(** Two lines of [launchctl list]: a job that runs and one that does not. *)
Definition sample_launchctl : string :=
  String.concat (String "010" "")
    ["4711	0	com.dwe.opsreport"; "-	0	com.dwe.lucyemail"].

End Launchd.

(* ================================================================== *)
(** * The client ([client.js]) *)
(* ================================================================== *)

Module Client.
Import JS Str.

Definition API_BASE : string := "http://localhost:8899/mc".
Definition RETRY_ATTEMPTS : Z := 3.
Definition cacheTimeout : Z := 60000.
Definition minRequestInterval : Z := 100.

(** One attempt as the client sees it: [fetch] rejects (the network fails, or
    the controller aborts it when the timeout fires), or it resolves to a
    response with its [ok] flag, status line and what [response.json()]
    gives. *)
Inductive exchange : Type :=
| Rejects (message : string)
| Responds (ok : bool) (status : Z) (statusText : string) (body : completion value).

(** What the client does not compute itself: [JSON.stringify] on an options
    object, and the server, which gives for the n-th [fetch] of the run the
    time it takes and how it ends. *)
Record runtime : Type := mkRuntime {
  stringify : value -> string;
  upstream : nat -> Z * exchange
}.

(** A value of the [cache] map. *)
Record entry : Type := mkEntry {
  data : value;
  timestamp : Z
}.

(** The fields of the [ApiClient] instance, with the clock ([Date.now()]) and
    the URLs fetched so far. *)
Record state : Type := mkState {
  cache : list (string * entry);
  lastRequestTime : Z;
  now : Z;
  sent : list string
}.

(** [new ApiClient()] at time [t]. *)
Definition initial (t : Z) : state :=
  {| cache := []; lastRequestTime := 0; now := t; sent := [] |}.

(** [cache.has(k)] and [cache.get(k)]. *)
Fixpoint cache_get (k : string) (m : list (string * entry)) : option entry :=
  match m with
  | [] => None
  | (k', e) :: rest => if String.eqb k k' then Some e else cache_get k rest
  end.

(** [cache.set(k, e)]: an existing key keeps its place. *)
Fixpoint cache_set (k : string) (e : entry) (m : list (string * entry))
  : list (string * entry) :=
  match m with
  | [] => [(k, e)]
  | (k', e') :: rest =>
      if String.eqb k k' then (k, e) :: rest else (k', e') :: cache_set k e rest
  end.

(** The clock reads [t]; nothing else changes. *)
Definition at_time (t : Z) (st : state) : state :=
  {| cache := cache st; lastRequestTime := lastRequestTime st; now := t;
     sent := sent st |}.

(** [await new Promise(resolve => setTimeout(resolve, ms))]: the timer is
    taken to fire when it is due. *)
Definition sleep (ms : Z) (st : state) : state := at_time (now st + ms) st.

(** The body of [try]: the rejection of [fetch], the error thrown for a
    response that is not [ok], or what [response.json()] gives. *)
Definition settle (x : exchange) : completion value :=
  match x with
  | Rejects message => Throw message
  | Responds ok status statusText body =>
      if ok then body
      else Throw ("HTTP " ++ toString (Num status) ++ ": " ++ statusText)
  end.

(** The body of [try] up to the data: the arguments of [fetch] are built
    first, and [options.headers] throws there when [options] is [null], so
    that no fetch is sent; else the fetch is sent and takes its time. *)
Definition try_fetch (rt : runtime) (url : string) (options : value) (st : state)
  : completion value * state :=
  match get options "headers" with
  | Throw message => (Throw message, st)
  | Normal _ =>
      let (took, x) := upstream rt (List.length (sent st)) in
      (settle x,
       {| cache := cache st; lastRequestTime := lastRequestTime st;
          now := now st + took; sent := (sent st ++ [url])%list |})
  end.

(** The [for] loop of [request] over the attempts that are left. *)
Fixpoint attempts (rt : runtime) (cacheKey url : string) (options : value)
  (rest : list Z) (st : state) : completion value * state :=
  match rest with
  | [] => (Normal VUndefined, st)
  | attempt :: rest' =>
      let (r, st1) := try_fetch rt url options st in
      match r with
      | Normal d =>
          (Normal d,
           {| cache := cache_set cacheKey {| data := d; timestamp := now st1 |} (cache st1);
              lastRequestTime := lastRequestTime st1; now := now st1;
              sent := sent st1 |})
      | Throw message =>
          if attempt =? RETRY_ATTEMPTS - 1 then (Throw message, st1)
          else attempts rt cacheKey url options rest' (sleep (2 ^ attempt * 1000) st1)
      end
  end.

(** [request] past the cache: the throttle, then the attempts. *)
Definition send (rt : runtime) (cacheKey endpoint : string) (options : value)
  (st : state) : completion value * state :=
  let timeSinceLastRequest := now st - lastRequestTime st in
  let st1 := if timeSinceLastRequest <? minRequestInterval
             then sleep (minRequestInterval - timeSinceLastRequest) st
             else st in
  let st2 := {| cache := cache st1; lastRequestTime := now st1; now := now st1;
                sent := sent st1 |} in
  attempts rt cacheKey (API_BASE ++ endpoint) options
    (map Z.of_nat (seq 0 (Z.to_nat RETRY_ATTEMPTS))) st2.

(** The default of the parameter: [options = {}] stands in for [undefined]
    only. *)
Definition or_default (options : value) : value :=
  match options with
  | VUndefined => VObj []
  | _ => options
  end.

(** The key of a request in the cache. *)
Definition cacheKey (rt : runtime) (endpoint : string) (options : value) : string :=
  endpoint ++ ":" ++ stringify rt (or_default options).

(** [ApiClient.request(endpoint, options = {})]. *)
Definition request (rt : runtime) (endpoint : string) (options : value) (st : state)
  : completion value * state :=
  let key := cacheKey rt endpoint options in
  match cache_get key (cache st) with
  | Some cached =>
      if now st - timestamp cached <? cacheTimeout
      then (Normal (data cached), st)
      else send rt key endpoint (or_default options) st
  | None => send rt key endpoint (or_default options) st
  end.

(** [clearCache] by way of [cleanupMemory]. *)
Definition cleanupMemory (st : state) : state :=
  {| cache := []; lastRequestTime := lastRequestTime st; now := now st;
     sent := sent st |}.

(** The object [checkServerStatus] returns from its [catch]. *)
Definition offline (message : string) : value :=
  VObj [("online", VBool false); ("error", VStr message)].

(** [checkServerStatus]: the [try] reads [status.online] for the log line. *)
Definition checkServerStatus (rt : runtime) (st : state) : value * state :=
  match request rt "/status" (VObj []) st with
  | (Normal status, st') =>
      match get status "online" with
      | Normal _ => (status, st')
      | Throw message => (offline message, st')
      end
  | (Throw message, st') => (offline message, st')
  end.

(** An element of the argument of [performBatchOperations]. *)
Record operation : Type := mkOperation {
  endpoint : string;
  options : value
}.

(** The [for ... of] loop of [performBatchOperations]. *)
Fixpoint batch (rt : runtime) (operations : list operation) (results : list value)
  (st : state) : completion (list value) * state :=
  match operations with
  | [] => (Normal results, st)
  | op :: rest =>
      match request rt (endpoint op) (options op) st with
      | (Normal result, st') => batch rt rest (results ++ [result])%list st'
      | (Throw message, st') => (Throw message, st')
      end
  end.

(** [performBatchOperations]. *)
Definition performBatchOperations (rt : runtime) (operations : list operation)
  (st : state) : list value * state :=
  match batch rt operations [] st with
  | (Normal results, st') => (results, st')
  | (Throw _, st') => ([], st')
  end.

(** A server that is down, and one that answers every request with the same
    object after 20 ms. *)
Definition down : runtime :=
  {| stringify := fun _ => "{}";
     upstream := fun _ => (5, Rejects "fetch failed") |}.

Definition up : runtime :=
  {| stringify := fun _ => "{}";
     upstream := fun _ => (20, Responds true 200 "OK" (Normal (VObj [("online", VBool true)]))) |}.

(** A server that fails twice and then answers with the JSON text [null]. *)
Definition recovering : runtime :=
  {| stringify := fun _ => "{}";
     upstream := fun n =>
       if (n <? 2)%nat then (5, Responds false 503 "Service Unavailable" (Throw "no body"))
       else (20, Responds true 200 "OK" (Normal VNull)) |}.

End Client.

(* ================================================================== *)
(** * Facts about the record mapping and the pagination loop *)
(* ================================================================== *)

Module FetchFacts.
Import JS Fetch Scenario.

Lemma get_present v k : nullish v = false -> get v k = Normal (member v k).
Proof. unfold get; intros ->; reflexivity. Qed.

Lemma get_absent v k : nullish v = true -> get v k = Throw (type_error v k).
Proof. unfold get; intros ->; reflexivity. Qed.

Lemma opt_get_truthy v k :
  truthy (opt_get v k) = true -> nullish v = false /\ opt_get v k = member v k.
Proof.
  unfold opt_get; destruct (nullish v); simpl; [discriminate | auto].
Qed.

Lemma truthy_not_nullish v : truthy v = true -> nullish v = false.
Proof. destruct v; simpl; congruence. Qed.

Lemma opt_get_chain_truthy v a b :
  truthy (opt_get (opt_get v a) b) = true ->
  nullish v = false /\ nullish (member v a) = false
  /\ opt_get (opt_get v a) b = member (member v a) b.
Proof.
  intros H; apply opt_get_truthy in H as [N1 E1].
  unfold opt_get in N1, E1 |- *.
  destruct (nullish v); [discriminate |].
  rewrite N1; auto.
Qed.

(** With a [properties] container the status expression never throws. *)
Lemma status_of_label props :
  nullish props = false ->
  status_of props = Normal (status_label (member props "Status")).
Proof.
  intros Hp; unfold status_of, status_label.
  rewrite (get_present _ _ Hp); simpl.
  destruct (truthy (opt_get (opt_get (member props "Status") "status") "name")) eqn:E1.
  - apply opt_get_chain_truthy in E1 as (N0 & N1 & ->).
    rewrite (get_present _ _ N0); simpl. rewrite (get_present _ _ N1); reflexivity.
  - destruct (truthy (opt_get (opt_get (member props "Status") "select") "name")) eqn:E2;
      [| reflexivity].
    apply opt_get_chain_truthy in E2 as (N0 & N1 & ->).
    rewrite (get_present _ _ N0); simpl. rewrite (get_present _ _ N1); reflexivity.
Qed.

(** A record whose [properties] container is present is mapped without a
    throw, whatever the container holds: every field is the nested value
    when that is truthy and the default otherwise. *)
Lemma mapTask_present task :
  nullish task = false -> nullish (member task "properties") = false ->
  let props := member task "properties" in
  mapTask task
  = Normal {|
      id := member task "id";
      idNumber := or_else (opt_get (opt_get (member props "ID") "unique_id") "number")
                          (VNum 0);
      name := or_else (opt_get (opt_first (opt_get (member props "Task name") "title"))
                               "plain_text") (VStr "Untitled");
      status := status_label (member props "Status");
      priority := or_else (opt_get (opt_get (member props "Priority") "select") "name")
                          (VStr "Medium");
      role := or_else (opt_get (opt_get (member props "Role") "select") "name")
                      (VStr "Unassigned");
      dueDate := or_else (opt_get (opt_get (member props "Due date") "date") "start") VNull;
      pastDue := or_else (opt_get (opt_get (member props "Past due") "formula") "boolean")
                         (VBool false);
      summary := or_else (opt_get (opt_first (opt_get (member props "Summary") "rich_text"))
                                  "plain_text") (VStr "")
    |}.
Proof.
  intros Ht Hp props; unfold mapTask.
  rewrite (get_present _ _ Ht); simpl.
  rewrite (status_of_label _ Hp); simpl.
  unfold field2, text_field.
  rewrite (get_present _ _ Ht); simpl.
  rewrite !(get_present _ _ Hp); reflexivity.
Qed.

Lemma mapServerTask_present task :
  nullish task = false -> nullish (member task "properties") = false ->
  exists r,
    mapServerTask task = Normal r
    /\ mapTask task = Normal (base r)
    /\ taskType r
       = or_else (opt_get (opt_get (member (member task "properties") "Task type")
                                   "select") "name") (VStr "Task").
Proof.
  intros Ht Hp; rewrite (mapTask_present _ Ht Hp); unfold mapServerTask.
  rewrite (get_present _ _ Ht); simpl.
  rewrite (status_of_label _ Hp); simpl.
  unfold field2, text_field.
  rewrite (get_present _ _ Ht); simpl.
  rewrite !(get_present _ _ Hp); simpl.
  eexists; repeat split.
Qed.

(** A field that is missing at any level takes its default. *)
Lemma or_else_missing v d : truthy v = false -> or_else v d = d.
Proof. unfold or_else; intros ->; reflexivity. Qed.

Lemma opt_get_missing v k : nullish v = true -> opt_get v k = VUndefined.
Proof. unfold opt_get; intros ->; reflexivity. Qed.

Lemma status_label_missing Status :
  nullish Status = true -> status_label Status = VStr "No Status".
Proof. destruct Status; try discriminate; reflexivity. Qed.

(** An empty [properties] container gives every documented default. *)
Lemma mapTask_defaults :
  mapTask bare_record
  = Normal {| id := VStr "t1"; idNumber := VNum 0; name := VStr "Untitled";
              status := VStr "No Status"; priority := VStr "Medium";
              role := VStr "Unassigned"; dueDate := VNull; pastDue := VBool false;
              summary := VStr "" |}.
Proof. reflexivity. Qed.

Lemma mapServerTask_defaults :
  exists r, mapServerTask bare_record = Normal r
            /\ mapTask bare_record = Normal (base r)
            /\ taskType r = VStr "Task".
Proof. eexists; repeat split. Qed.

Section Loop.
Context {A : Type} (f : value -> completion A) (api : endpoint).

Lemma loop_unfold fuel (acc : list A) hm nc r :
  loop f api fuel acc hm nc r =
  if truthy hm && (Z.of_nat (List.length acc) <? CAP) then
    match fuel with
    | O => (Running, r)
    | S fuel' =>
        match api r (cursor_of nc) with
        | Reject m => (Thrown m, S r)
        | Resolve response =>
            match absorb f acc response with
            | Throw m => (Thrown m, S r)
            | Normal (acc', hm', nc') => loop f api fuel' acc' hm' nc' (S r)
            end
        end
    end
  else (Returned acc, r).
Proof. destruct fuel; reflexivity. Qed.

(** The guard is looked at before anything is requested. *)
Lemma loop_exit fuel (acc : list A) hm nc r :
  CAP <= Z.of_nat (List.length acc) ->
  loop f api fuel acc hm nc r = (Returned acc, r).
Proof.
  intros H; rewrite loop_unfold.
  replace (Z.of_nat (List.length acc) <? CAP) with false by (symmetry; apply Z.ltb_ge; exact H).
  rewrite andb_false_r; reflexivity.
Qed.

Lemma absorb_more_page (acc : list A) response tasks :
  more_page f response tasks ->
  absorb f acc response
  = Normal ((acc ++ tasks)%list, member response "has_more", member response "next_cursor").
Proof.
  intros (Hn & _ & xs & Hr & Hm); unfold absorb.
  rewrite !(get_present _ _ Hn); simpl.
  rewrite Hr; simpl. rewrite Hm; reflexivity.
Qed.

(** Below the cap and with has-more set, the loop runs to the first page
    that reaches the cap. *)
Lemma loop_capped lo hi :
  keeps_going f api lo hi -> 1 <= lo ->
  forall fuel (acc : list A) hm nc r,
    truthy hm = true ->
    Z.of_nat (List.length acc) < CAP ->
    CAP - Z.of_nat (List.length acc) <= Z.of_nat fuel * lo ->
    exists l pages,
      loop f api fuel acc hm nc r = (Returned l, (r + pages)%nat)
      /\ (1 <= pages)%nat
      /\ CAP <= Z.of_nat (List.length l) <= CAP - 1 + hi
      /\ Z.of_nat (List.length acc) + Z.of_nat pages * lo <= Z.of_nat (List.length l)
         <= Z.of_nat (List.length acc) + Z.of_nat pages * hi.
Proof.
  intros Hk Hlo; induction fuel as [|fuel IH]; intros acc hm nc r Hhm Hlt Hfuel.
  - change (Z.of_nat 0) with 0 in Hfuel; lia.
  - rewrite loop_unfold, Hhm.
    replace (Z.of_nat (List.length acc) <? CAP) with true by (symmetry; apply Z.ltb_lt; exact Hlt).
    simpl andb; cbv iota.
    destruct (Hk r (cursor_of nc)) as (response & tasks & -> & Hpage & Hsize).
    rewrite (absorb_more_page _ _ _ Hpage).
    destruct Hpage as (_ & Hmore & _).
    assert (Hlen : Z.of_nat (List.length (acc ++ tasks)%list)
                   = Z.of_nat (List.length acc) + Z.of_nat (List.length tasks))
      by (rewrite length_app; lia).
    destruct (Z_lt_ge_dec (Z.of_nat (List.length (acc ++ tasks)%list)) CAP) as [Hbelow | Hreached].
    + destruct (IH (acc ++ tasks)%list (member response "has_more")
                   (member response "next_cursor") (S r) Hmore Hbelow)
        as (l & pages & Heq & Hp & Hcap & Hsum); [nia |].
      exists l, (S pages); rewrite Heq.
      repeat split; try lia; try nia; f_equal; lia.
    + exists (acc ++ tasks)%list, 1%nat; rewrite loop_exit by lia.
      repeat split; try lia; f_equal; lia.
Qed.

(** A run that ends does so whatever fuel is left over. *)
Lemma loop_more_fuel fuel :
  forall (acc : list A) hm nc r o n,
    loop f api fuel acc hm nc r = (o, n) -> o <> Running ->
    loop f api (S fuel) acc hm nc r = (o, n).
Proof.
  induction fuel as [|fuel IH]; intros acc hm nc r o n H Ho;
    rewrite loop_unfold in H; rewrite loop_unfold;
    destruct (truthy hm && (Z.of_nat (List.length acc) <? CAP)); try exact H.
  - injection H as <- <-; contradiction.
  - destruct (api r (cursor_of nc)) as [response | m]; [| exact H].
    destruct (absorb f acc response) as [[[acc' hm'] nc'] | m]; [| exact H].
    apply IH; assumption.
Qed.

Lemma loop_fuel_irrelevant fuel fuel' (acc : list A) hm nc r o n :
  loop f api fuel acc hm nc r = (o, n) -> o <> Running -> (fuel <= fuel')%nat ->
  loop f api fuel' acc hm nc r = (o, n).
Proof.
  intros H Ho Hle; induction Hle; [exact H | apply loop_more_fuel; assumption].
Qed.

End Loop.

(** C3, as the code has it.  When the upstream keeps reporting has-more with
    well-formed pages of at least one record, the loop returns after the
    first page that brings the count to 3000 or more: the list has at least
    3000 records and fewer than 3000 plus the largest page size.  With pages
    of one fixed size the length is that size times the number of pages
    needed to reach 3000, which is exactly 3000 records after 30 requests
    for the requested page size of 100. *)
Theorem C3_accumulation_stops_at_first_page_reaching_cap
  {A : Type} (f : value -> completion A) (api : endpoint) (lo hi : Z)
  (fuel requests : nat) :
  keeps_going f api lo hi -> 1 <= lo -> 3000 <= Z.of_nat fuel ->
  exists l pages,
    fetchAll f api fuel requests = (Returned l, (requests + pages)%nat)
    /\ 3000 <= Z.of_nat (List.length l) <= 2999 + hi
    /\ Z.of_nat pages * lo <= Z.of_nat (List.length l) <= Z.of_nat pages * hi
    /\ (lo = hi -> Z.of_nat (List.length l) = lo * ((2999 + lo) / lo))
    /\ (lo = 100 -> hi = 100 -> List.length l = 3000%nat /\ pages = 30%nat).
Proof.
  intros Hk Hlo Hfuel; unfold fetchAll.
  destruct (loop_capped f api lo hi Hk Hlo fuel [] (VBool true) VNull requests)
    as (l & pages & Heq & Hp & Hcap & Hsum); try reflexivity.
  { unfold CAP; change (Z.of_nat (List.length (@nil A))) with 0; nia. }
  unfold CAP in Hcap; change (Z.of_nat (List.length (@nil A))) with 0 in Hsum.
  exists l, pages; rewrite Heq; repeat split; try lia.
  intros <-.
  assert (Hl : Z.of_nat (List.length l) = Z.of_nat pages * lo) by lia.
  rewrite Hl, Z.mul_comm; f_equal.
  apply Z.div_unique with (r := 2999 + lo - lo * Z.of_nat pages); lia.
Qed.

Lemma endless_keeps_going (k : nat) :
  keeps_going mapTask (endless k) (Z.of_nat k) (Z.of_nat k).
Proof.
  intros n cursor.
  assert (Hmap : forall j, exists tasks,
             map_throwing mapTask (repeat bare_record j) = Normal tasks
             /\ List.length tasks = j).
  { induction j as [|j [tasks [IH Hlen]]]; [exists []; split; reflexivity |].
    eexists; split; [cbn [repeat map_throwing]; rewrite IH, mapTask_defaults; reflexivity |].
    simpl; congruence. }
  destruct (Hmap k) as [tasks [Hm Hlen]].
  exists (page bare_record k true), tasks; split; [reflexivity | split].
  - repeat split; eexists; split; [reflexivity | exact Hm].
  - lia.
Qed.

Lemma C3_full_pages_stop_at_3000 :
  exists l pages,
    fetchAll mapTask (endless 100) 3000 0 = (Returned l, (0 + pages)%nat)
    /\ 3000 <= Z.of_nat (List.length l) <= 2999 + 100
    /\ Z.of_nat pages * 100 <= Z.of_nat (List.length l) <= Z.of_nat pages * 100
    /\ (100 = 100 -> Z.of_nat (List.length l) = 100 * ((2999 + 100) / 100))
    /\ (100 = 100 -> 100 = 100 -> List.length l = 3000%nat /\ pages = 30%nat).
Proof.
  apply (C3_accumulation_stops_at_first_page_reaching_cap mapTask (endless 100) 100 100).
  - exact (endless_keeps_going 100).
  - lia.
  - vm_compute; discriminate.
Defined.

(** C3 as stated fails: with 70 records a page the loop leaves with 3010. *)
Lemma C3_pages_of_70_overshoot :
  keeps_going mapTask (endless 70) 70 70
  /\ exists l, fetchAllNotionTasks (endless 70) 3000 0 = (Returned l, 43%nat)
               /\ List.length l = 3010%nat.
Proof.
  split; [exact (endless_keeps_going 70) |].
  eexists; split; vm_compute; reflexivity.
Qed.

(** C7, as the code behaves where it departs from it.  A record without a
    [properties] container makes the mapping throw at [props.Status], the
    one read that is not guarded, in both copies of the callback. *)
Theorem C7_record_without_properties_throws task :
  nullish task = false -> nullish (member task "properties") = true ->
  mapTask task = Throw (type_error (member task "properties") "Status")
  /\ mapServerTask task = Throw (type_error (member task "properties") "Status").
Proof.
  intros Ht Hp; unfold mapTask, mapServerTask, status_of.
  rewrite (get_present _ _ Ht); simpl.
  rewrite (get_absent _ _ Hp); split; reflexivity.
Qed.

Lemma C7_headless_record_ends_the_pass :
  (mapTask headless_record
   = Throw (type_error (member headless_record "properties") "Status")
   /\ mapServerTask headless_record
      = Throw (type_error (member headless_record "properties") "Status"))
  /\ type_error (member headless_record "properties") "Status"
     = "Cannot read properties of undefined (reading 'Status')"
  /\ fetchAllNotionTasks malformed 10 0
     = (Thrown "Cannot read properties of undefined (reading 'Status')", 1%nat).
Proof.
  split; [| split; reflexivity].
  apply (C7_record_without_properties_throws headless_record); reflexivity.
Defined.

End FetchFacts.

(* ================================================================== *)
(** * Facts about the cache *)
(* ================================================================== *)

Module WidgetFacts.
Import JS Fetch Widget Scenario.

Lemma mark_cached_idem c : mark_cached (mark_cached c) = mark_cached c.
Proof. reflexivity. Qed.

Lemma getDWEStats_hit rt fuel now clock st c :
  cachedStats st = Some c -> now - cacheTime st < CACHE_DURATION ->
  getDWEStats rt fuel now clock st = (Returned (mark_cached c), st).
Proof.
  intros Hc Hlt; unfold getDWEStats; rewrite Hc.
  apply Z.ltb_lt in Hlt; rewrite Hlt; reflexivity.
Qed.

(** What a call that goes on to fetch does, by the outcome of the pass. *)
Lemma getDWEStats_refresh rt fuel now clock st :
  refreshes rt st now ->
  getDWEStats rt fuel now clock st =
  match fetchAllNotionTasks (notion rt) fuel (requests st) with
  | (Returned allTasks, n) =>
      let c := aggregate (ToNumberObj rt) allTasks clock in
      (Returned c, {| cachedStats := Some c; cacheTime := now; requests := n |})
  | (Thrown message, n) =>
      (Returned (match cachedStats st with
                 | Some c => c
                 | None => baseline message clock
                 end), with_requests st n)
  | (Running, n) => (Running, with_requests st n)
  end.
Proof.
  intros [Hf Hk]; unfold getDWEStats, fresh in *.
  apply String.eqb_neq in Hk; rewrite Hk.
  destruct (cachedStats st); [rewrite Hf|]; reflexivity.
Qed.

(** A call has one of five shapes. *)
Lemma getDWEStats_cases rt fuel now clock st :
  (exists c, cachedStats st = Some c /\ now - cacheTime st < CACHE_DURATION
             /\ getDWEStats rt fuel now clock st = (Returned (mark_cached c), st))
  \/ (fresh st now = false /\ NOTION_API_KEY rt = ""
      /\ getDWEStats rt fuel now clock st
         = (Returned (baseline "Notion API key not configured" clock), st))
  \/ (refreshes rt st now /\ exists allTasks n,
        fetchAllNotionTasks (notion rt) fuel (requests st) = (Returned allTasks, n)
        /\ getDWEStats rt fuel now clock st
           = (Returned (aggregate (ToNumberObj rt) allTasks clock),
              {| cachedStats := Some (aggregate (ToNumberObj rt) allTasks clock);
                 cacheTime := now; requests := n |}))
  \/ (refreshes rt st now /\ exists message n,
        fetchAllNotionTasks (notion rt) fuel (requests st) = (Thrown message, n)
        /\ getDWEStats rt fuel now clock st
           = (Returned (match cachedStats st with
                        | Some c => c
                        | None => baseline message clock
                        end), with_requests st n))
  \/ (refreshes rt st now /\ exists n,
        getDWEStats rt fuel now clock st = (Running, with_requests st n)).
Proof.
  destruct (fresh st now) eqn:Hf.
  - left. unfold fresh in Hf. destruct (cachedStats st) as [c|] eqn:Hc; [|discriminate].
    apply Z.ltb_lt in Hf. exists c; repeat split; auto.
    unfold getDWEStats; rewrite Hc. apply Z.ltb_lt in Hf; rewrite Hf; reflexivity.
  - right. destruct (String.eqb (NOTION_API_KEY rt) "") eqn:Hk.
    + left. apply String.eqb_eq in Hk. repeat split; auto.
      unfold getDWEStats, fresh in *. rewrite Hk; simpl.
      destruct (cachedStats st); [rewrite Hf|]; reflexivity.
    + right. apply String.eqb_neq in Hk.
      assert (Hr : refreshes rt st now) by (split; assumption).
      rewrite (getDWEStats_refresh _ fuel _ clock _ Hr).
      destruct (fetchAllNotionTasks (notion rt) fuel (requests st)) as [[allTasks|message|] n].
      * left; split; eauto.
      * right; left; split; eauto.
      * right; right; split; eauto.
Qed.

(** [getDWEStats] never throws. *)
Lemma getDWEStats_never_throws rt fuel now clock st message :
  fst (getDWEStats rt fuel now clock st) <> Thrown message.
Proof.
  destruct (getDWEStats_cases rt fuel now clock st)
    as [(c & _ & _ & ->) | [(_ & _ & ->) | [(_ & a & n & _ & ->)
       | [(_ & m & n & _ & ->) | (_ & n & ->)]]]]; simpl; discriminate.
Qed.

(** The cache only ever holds payloads of successful passes. *)
Lemma clean_cache_initial : clean_cache initial.
Proof. intros c; discriminate. Qed.

Lemma clean_cache_preserved rt fuel now clock st :
  clean_cache st -> clean_cache (snd (getDWEStats rt fuel now clock st)).
Proof.
  intros Hc.
  destruct (getDWEStats_cases rt fuel now clock st)
    as [(c & _ & _ & ->) | [(_ & _ & ->) | [(_ & a & n & _ & ->)
       | [(_ & m & n & _ & ->) | (_ & n & ->)]]]]; simpl; auto.
  intros c [= <-]; split; reflexivity.
Qed.



(** C2.  When the pass of a call throws, the call returns all the same: the
    previous entry as it is when there is one, else the baseline payload
    (1020, 562, 4, 458, 1020) with the message of the failure in [error]. *)
Theorem C2_failed_pass_falls_back rt fuel now clock st message n :
  refreshes rt st now ->
  fetchAllNotionTasks (notion rt) fuel (requests st) = (Thrown message, n) ->
  exists p,
    getDWEStats rt fuel now clock st = (Returned p, with_requests st n)
    /\ (forall c, cachedStats st = Some c -> p = c)
    /\ (cachedStats st = None ->
        p = {| total := Num 1020; completed := Num 562; inProgress := Num 4;
               remaining := Num 458; maxId := Num 1020; activeTasks := None;
               lastUpdated := clock; cached := None; error := Some message |}).
Proof.
  intros Hr Hfail; rewrite (getDWEStats_refresh _ _ _ _ _ Hr), Hfail.
  eexists; split; [reflexivity | split].
  - intros c ->; reflexivity.
  - intros ->; reflexivity.
Qed.

Lemma C2_unreachable_without_cache :
  exists p,
    getDWEStats (configured unreachable) 10 5000 5001 initial
    = (Returned p, with_requests initial 1)
    /\ (forall c, cachedStats initial = Some c -> p = c)
    /\ (cachedStats initial = None ->
        p = {| total := Num 1020; completed := Num 562; inProgress := Num 4;
               remaining := Num 458; maxId := Num 1020; activeTasks := None;
               lastUpdated := 5001; cached := None; error := Some "socket hang up" |}).
Proof.
  apply (C2_failed_pass_falls_back (configured unreachable) 10 5000 5001 initial
           "socket hang up" 1).
  - split; [reflexivity | simpl; discriminate].
  - reflexivity.
Defined.

(** C8 as stated fails: an upstream that answered once and then fails leaves
    the second call, past the window, with the stale entry and no [error]. *)
Lemma C8_stale_fallback_carries_no_error :
  let rt := configured flaky in
  let '(first, st) := getDWEStats rt 10 0 1 initial in
  let '(second, st') := getDWEStats rt 10 300000 300001 st in
  first = Returned (two_done 1)
  /\ fetchAllNotionTasks (notion rt) 10 (requests st) = (Thrown "socket hang up", 2%nat)
  /\ second = Returned (two_done 1)
  /\ error (two_done 1) = None.
Proof. repeat split. Qed.

(** C8, as the code has it.  A failed pass is never thrown to the caller.
    With no entry in the cache the result carries the message of the failure
    in [error]; with an entry the result is that entry, unchanged, and has no
    [error]. *)
Theorem C8_error_detail_only_on_baseline rt fuel now clock st message n :
  clean_cache st -> refreshes rt st now ->
  fetchAllNotionTasks (notion rt) fuel (requests st) = (Thrown message, n) ->
  exists p,
    fst (getDWEStats rt fuel now clock st) = Returned p
    /\ (cachedStats st = None -> error p = Some message)
    /\ (forall c, cachedStats st = Some c -> p = c /\ error p = None).
Proof.
  intros Hclean Hr Hfail; rewrite (getDWEStats_refresh _ _ _ _ _ Hr), Hfail.
  eexists; split; [reflexivity | split].
  - intros ->; reflexivity.
  - intros c Hc; rewrite Hc; split; [reflexivity | apply (Hclean c Hc)].
Qed.

Lemma C8_flaky_upstream :
  exists p,
    fst (getDWEStats (configured flaky) 10 300000 300001
           (snd (getDWEStats (configured flaky) 10 0 1 initial))) = Returned p
    /\ (cachedStats (snd (getDWEStats (configured flaky) 10 0 1 initial)) = None ->
        error p = Some "socket hang up")
    /\ (forall c, cachedStats (snd (getDWEStats (configured flaky) 10 0 1 initial)) = Some c ->
                  p = c /\ error p = None).
Proof.
  apply (C8_error_detail_only_on_baseline (configured flaky) 10 300000 300001
           (snd (getDWEStats (configured flaky) 10 0 1 initial)) "socket hang up" 2).
  - apply clean_cache_preserved, clean_cache_initial.
  - split; [reflexivity | simpl; discriminate].
  - reflexivity.
Defined.

(** C10.  The payload of a successful pass has [total = maxId] and
    [remaining = total - completed]; it is also what the cache then holds.
    The largest sequence id is taken to be a safe integer (at most
    [2^53 - 1]) or [NaN], so that the subtraction of the code is exact. *)
Theorem C10_remaining_is_total_minus_completed rt fuel now clock st allTasks n :
  refreshes rt st now ->
  fetchAllNotionTasks (notion rt) fuel (requests st) = (Returned allTasks, n) ->
  safe (max_id (ToNumberObj rt) allTasks) ->
  exists p st',
    getDWEStats rt fuel now clock st = (Returned p, st')
    /\ cachedStats st' = Some p
    /\ total p = maxId p
    /\ maxId p = max_id (ToNumberObj rt) allTasks
    /\ completed p = count is_completed allTasks
    /\ remaining p = sub (total p) (completed p)
    /\ (forall m k, total p = Num m -> completed p = Num k ->
        remaining p = Num (m - k) /\ m <= MAX_SAFE_INTEGER /\ m - k <= MAX_SAFE_INTEGER
        /\ 0 <= k <= Z.of_nat (List.length allTasks)).
Proof.
  intros Hr Hok Hsafe; rewrite (getDWEStats_refresh _ _ _ _ _ Hr), Hok.
  do 2 eexists.
  split; [reflexivity|]. split; [reflexivity|]. split; [reflexivity|].
  split; [reflexivity|]. split; [reflexivity|]. split; [reflexivity|].
  cbn [total completed remaining aggregate]. intros m k Hm Hk.
  rewrite Hm in Hsafe. cbn [safe] in Hsafe. rewrite Hm.
  unfold count in *. injection Hk as <-. cbn [sub].
  pose proof (filter_length_le is_completed allTasks) as Hle.
  repeat split; lia.
Qed.

Lemma C10_single_page :
  exists p st',
    getDWEStats (configured single_page) 10 1000 1001 initial = (Returned p, st')
    /\ cachedStats st' = Some p
    /\ total p = maxId p
    /\ maxId p = max_id (ToNumberObj (configured single_page))
                        (match fst (fetchAllNotionTasks single_page 10 0) with
                         | Returned l => l | _ => [] end)
    /\ completed p = count is_completed
                        (match fst (fetchAllNotionTasks single_page 10 0) with
                         | Returned l => l | _ => [] end)
    /\ remaining p = sub (total p) (completed p)
    /\ (forall m k, total p = Num m -> completed p = Num k ->
        remaining p = Num (m - k) /\ m <= MAX_SAFE_INTEGER /\ m - k <= MAX_SAFE_INTEGER
        /\ 0 <= k <= Z.of_nat (List.length
                                 (match fst (fetchAllNotionTasks single_page 10 0) with
                                  | Returned l => l | _ => [] end))).
Proof.
  apply (C10_remaining_is_total_minus_completed (configured single_page) 10 1000 1001
           initial _ 1).
  - split; [reflexivity | simpl; discriminate].
  - reflexivity.
  - vm_compute. split; intros H; discriminate H.
Defined.

End WidgetFacts.

(* ================================================================== *)
(** * Facts about dates *)
(* ================================================================== *)

Module DateFacts.
Import JS DateTime.

Ltac unfold_time :=
  unfold MakeDate, MakeTime, Day, TimeWithinDay, HourFromTime, MinFromTime,
    SecFromTime, msFromTime, WeekDay, msPerDay, msPerHour, msPerMinute,
    msPerSecond in *.

(** [YearFromDay] is the year ECMAScript defines: the largest [y] whose
    first day is not after [d]. *)
Lemma YearFromDay_spec d :
  DayFromYear (YearFromDay d) <= d < DayFromYear (YearFromDay d + 1).
Proof.
  unfold YearFromDay, DayFromYear.
  repeat match goal with |- context [if ?b then _ else _] => destruct b eqn:? end;
    Z.div_mod_to_equations; lia.
Qed.

Lemma month_of_yday_range dy lp : 0 <= month_of_yday dy lp <= 11.
Proof.
  unfold month_of_yday.
  repeat match goal with |- context [if ?b then _ else _] => destruct b end; lia.
Qed.

(** A time value is the sum of its fields. *)
Lemma time_fields t :
  t = MakeDate (Day t) (MakeTime (HourFromTime t) (MinFromTime t) (SecFromTime t)
                                 (msFromTime t)).
Proof. unfold_time; Z.div_mod_to_equations; lia. Qed.

Lemma TimeClip_ordinary now t :
  ordinary now -> now - 8 * msPerDay <= t <= now + 8 * msPerDay -> TimeClip t = Num t.
Proof.
  unfold ordinary, TimeClip, msPerDay; intros H1 H2.
  destruct (Z.abs t >? 8640000000000000) eqn:E; [| reflexivity].
  apply Z.gtb_lt in E; lia.
Qed.

(** Setting a field moves the time value by the difference of the field. *)
Lemma setMinutes_moves t m :
  MakeDate (Day t) (MakeTime (HourFromTime t) m (SecFromTime t) (msFromTime t))
  = t + (m - MinFromTime t) * msPerMinute.
Proof. unfold_time; Z.div_mod_to_equations; lia. Qed.

Lemma setHours_moves t h :
  MakeDate (Day t) (MakeTime h (MinFromTime t) (SecFromTime t) (msFromTime t))
  = t + (h - HourFromTime t) * msPerHour.
Proof. unfold_time; Z.div_mod_to_equations; lia. Qed.

(** [MakeDay] of the fields of [t], with the day of the month moved by [k],
    is [k] days from the day of [t]. *)
Lemma MakeDay_moves t k :
  MakeDay (YearFromTime t) (MonthFromTime t) (DateFromTime t + k) = Day t + k.
Proof.
  unfold MakeDay, DateFromTime, MonthFromTime, DayWithinYear.
  set (lp := leap (YearFromTime t)).
  set (dy := Day t - DayFromYear (YearFromTime t)).
  pose proof (month_of_yday_range dy lp) as Hm.
  rewrite Z.div_small, Z.mod_small, Z.add_0_r by lia.
  fold lp; lia.
Qed.

Lemma setDate_moves t k :
  MakeDate (MakeDay (YearFromTime t) (MonthFromTime t) (DateFromTime t + k))
           (TimeWithinDay t)
  = t + k * msPerDay.
Proof. rewrite MakeDay_moves; unfold_time; Z.div_mod_to_equations; lia. Qed.

Lemma setMinutes_Num now t m :
  ordinary now ->
  now - 8 * msPerDay <= t + (m - MinFromTime t) * msPerMinute <= now + 8 * msPerDay ->
  setMinutes (Num t) (Num m) = Num (t + (m - MinFromTime t) * msPerMinute).
Proof.
  intros Ho Hr; cbn [setMinutes]; rewrite setMinutes_moves.
  exact (TimeClip_ordinary now _ Ho Hr).
Qed.

Lemma setHours_Num now t h :
  ordinary now ->
  now - 8 * msPerDay <= t + (h - HourFromTime t) * msPerHour <= now + 8 * msPerDay ->
  setHours (Num t) (Num h) = Num (t + (h - HourFromTime t) * msPerHour).
Proof.
  intros Ho Hr; cbn [setHours]; rewrite setHours_moves.
  exact (TimeClip_ordinary now _ Ho Hr).
Qed.

(** [d.setDate(d.getDate() + k)]. *)
Lemma setDate_Num now t k :
  ordinary now ->
  now - 8 * msPerDay <= t + k * msPerDay <= now + 8 * msPerDay ->
  setDate (Num t) (add (getDate (Num t)) (Num k)) = Num (t + k * msPerDay).
Proof.
  intros Ho Hr; cbn [setDate getDate lift add]; rewrite setDate_moves.
  exact (TimeClip_ordinary now _ Ho Hr).
Qed.

Lemma MinFromTime_range t : 0 <= MinFromTime t < 60.
Proof. unfold MinFromTime; apply Z.mod_pos_bound; lia. Qed.

(** The day of the month is at least 1. *)
Lemma month_start_le dy lp :
  0 <= dy -> month_start (month_of_yday dy lp) lp <= dy.
Proof.
  intros Hdy; unfold month_of_yday.
  repeat match goal with
         | |- context [if ?a <? ?b then _ else _] => destruct (Z.ltb_spec a b)
         end; assumption || (change (month_start 0 lp) with 0; exact Hdy).
Qed.

Lemma DateFromTime_positive t : 1 <= DateFromTime t.
Proof.
  unfold DateFromTime, DayWithinYear, YearFromTime.
  pose proof (YearFromDay_spec (Day t)) as [Hy _].
  pose proof (month_start_le (Day t - DayFromYear (YearFromDay (Day t)))
                             (leap (YearFromDay (Day t)))) as Hm.
  lia.
Qed.

(** Years follow one another without gap or overlap. *)
Lemma DayFromYear_step y : DayFromYear (y + 1) = DayFromYear y + DaysInYear y.
Proof.
  unfold DayFromYear, DaysInYear, leap.
  destruct (Z.eqb_spec (y mod 4) 0), (Z.eqb_spec (y mod 100) 0),
    (Z.eqb_spec (y mod 400) 0); cbn [negb];
    Z.div_mod_to_equations; lia.
Qed.

Lemma DayFromYear_mono a b : a <= b -> DayFromYear a <= DayFromYear b.
Proof. unfold DayFromYear; intros; Z.div_mod_to_equations; lia. Qed.

Lemma DaysInYear_cases y : DaysInYear y = 365 \/ DaysInYear y = 366.
Proof. unfold DaysInYear; destruct (leap y); auto. Qed.

Lemma YearFromDay_unique d y :
  DayFromYear y <= d < DayFromYear (y + 1) -> YearFromDay d = y.
Proof.
  intros [Hlo Hhi]; pose proof (YearFromDay_spec d) as [Hlo' Hhi'].
  destruct (Z.lt_trichotomy (YearFromDay d) y) as [Hlt | [Heq | Hgt]]; [| exact Heq |].
  - pose proof (DayFromYear_mono (YearFromDay d + 1) y ltac:(lia)); lia.
  - pose proof (DayFromYear_mono (y + 1) (YearFromDay d) ltac:(lia)); lia.
Qed.

(** The day after [d] is in the same year, or is the first day of the next. *)
Lemma YearFromDay_next d :
  (YearFromDay (d + 1) = YearFromDay d
   /\ d + 1 < DayFromYear (YearFromDay d + 1))
  \/ (YearFromDay (d + 1) = YearFromDay d + 1
      /\ d + 1 = DayFromYear (YearFromDay d + 1)).
Proof.
  pose proof (YearFromDay_spec d) as [Hlo Hhi].
  destruct (Z_lt_le_dec (d + 1) (DayFromYear (YearFromDay d + 1))) as [Hin | Hout].
  - left; split; [apply YearFromDay_unique; lia | exact Hin].
  - right; split; [| lia].
    apply YearFromDay_unique.
    pose proof (DayFromYear_step (YearFromDay d + 1)).
    pose proof (DaysInYear_cases (YearFromDay d + 1)). lia.
Qed.

Lemma month_of_yday_last y :
  month_of_yday (DaysInYear y - 1) (leap y) = 11.
Proof. unfold DaysInYear; destruct (leap y); reflexivity. Qed.

Ltac eval_month_start :=
  repeat match goal with
         | |- context [month_start ?k ?b] =>
             lazymatch k with
             | Z0 => idtac | Zpos _ => idtac
             end;
             lazymatch b with
             | true => idtac | false => idtac
             end;
             let v := eval vm_compute in (month_start k b) in
             change (month_start k b) with v
         end.

Lemma month_of_yday_crossing dy lp :
  0 <= dy -> month_of_yday (dy + 1) lp <> month_of_yday dy lp ->
  month_start (month_of_yday (dy + 1) lp) lp = dy + 1.
Proof.
  intros Hdy; unfold month_of_yday.
  destruct lp; eval_month_start;
    repeat match goal with
           | |- context [if ?a <? ?b then _ else _] => destruct (Z.ltb_spec a b)
           end; eval_month_start; intros Hne; lia.
Qed.

Lemma month_of_yday_0 lp : month_of_yday 0 lp = 0.
Proof. destruct lp; reflexivity. Qed.

Lemma HourFromTime_range t : 0 <= HourFromTime t < 24.
Proof. unfold HourFromTime; apply Z.mod_pos_bound; lia. Qed.

(** The calendar fields depend on the day only. *)
Lemma DateFromTime_same_day a b : Day a = Day b -> DateFromTime a = DateFromTime b.
Proof.
  intros H; unfold DateFromTime, DayWithinYear, YearFromTime; rewrite H; reflexivity.
Qed.

Lemma MonthFromTime_same_day a b : Day a = Day b -> MonthFromTime a = MonthFromTime b.
Proof.
  intros H; unfold MonthFromTime, DayWithinYear, YearFromTime; rewrite H; reflexivity.
Qed.

End DateFacts.

(* ================================================================== *)
(** * Facts about [calculateNextRun] *)
(* ================================================================== *)

Module CronFacts.
Import JS DateTime Str Cron DateFacts.

Lemma last_char_app a b : b <> "" -> last_char (a ++ b) = last_char b.
Proof.
  intros Hb; induction a as [|c a IH]; [reflexivity |].
  change (String c a ++ b) with (String c (a ++ b)).
  cbn [last_char]; rewrite IH.
  destruct (a ++ b) eqn:E; [| reflexivity].
  destruct a; simpl in E; [contradiction | discriminate].
Qed.

Lemma app_not_empty a b : b <> "" -> a ++ b <> "".
Proof. destruct a; simpl; [auto | discriminate]. Qed.

(** Every label ends in the [m] of [am] or [pm]. *)
Lemma format_last_char now next : last_char (format now next) = Some "m"%char.
Proof.
  unfold format.
  set (suffix := toLowerCase (if gte (getHours next) (Num 12) then "PM" else "AM")).
  assert (Hs : suffix <> "" /\ last_char suffix = Some "m"%char)
    by (unfold suffix; destruct (gte (getHours next) (Num 12)); split;
        (discriminate || reflexivity)).
  destruct Hs as [Hne Hlast].
  repeat (rewrite last_char_app; [| repeat apply app_not_empty; exact Hne]).
  exact Hlast.
Qed.

Lemma format_not_Unknown now next : format now next <> "Unknown".
Proof.
  intros H; pose proof (format_last_char now next) as Hl.
  rewrite H in Hl; discriminate.
Qed.

Lemma next_multiple_facts cur N :
  0 < N ->
  cur < cur / N * N + N <= cur + N /\ (cur / N * N + N) mod N = 0.
Proof.
  intros HN.
  pose proof (Z.div_mod cur N ltac:(lia)) as Hd.
  pose proof (Z.mod_pos_bound cur N HN) as Hm.
  split; [nia |].
  replace (cur / N * N + N) with ((cur / N + 1) * N) by ring.
  apply Z.mod_mul; lia.
Qed.

Lemma next_multiple_below_two_hours cur N :
  0 <= cur < 60 -> 0 < N < 120 -> cur / N * N + N < 120.
Proof.
  intros Hc HN.
  destruct (Z_lt_le_dec cur N) as [Hlt | Hle].
  - rewrite Z.div_small by lia; lia.
  - pose proof (next_multiple_facts cur N ltac:(lia)); lia.
Qed.

Lemma minute_step_every m N now :
  ordinary now ->
  startsWith m "*/" = true ->
  parseInt (replace "*/" "" m) = Num N ->
  0 < N < 120 ->
  minute_step m (Num now) (Num now)
  = (Num (now + (MinFromTime now / N * N + N - MinFromTime now) * msPerMinute),
     60 <=? MinFromTime now / N * N + N).
Proof.
  intros Hord Hs Hp HN; unfold minute_step; rewrite Hs, Hp.
  cbn [getMinutes getHours lift next_multiple].
  replace (N =? 0) with false by (symmetry; apply Z.eqb_neq; lia).
  pose proof (next_multiple_facts (MinFromTime now) N ltac:(lia)) as [Hr _].
  pose proof (MinFromTime_range now) as Hc.
  set (r := MinFromTime now / N * N + N) in *.
  unfold gte, lte.
  destruct (60 <=? r) eqn:E.
  - apply Z.leb_le in E. cbn [add sub].
    rewrite (setHours_Num now) by (auto; unfold_time; lia).
    rewrite (setMinutes_Num now); auto.
    + do 2 f_equal. unfold_time; Z.div_mod_to_equations; lia.
    + unfold_time; Z.div_mod_to_equations; lia.
  - apply Z.leb_gt in E.
    rewrite (setMinutes_Num now); auto. unfold_time; lia.
Qed.

Lemma every_minute_candidate m N now :
  ordinary now ->
  startsWith m "*/" = true ->
  parseInt (replace "*/" "" m) = Num N ->
  0 < N < 120 ->
  candidate m "*" "*" (Num now)
  = Num (now + (MinFromTime now / N * N + N - MinFromTime now) * msPerMinute).
Proof.
  intros Hord Hs Hp HN; unfold candidate.
  rewrite (minute_step_every m N now Hord Hs Hp HN).
  destruct (startsWith m "*/"); reflexivity.
Qed.

(** C6.  For a minute field [*/N] (a step of 1 to 119 minutes) with every
    other field [*], the candidate is [now] moved to the next multiple [r] of
    [N] above the current minute: in the same hour at minute [r] when
    [r < 60], in the next hour at minute [r - 60] when [r] reaches 60.  With
    [*/15] that is 10:15 at 10:07, and 11:00 at 10:52. *)
Theorem C6_minute_step_rounds_up_to_next_multiple :
  (forall schedule m N now,
      ordinary now ->
      split_ws schedule = [m; "*"; "*"; "*"; "*"] ->
      startsWith m "*/" = true ->
      parseInt (replace "*/" "" m) = Num N ->
      0 < N < 120 ->
      let cur := MinFromTime now in
      let r := cur / N * N + N in
      let next := now + (r - cur) * msPerMinute in
      (cur < r <= cur + N /\ r mod N = 0)
      /\ candidate m "*" "*" (Num now) = Num next
      /\ calculateNextRun schedule now = format (Num now) (Num next)
      /\ (r < 60 ->
          MinFromTime next = r /\ HourFromTime next = HourFromTime now
          /\ Day next = Day now)
      /\ (60 <= r ->
          MinFromTime next = r - 60 /\ next / msPerHour = now / msPerHour + 1))
  /\ (forall now, ordinary now -> HourFromTime now = 10 -> MinFromTime now = 7 ->
                  calculateNextRun "*/15 * * * *" now = "10:15am")
  /\ (forall now, ordinary now -> HourFromTime now = 10 -> MinFromTime now = 52 ->
                  calculateNextRun "*/15 * * * *" now = "11:00am").
Proof.
  assert (General : forall schedule m N now,
      ordinary now ->
      split_ws schedule = [m; "*"; "*"; "*"; "*"] ->
      startsWith m "*/" = true ->
      parseInt (replace "*/" "" m) = Num N ->
      0 < N < 120 ->
      let cur := MinFromTime now in
      let r := cur / N * N + N in
      let next := now + (r - cur) * msPerMinute in
      (cur < r <= cur + N /\ r mod N = 0)
      /\ candidate m "*" "*" (Num now) = Num next
      /\ calculateNextRun schedule now = format (Num now) (Num next)
      /\ (r < 60 ->
          MinFromTime next = r /\ HourFromTime next = HourFromTime now
          /\ Day next = Day now)
      /\ (60 <= r ->
          MinFromTime next = r - 60 /\ next / msPerHour = now / msPerHour + 1)).
  { intros schedule m N now Hord Hsplit Hs Hp HN cur r next.
    assert (Hr : cur < r <= cur + N /\ r mod N = 0)
      by (apply next_multiple_facts; lia).
    pose proof (MinFromTime_range now) as Hc. fold cur in Hc.
    assert (Hr2 : r < 120) by (apply next_multiple_below_two_hours; assumption).
    pose proof (every_minute_candidate m N now Hord Hs Hp HN) as Hcand.
    change (candidate m "*" "*" (Num now) = Num next) in Hcand.
    split; [exact Hr | split; [exact Hcand | split; [| split]]].
    - unfold calculateNextRun; rewrite Hsplit. cbn [List.length Nat.ltb Nat.leb nth].
      rewrite Hcand; reflexivity.
    - intros Hlt; subst next; unfold cur in *; clearbody r.
      unfold_time; Z.div_mod_to_equations; lia.
    - intros Hge; subst next; unfold cur in *; clearbody r.
      unfold_time; Z.div_mod_to_equations; lia. }
  split; [exact General | split].
  - intros now Hord Hh Hm.
    destruct (General "*/15 * * * *" "*/15" 15 now Hord eq_refl eq_refl eq_refl ltac:(lia))
      as (_ & _ & -> & Hsame & _).
    rewrite Hm in *. change (7 / 15 * 15 + 15) with 15 in *.
    destruct (Hsame ltac:(lia)) as (Hmin & Hhour & Hday).
    unfold format, dayLabel, isToday.
    cbn [getHours getMinutes getDate getMonth lift].
    rewrite (DateFromTime_same_day _ _ Hday), (MonthFromTime_same_day _ _ Hday).
    rewrite Hmin, Hhour, Hh. cbn [strict_eq]. rewrite !Z.eqb_refl. reflexivity.
  - intros now Hord Hh Hm.
    destruct (General "*/15 * * * *" "*/15" 15 now Hord eq_refl eq_refl eq_refl ltac:(lia))
      as (_ & _ & -> & _ & Hroll).
    rewrite Hm in *. change (52 / 15 * 15 + 15) with 60 in *.
    destruct (Hroll ltac:(lia)) as (Hmin & Hnext).
    assert (Hhour : HourFromTime (now + (60 - 52) * msPerMinute) = 11)
      by (revert Hnext Hh; unfold_time; intros; Z.div_mod_to_equations; lia).
    assert (Hday : Day (now + (60 - 52) * msPerMinute) = Day now)
      by (revert Hnext Hh; unfold_time; intros; Z.div_mod_to_equations; lia).
    unfold format, dayLabel, isToday.
    cbn [getHours getMinutes getDate getMonth lift].
    rewrite (DateFromTime_same_day _ _ Hday), (MonthFromTime_same_day _ _ Hday).
    rewrite Hmin, Hhour. cbn [strict_eq]. rewrite !Z.eqb_refl. reflexivity.
Qed.

Lemma C6_every_quarter_hour :
  candidate "*/15" "*" "*" (Num (at_civil 2024 1 1 10 7)) = Num (at_civil 2024 1 1 10 15)
  /\ calculateNextRun "*/15 * * * *" (at_civil 2024 1 1 10 7) = "10:15am"
  /\ calculateNextRun "*/15 * * * *" (at_civil 2024 1 1 10 52) = "11:00am".
Proof.
  assert (Hord : forall m, m = 7 \/ m = 52 -> ordinary (at_civil 2024 1 1 10 m))
    by (intros m [-> | ->]; vm_compute; split; discriminate).
  destruct C6_minute_step_rounds_up_to_next_multiple as (General & H7 & H52).
  split; [| split].
  - exact (proj1 (proj2 (General "*/15 * * * *" "*/15" 15 (at_civil 2024 1 1 10 7)
                           (Hord 7 (or_introl eq_refl)) eq_refl eq_refl eq_refl
                           (conj eq_refl eq_refl)))).
  - apply H7; [exact (Hord 7 (or_introl eq_refl)) | reflexivity | reflexivity].
  - apply H52; [exact (Hord 52 (or_intror eq_refl)) | reflexivity | reflexivity].
Defined.

(** C5, as the code has it.  The sentinel is returned exactly for the
    schedules that split into fewer than five fields; with five fields or
    more the first five are used and the result is a label. *)
Theorem C5_Unknown_iff_fewer_than_five_fields (schedule : string) (now : Z) :
  String.eqb (calculateNextRun schedule now) "Unknown"
  = (List.length (split_ws schedule) <? 5)%nat.
Proof.
  unfold calculateNextRun.
  destruct (List.length (split_ws schedule) <? 5)%nat; [reflexivity |].
  apply String.eqb_neq, format_not_Unknown.
Qed.

(** C5 as stated fails: a schedule of six fields is given a label. *)
Lemma C5_six_fields_are_labelled :
  List.length (split_ws "0 9 * * 1 backup.sh") = 6%nat
  /\ calculateNextRun "0 9 * * 1 backup.sh" (at_civil 2024 1 1 8 0) = "9:00am"
  /\ calculateNextRun "0 9 * * 1 backup.sh" (at_civil 2024 1 1 8 0) <> "Unknown".
Proof. repeat split; vm_compute; discriminate. Qed.

(** On every Monday at 14:00 the schedule [0 9 * * 1] has its candidate 19
    hours ahead, on Tuesday at 09:00. *)
Lemma monday_afternoon_candidate now :
  ordinary now -> WeekDay now = 1 -> HourFromTime now = 14 -> MinFromTime now = 0 ->
  candidate "0" "9" "1" (Num now) = Num (now + 19 * msPerHour)
  /\ Day (now + 19 * msPerHour) = Day now + 1
  /\ HourFromTime (now + 19 * msPerHour) = 9.
Proof.
  intros Hord Hw Hh Hm.
  assert (Hfields : Day (now + 19 * msPerHour) = Day now + 1
                    /\ HourFromTime (now + 19 * msPerHour) = 9)
    by (revert Hh; unfold_time; intros; Z.div_mod_to_equations; lia).
  split; [| exact Hfields].
  unfold candidate, minute_step.
  change (startsWith "0" "*/") with false; change (String.eqb "0" "*") with false.
  change (parseInt "0") with (Num 0). cbv iota.
  rewrite (setMinutes_Num now) by (auto; rewrite Hm; unfold_time; unfold ordinary in *; lia).
  rewrite Hm. replace (now + (0 - 0) * msPerMinute) with now by lia.
  unfold hour_step.
  change (startsWith "9" "*/") with false; change (String.eqb "9" "*") with false.
  change (parseInt "9") with (Num 9). cbv iota. cbn [negb].
  rewrite (setHours_Num now) by (auto; rewrite Hh; unfold_time; lia).
  rewrite Hh. cbn [lte].
  replace (now + (9 - 14) * msPerHour <=? now) with true
    by (symmetry; apply Z.leb_le; unfold_time; lia).
  rewrite (setDate_Num now) by (auto; unfold_time; lia).
  unfold weekday_step.
  change (String.eqb "1" "*") with false; change (includes "1" "/") with false.
  change (parseInt "1") with (Num 1). cbn [negb andb getDay lift].
  rewrite Hw. cbn [sub add rem strict_eq]. change (7 =? 0) with false.
  change (Z.rem (1 - 1 + 7) 7) with 0. change (0 =? 0) with true. cbn [andb lte].
  replace (now + (9 - 14) * msPerHour + 1 * msPerDay <=? now) with false
    by (symmetry; apply Z.leb_gt; unfold_time; lia).
  rewrite andb_false_r.
  rewrite (setDate_Num now) by (auto; unfold_time; lia).
  f_equal; unfold_time; lia.
Qed.

(** A candidate on the first of a month is never labelled [Tomorrow]. *)
Lemma first_of_month_is_never_tomorrow now next :
  DateFromTime next = 1 -> isTomorrow (Num now) (Num next) = false.
Proof.
  intros H; unfold isTomorrow; cbn [getDate lift add strict_eq]; rewrite H.
  pose proof (DateFromTime_positive now); apply Z.eqb_neq; lia.
Qed.

(** Two instants on consecutive days are never taken for the same day. *)
Lemma consecutive_days_not_today now next :
  Day next = Day now + 1 -> isToday (Num now) (Num next) = false.
Proof.
  intros Hd; unfold isToday; cbn [getDate getMonth lift strict_eq].
  unfold DateFromTime, MonthFromTime, DayWithinYear, YearFromTime; rewrite Hd.
  destruct (YearFromDay_next (Day now)) as [[-> Hin] | [-> Hfirst]].
  - set (lp := leap (YearFromDay (Day now))).
    set (dy := Day now - DayFromYear (YearFromDay (Day now))).
    replace (Day now + 1 - DayFromYear (YearFromDay (Day now))) with (dy + 1)
      by (unfold dy; lia).
    destruct (Z.eqb_spec (month_of_yday (dy + 1) lp) (month_of_yday dy lp)) as [-> | Hne];
      [| apply andb_false_r].
    rewrite andb_true_r; apply Z.eqb_neq; lia.
  - apply andb_false_iff; right; apply Z.eqb_neq.
    rewrite Hfirst, Z.sub_diag.
    pose proof (DayFromYear_step (YearFromDay (Day now))) as Hstep.
    replace (Day now - DayFromYear (YearFromDay (Day now)))
      with (DaysInYear (YearFromDay (Day now)) - 1) by lia.
    rewrite month_of_yday_last.
    assert (H0 : month_of_yday 0 (leap (YearFromDay (Day now) + 1)) = 0)
      by (destruct (leap (YearFromDay (Day now) + 1)); reflexivity).
    rewrite H0; lia.
Qed.

(** The label of a candidate on the day after [now]: [Tomorrow] within the
    month, the weekday name when the month changes. *)
Lemma next_day_label now next :
  Day next = Day now + 1 ->
  dayLabel (Num now) (Num next)
  = if MonthFromTime next =? MonthFromTime now then "Tomorrow "
    else weekday_short (Num next) ++ " ".
Proof.
  intros Hd; unfold dayLabel.
  rewrite (consecutive_days_not_today _ _ Hd).
  unfold isTomorrow; cbn [getDate lift add strict_eq].
  pose proof (DateFromTime_positive now) as Hpos.
  assert (Hdate : if MonthFromTime next =? MonthFromTime now
                  then DateFromTime next = DateFromTime now + 1
                  else DateFromTime next = 1).
  { clear Hpos.
    unfold DateFromTime, MonthFromTime, DayWithinYear, YearFromTime; rewrite Hd.
    pose proof (YearFromDay_spec (Day now)) as [Hlo _].
    destruct (YearFromDay_next (Day now)) as [[-> Hin] | [-> Hfirst]].
    - set (lp := leap (YearFromDay (Day now))).
      set (dy := Day now - DayFromYear (YearFromDay (Day now))).
      assert (Hdy : 0 <= dy) by (unfold dy; lia).
      replace (Day now + 1 - DayFromYear (YearFromDay (Day now))) with (dy + 1)
        by (unfold dy; lia).
      destruct (Z.eqb_spec (month_of_yday (dy + 1) lp) (month_of_yday dy lp)) as [-> | Hne].
      + lia.
      + rewrite (month_of_yday_crossing dy lp Hdy Hne); lia.
    - rewrite Hfirst, Z.sub_diag, month_of_yday_0.
      pose proof (DayFromYear_step (YearFromDay (Day now))) as Hstep.
      replace (Day now - DayFromYear (YearFromDay (Day now)))
        with (DaysInYear (YearFromDay (Day now)) - 1) by lia.
      rewrite month_of_yday_last. reflexivity. }
  destruct (MonthFromTime next =? MonthFromTime now).
  - rewrite Hdate, Z.eqb_refl; reflexivity.
  - rewrite Hdate. replace (1 =? DateFromTime now + 1) with false; [reflexivity |].
    symmetry; apply Z.eqb_neq; lia.
Qed.

(** With [0 9 * * *] at or after 09:00 the candidate is 09:00 of the next
    day. *)
Lemma daily_nine_candidate now :
  ordinary now -> 9 <= HourFromTime now ->
  let next := now - MinFromTime now * msPerMinute
              - (HourFromTime now - 9) * msPerHour + msPerDay in
  candidate "0" "9" "*" (Num now) = Num next
  /\ Day next = Day now + 1 /\ HourFromTime next = 9 /\ MinFromTime next = 0.
Proof.
  intros Hord Hh next.
  pose proof (MinFromTime_range now) as Hm.
  pose proof (HourFromTime_range now) as Hh2.
  assert (Hfields : Day next = Day now + 1 /\ HourFromTime next = 9 /\ MinFromTime next = 0)
    by (subst next; revert Hh Hm Hh2; unfold_time; intros; Z.div_mod_to_equations; lia).
  split; [| exact Hfields].
  unfold candidate, minute_step.
  change (startsWith "0" "*/") with false; change (String.eqb "0" "*") with false.
  change (parseInt "0") with (Num 0). cbv iota.
  rewrite (setMinutes_Num now) by (auto; unfold_time; lia).
  unfold hour_step.
  change (startsWith "9" "*/") with false; change (String.eqb "9" "*") with false.
  change (parseInt "9") with (Num 9). cbv iota. cbn [negb].
  assert (Hh1 : HourFromTime (now + (0 - MinFromTime now) * msPerMinute) = HourFromTime now)
    by (revert Hm; unfold_time; intros; Z.div_mod_to_equations; lia).
  rewrite (setHours_Num now) by (auto; rewrite Hh1; unfold_time; lia).
  rewrite Hh1. cbn [lte].
  replace (now + (0 - MinFromTime now) * msPerMinute + (9 - HourFromTime now) * msPerHour
           <=? now) with true
    by (symmetry; apply Z.leb_le; unfold_time; lia).
  rewrite (setDate_Num now) by (auto; unfold_time; lia).
  unfold weekday_step. change (String.eqb "*" "*") with true. cbn [negb andb].
  f_equal; subst next; unfold_time; lia.
Qed.

Lemma nine_oclock_format now next :
  HourFromTime next = 9 -> MinFromTime next = 0 ->
  format (Num now) (Num next) = dayLabel (Num now) (Num next) ++ "9:00am".
Proof.
  intros Hh Hm; unfold format; cbn [getHours getMinutes lift]; rewrite Hh, Hm.
  reflexivity.
Qed.

(** C4, as the code behaves at the instants it speaks of.  On a Monday at
    14:00 the hour step has already moved the candidate of [0 9 * * 1] to
    Tuesday 09:00, which is after [now], so the seven-day branch is not
    taken: the candidate is 19 hours ahead, not Monday of the next week, and
    the label is [Tomorrow 9:00am] ([Tue 9:00am] across a month end), never
    [Mon 9:00am]. *)
Theorem C4_monday_afternoon_gives_tuesday now :
  ordinary now -> WeekDay now = 1 -> HourFromTime now = 14 -> MinFromTime now = 0 ->
  let next := now + 19 * msPerHour in
  candidate "0" "9" "1" (Num now) = Num next
  /\ Day next = Day now + 1 /\ WeekDay next = 2
  /\ HourFromTime next = 9 /\ MinFromTime next = 0
  /\ next <> now - 5 * msPerHour + 7 * msPerDay
  /\ calculateNextRun "0 9 * * 1" now
     = (if MonthFromTime next =? MonthFromTime now then "Tomorrow " else "Tue ")
       ++ "9:00am".
Proof.
  intros Hord Hw Hh Hm next.
  destruct (monday_afternoon_candidate now Hord Hw Hh Hm) as (Hcand & Hday & Hhour).
  fold next in Hcand, Hday, Hhour.
  assert (Hmin : MinFromTime next = 0)
    by (subst next; revert Hm; unfold_time; intros; Z.div_mod_to_equations; lia).
  assert (Hwd : WeekDay next = 2)
    by (revert Hw; unfold WeekDay; rewrite Hday; intros; Z.div_mod_to_equations; lia).
  repeat (split; [assumption |]).
  split; [subst next; unfold_time; lia |].
  unfold calculateNextRun.
  change (split_ws "0 9 * * 1") with ["0"; "9"; "*"; "*"; "1"].
  cbn [List.length Nat.ltb Nat.leb nth].
  rewrite Hcand, (nine_oclock_format _ _ Hhour Hmin), (next_day_label _ _ Hday).
  unfold weekday_short; rewrite Hwd; reflexivity.
Qed.

Lemma C4_first_monday_of_2024 :
  let now := at_civil 2024 1 1 14 0 in
  let next := now + 19 * msPerHour in
  (candidate "0" "9" "1" (Num now) = Num next
   /\ Day next = Day now + 1 /\ WeekDay next = 2
   /\ HourFromTime next = 9 /\ MinFromTime next = 0
   /\ next <> now - 5 * msPerHour + 7 * msPerDay
   /\ calculateNextRun "0 9 * * 1" now
      = (if MonthFromTime next =? MonthFromTime now then "Tomorrow " else "Tue ")
        ++ "9:00am")
  /\ calculateNextRun "0 9 * * 1" now = "Tomorrow 9:00am"
  /\ format (Num now) (Num (at_civil 2024 1 8 9 0)) = "Mon 9:00am".
Proof.
  split; [| split; reflexivity].
  apply (C4_monday_afternoon_gives_tuesday (at_civil 2024 1 1 14 0)).
  - vm_compute; split; discriminate.
  - reflexivity.
  - reflexivity.
  - reflexivity.
Defined.

(** A candidate on the day of [now] has no day prefix. *)
Lemma same_day_has_no_prefix now next :
  Day next = Day now -> dayLabel (Num now) (Num next) = "".
Proof.
  intros H; unfold dayLabel, isToday; cbn [getDate getMonth lift strict_eq].
  rewrite (DateFromTime_same_day _ _ H), (MonthFromTime_same_day _ _ H), !Z.eqb_refl.
  reflexivity.
Qed.

(** C9, as the code behaves where it departs from it.  With [0 9 * * *] at
    or after 09:00 the candidate is 09:00 of the next calendar day.  The
    label says [Tomorrow] only while that day is in the month of [now]; when
    it is the first of the following month, [getDate] is 1 where
    [now.getDate() + 1] is expected, and the label takes the weekday name. *)
Theorem C9_tomorrow_across_month_end_is_a_weekday now :
  ordinary now -> 9 <= HourFromTime now ->
  let next := now - MinFromTime now * msPerMinute
              - (HourFromTime now - 9) * msPerHour + msPerDay in
  candidate "0" "9" "*" (Num now) = Num next
  /\ Day next = Day now + 1
  /\ calculateNextRun "0 9 * * *" now
     = (if MonthFromTime next =? MonthFromTime now then "Tomorrow "
        else weekday_short (Num next) ++ " ") ++ "9:00am"
  /\ (MonthFromTime next <> MonthFromTime now ->
      isTomorrow (Num now) (Num next) = false
      /\ calculateNextRun "0 9 * * *" now <> "Tomorrow 9:00am").
Proof.
  intros Hord Hh next.
  destruct (daily_nine_candidate now Hord Hh) as (Hcand & Hday & Hhour & Hmin).
  fold next in Hcand, Hday, Hhour, Hmin.
  assert (Hlabel : calculateNextRun "0 9 * * *" now
     = (if MonthFromTime next =? MonthFromTime now then "Tomorrow "
        else weekday_short (Num next) ++ " ") ++ "9:00am").
  { unfold calculateNextRun.
    change (split_ws "0 9 * * *") with ["0"; "9"; "*"; "*"; "*"].
    cbn [List.length Nat.ltb Nat.leb nth].
    rewrite Hcand, (nine_oclock_format _ _ Hhour Hmin), (next_day_label _ _ Hday).
    reflexivity. }
  split; [exact Hcand | split; [exact Hday | split; [exact Hlabel |]]].
  intros Hne. apply Z.eqb_neq in Hne. split.
  - pose proof (next_day_label _ _ Hday) as Hl; rewrite Hne in Hl.
    unfold dayLabel in Hl. rewrite (consecutive_days_not_today _ _ Hday) in Hl.
    destruct (isTomorrow (Num now) (Num next)); [| reflexivity].
    exfalso; revert Hl; unfold weekday_short.
    pose proof (Z.mod_pos_bound (Day next + 4) 7 ltac:(lia)) as Hw.
    unfold WeekDay.
    destruct (Z.to_nat ((Day next + 4) mod 7)) as [|[|[|[|[|[|[|k]]]]]]] eqn:E;
      cbn; try discriminate; lia.
  - rewrite Hlabel, Hne. unfold weekday_short.
    pose proof (Z.mod_pos_bound (Day next + 4) 7 ltac:(lia)) as Hw.
    unfold WeekDay.
    destruct (Z.to_nat ((Day next + 4) mod 7)) as [|[|[|[|[|[|[|k]]]]]]] eqn:E;
      cbn; try discriminate; lia.
Qed.

Lemma C9_last_of_january :
  let now := at_civil 2024 1 31 10 0 in
  let next := at_civil 2024 2 1 9 0 in
  (candidate "0" "9" "*" (Num now) = Num next
   /\ Day next = Day now + 1
   /\ calculateNextRun "0 9 * * *" now
      = (if MonthFromTime next =? MonthFromTime now then "Tomorrow "
         else weekday_short (Num next) ++ " ") ++ "9:00am"
   /\ (MonthFromTime next <> MonthFromTime now ->
       isTomorrow (Num now) (Num next) = false
       /\ calculateNextRun "0 9 * * *" now <> "Tomorrow 9:00am"))
  /\ calculateNextRun "0 9 * * *" now = "Thu 9:00am"
  /\ getDate (Num next) = Num 1 /\ getDate (Num now) = Num 31.
Proof.
  split; [| repeat split].
  apply (C9_tomorrow_across_month_end_is_a_weekday (at_civil 2024 1 31 10 0)).
  - vm_compute; split; discriminate.
  - vm_compute; discriminate.
Defined.

End CronFacts.
Module RunFacts.
Import JS Fetch Widget Scenario FetchFacts WidgetFacts Runs.

Section Pages.
Context {A : Type} (f : value -> completion A) (api : endpoint).

Lemma absorb_page_tasks (acc : list A) response tasks :
  page_tasks f response tasks ->
  absorb f acc response
  = Normal ((acc ++ tasks)%list, member response "has_more", member response "next_cursor").
Proof.
  intros (Hn & [(xs & Hr & Hm) | (Hr & ->)]); unfold absorb;
    rewrite !(get_present _ _ Hn); simpl.
  - rewrite Hr; simpl. rewrite Hm; reflexivity.
  - rewrite Hr; simpl. rewrite app_nil_r; reflexivity.
Qed.

Lemma loop_pages :
  forall responses pages fuel (acc : list A) hm nc r,
    Forall2 (page_tasks f) responses pages ->
    serves api r (cursor_of nc) responses ->
    last_page_ends responses ->
    truthy hm = true ->
    Z.of_nat (List.length acc) + Z.of_nat (List.length (List.concat (removelast pages))) < CAP ->
    (List.length responses <= fuel)%nat ->
    loop f api fuel acc hm nc r
    = (Returned (acc ++ List.concat pages)%list, (r + List.length responses)%nat).
Proof.
  induction responses as [|response rest IH];
    intros pages fuel acc hm nc r Hpages Hserves Hlast Hhm Hcap Hfuel.
  - destruct Hlast.
  - inversion Hpages as [|? tasks ? pages' Hpage Hrest]; subst.
    destruct fuel as [|fuel]; [simpl in Hfuel; lia |].
    destruct Hserves as [Hreply Hserves].
    assert (Hbelow : Z.of_nat (List.length acc) < CAP) by lia.
    rewrite loop_unfold, Hhm.
    replace (Z.of_nat (List.length acc) <? CAP) with true by (symmetry; apply Z.ltb_lt; exact Hbelow).
    simpl andb; cbv iota. rewrite Hreply, (absorb_page_tasks _ _ _ Hpage).
    destruct rest as [|response' rest'].
    + inversion Hrest; subst. simpl in Hlast.
      rewrite loop_unfold, Hlast. simpl. rewrite app_nil_r. f_equal. lia.
    + destruct Hlast as [Hmore Hlast].
      inversion Hrest as [|? tasks' ? pages'' Hpage' Hrest']; subst.
      rewrite (IH (tasks' :: pages'') fuel (acc ++ tasks)%list _ _ (S r) Hrest Hserves Hlast Hmore).
      * cbn [List.concat List.length]. rewrite <- app_assoc. f_equal. lia.
      * revert Hcap. cbn [removelast List.concat]. rewrite !length_app. 
        destruct pages''; cbn [removelast List.concat]; rewrite ?length_app; cbn [List.length]; lia.
      * simpl in Hfuel |- *; lia.
Qed.

End Pages.

(** X1.  An upstream that serves a finite run of pages, each request after
    the first carrying the cursor of the page before it, is read to the end:
    the pass returns the records of all pages in the order received, after
    one request per page, provided the pages before the last hold fewer than
    3000 records together. *)
Theorem pages_are_read_in_order
  {A : Type} (f : value -> completion A) (api : endpoint)
  (responses : list value) (pages : list (list A)) (fuel r : nat) :
  Forall2 (page_tasks f) responses pages ->
  serves api r None responses ->
  last_page_ends responses ->
  Z.of_nat (List.length (List.concat (removelast pages))) < 3000 ->
  (List.length responses <= fuel)%nat ->
  fetchAll f api fuel r = (Returned (List.concat pages), (r + List.length responses)%nat).
Proof.
  intros Hpages Hserves Hlast Hcap Hfuel; unfold fetchAll.
  rewrite (loop_pages f api responses pages fuel [] (VBool true) VNull r); auto.
Qed.

Lemma two_pages_are_read_in_order :
  fetchAll mapTask two_pages 5 0
  = (Returned (List.concat [[task_of 1 "Done"; task_of 2 "To Do"]; [task_of 3 "In Progress"]]),
     (0 + List.length [response_of [raw_of 1 "Done"; raw_of 2 "To Do"] true (VStr "c1");
                       response_of [raw_of 3 "In Progress"] false VNull])%nat).
Proof.
  apply (pages_are_read_in_order mapTask two_pages).
  - repeat (apply Forall2_cons || apply Forall2_nil);
      (split; [reflexivity | left; eexists; split; reflexivity]).
  - repeat split.
  - split; reflexivity.
  - reflexivity.
  - simpl; lia.
Defined.

(** X2.  A response that carries neither [results] nor [has_more], as the
    error bodies of the upstream do, is not a failure for the pass: it ends
    after one request with no record, and [getDWEStats] returns and caches
    all-zero statistics, which later calls within five minutes are served. *)
Theorem error_body_is_cached_as_zero_statistics
  rt fuel now clock st response :
  refreshes rt st now ->
  notion rt (requests st) None = Resolve response ->
  nullish response = false ->
  truthy (member response "results") = false ->
  truthy (member response "has_more") = false ->
  let st' := {| cachedStats := Some (no_tasks clock); cacheTime := now;
                requests := S (requests st) |} in
  getDWEStats rt (S fuel) now clock st = (Returned (no_tasks clock), st')
  /\ forall rt' fuel' now' clock',
       now' - now < 300000 ->
       getDWEStats rt' fuel' now' clock' st' = (Returned (mark_cached (no_tasks clock)), st').
Proof.
  intros Hr Hreply Hn Hres Hmore st'.
  assert (Hpass : fetchAllNotionTasks (notion rt) (S fuel) (requests st)
                  = (Returned [], S (requests st))).
  { unfold fetchAllNotionTasks, fetchAll.
    rewrite (loop_pages mapTask (notion rt) [response] [[]] (S fuel) [] (VBool true) VNull
               (requests st)).
    - cbn [List.concat app List.length]; f_equal; lia.
    - constructor; [split; [exact Hn | right; split; [exact Hres | reflexivity]] | constructor].
    - split; [exact Hreply | exact I].
    - exact Hmore.
    - reflexivity.
    - reflexivity.
    - simpl; lia. }
  split.
  - rewrite (getDWEStats_refresh _ _ _ _ _ Hr), Hpass. reflexivity.
  - intros rt' fuel' now' clock' Hwin. apply getDWEStats_hit; [reflexivity | exact Hwin].
Qed.

Lemma unauthorized_is_cached_as_zero_statistics :
  let rt := configured (fun _ _ => Resolve unauthorized) in
  let st' := {| cachedStats := Some (no_tasks 11); cacheTime := 10;
                requests := S (requests initial) |} in
  getDWEStats rt (S 0) 10 11 initial = (Returned (no_tasks 11), st')
  /\ forall rt' fuel' now' clock',
       now' - 10 < 300000 ->
       getDWEStats rt' fuel' now' clock' st' = (Returned (mark_cached (no_tasks 11)), st').
Proof.
  apply (error_body_is_cached_as_zero_statistics
           (configured (fun _ _ => Resolve unauthorized)) 0 10 11 initial unauthorized).
  - split; [reflexivity | simpl; discriminate].
  - reflexivity.
  - reflexivity.
  - reflexivity.
  - reflexivity.
Defined.

Lemma run_calls_cons rt c rest st :
  run_calls rt (c :: rest) st
  = (fst (getDWEStats rt (call_fuel c) (call_now c) (call_clock c) st)
       :: fst (run_calls rt rest
                 (snd (getDWEStats rt (call_fuel c) (call_now c) (call_clock c) st))),
     snd (run_calls rt rest
            (snd (getDWEStats rt (call_fuel c) (call_now c) (call_clock c) st)))).
Proof.
  cbn [run_calls].
  destruct (getDWEStats rt (call_fuel c) (call_now c) (call_clock c) st) as [o st1].
  cbn [fst snd]. destruct (run_calls rt rest st1); reflexivity.
Qed.

(** X3.  Without an API key no call ever reaches the upstream or fills the
    cache: whatever the sequence of calls from the initial state, each one
    returns the baseline payload with the configuration error and the state
    stays the initial one. *)
Theorem unconfigured_key_never_fetches rt calls :
  NOTION_API_KEY rt = "" ->
  run_calls rt calls initial
  = (map (fun c => Returned (baseline "Notion API key not configured" (call_clock c))) calls,
     initial).
Proof.
  intros Hk; induction calls as [|c rest IH]; [reflexivity |].
  rewrite run_calls_cons.
  assert (H1 : getDWEStats rt (call_fuel c) (call_now c) (call_clock c) initial
               = (Returned (baseline "Notion API key not configured" (call_clock c)), initial))
    by (unfold getDWEStats; simpl; rewrite Hk; reflexivity).
  rewrite H1; cbn [fst snd]. rewrite IH; reflexivity.
Qed.

Lemma unconfigured_key_three_calls :
  run_calls {| NOTION_API_KEY := ""; notion := single_page; ToNumberObj := fun _ => NaN |}
            [mkCall 10 0 1; mkCall 10 400000 400001; mkCall 10 800000 800001] initial
  = (map (fun c => Returned (baseline "Notion API key not configured" (call_clock c)))
         [mkCall 10 0 1; mkCall 10 400000 400001; mkCall 10 800000 800001],
     initial).
Proof.
  apply (unconfigured_key_never_fetches
           {| NOTION_API_KEY := ""; notion := single_page; ToNumberObj := fun _ => NaN |}).
  reflexivity.
Defined.

(** X4.  Once the cache holds the payload of a successful pass, no later
    call returns the baseline or any payload with an [error]: whatever the
    upstream does afterwards, each call that returns gives a payload without
    error, no call throws, and the cache stays filled. *)
Theorem real_data_is_never_replaced_by_the_baseline rt calls st :
  NOTION_API_KEY rt <> "" -> clean_cache st -> cachedStats st <> None ->
  Forall (fun o => (forall p, o = Returned p -> error p = None)
                   /\ (forall m, o <> Thrown m))
         (fst (run_calls rt calls st))
  /\ clean_cache (snd (run_calls rt calls st))
  /\ cachedStats (snd (run_calls rt calls st)) <> None.
Proof.
  intros Hk; revert st; induction calls as [|c rest IH]; intros st Hclean Hsome.
  - simpl; auto.
  - rewrite run_calls_cons; cbn [fst snd].
    set (fuel := call_fuel c); set (now := call_now c); set (clock := call_clock c).
    assert (Hstep : ((forall p, fst (getDWEStats rt fuel now clock st) = Returned p ->
                                error p = None)
                     /\ (forall m, fst (getDWEStats rt fuel now clock st) <> Thrown m))
                    /\ clean_cache (snd (getDWEStats rt fuel now clock st))
                    /\ cachedStats (snd (getDWEStats rt fuel now clock st)) <> None).
    { split; [split |]; [| apply getDWEStats_never_throws |
                         split; [apply clean_cache_preserved; exact Hclean |]].
      - destruct (getDWEStats_cases rt fuel now clock st)
          as [(c0 & Hc0 & _ & ->) | [(_ & Hk' & _) | [(_ & a & n & _ & ->)
             | [(_ & m & n & _ & ->) | (_ & n & ->)]]]]; cbn [fst];
          try contradiction; intros p [= <-].
        + apply (Hclean c0 Hc0).
        + reflexivity.
        + destruct (cachedStats st) as [c1|] eqn:E; [apply (Hclean c1 E) | contradiction].
      - destruct (getDWEStats_cases rt fuel now clock st)
          as [(c0 & Hc0 & _ & ->) | [(_ & Hk' & _) | [(_ & a & n & _ & ->)
             | [(_ & m & n & _ & ->) | (_ & n & ->)]]]]; cbn [snd];
          try contradiction; simpl; try assumption; discriminate. }
    destruct Hstep as (Hout & Hclean' & Hsome').
    destruct (IH _ Hclean' Hsome') as (Hrest & Hc2 & Hs2).
    split; [constructor; assumption | split; assumption].
Qed.

Lemma flaky_upstream_keeps_real_data :
  Forall (fun o => (forall p, o = Returned p -> error p = None)
                   /\ (forall m, o <> Thrown m))
         (fst (run_calls (configured flaky) [mkCall 10 300000 300001; mkCall 10 900000 900001]
                         (snd (getDWEStats (configured flaky) 10 0 1 initial))))
  /\ clean_cache (snd (run_calls (configured flaky)
                                  [mkCall 10 300000 300001; mkCall 10 900000 900001]
                                  (snd (getDWEStats (configured flaky) 10 0 1 initial))))
  /\ cachedStats (snd (run_calls (configured flaky)
                                  [mkCall 10 300000 300001; mkCall 10 900000 900001]
                                  (snd (getDWEStats (configured flaky) 10 0 1 initial))))
     <> None.
Proof.
  apply (real_data_is_never_replaced_by_the_baseline (configured flaky)).
  - simpl; discriminate.
  - apply clean_cache_preserved, clean_cache_initial.
  - simpl; discriminate.
Defined.

End RunFacts.
Module StatsFacts.
Import JS Fetch Scenario FetchFacts Runs.

Lemma filter_two_disjoint {T : Type} (p q : T -> bool) (l : list T) :
  (forall x, p x && q x = false) ->
  (List.length (filter p l) + List.length (filter q l) <= List.length l)%nat.
Proof.
  intros Hd; induction l as [|x l IH]; [simpl; lia |].
  specialize (Hd x); cbn [filter]; destruct (p x), (q x); cbn [List.length];
    try discriminate; lia.
Qed.

Lemma is_str_two_labels v a b : a <> b -> is_str v a && is_str v b = false.
Proof.
  intros Hab; destruct v; try reflexivity; simpl.
  destruct (String.eqb_spec s a), (String.eqb_spec s b); try reflexivity; congruence.
Qed.

Section MaxId.
Variable toNum : value -> num.


Lemma max_id_fold_numeric (l : list Task) :
  Forall (fun t => exists n, idNumber t = VNum n) l ->
  forall a, 0 <= a ->
  exists m,
    fold_left (fun max t => math_max max (ToNumber toNum (or_else (idNumber t) (VNum 0)))) l (Num a) = Num m
    /\ a <= m
    /\ Forall (fun t => forall n, idNumber t = VNum n -> n <= m) l
    /\ (m = a \/ Exists (fun t => idNumber t = VNum m) l).
Proof.
  induction 1 as [|t l [n Hn] Hl IH]; intros a Ha.
  - exists a; repeat split; auto; lia.
  - cbn [fold_left].
    assert (Hid : ToNumber toNum (or_else (idNumber t) (VNum 0)) = Num n).
    { rewrite Hn; unfold or_else; simpl.
      destruct (Z.eqb_spec n 0) as [-> |]; reflexivity. }
    rewrite Hid; cbn [math_max].
    destruct (IH (Z.max a n) ltac:(lia)) as (m & Hm & Hle & Hall & Hex).
    exists m; split; [exact Hm | split; [lia | split]].
    + constructor; [| exact Hall]. intros n' Hn'. rewrite Hn in Hn'. injection Hn' as <-. lia.
    + destruct Hex as [-> | Hex]; [| right; apply Exists_cons_tl; exact Hex].
      destruct (Z.max_spec a n) as [[_ ->] | [_ ->]]; [| left; reflexivity].
      right; apply Exists_cons_hd; exact Hn.
Qed.

Lemma fold_from_NaN (l : list Task) :
  fold_left (fun max t => math_max max (ToNumber toNum (or_else (idNumber t) (VNum 0)))) l NaN = NaN.
Proof. induction l; [reflexivity | exact IHl]. Qed.

Lemma max_id_fold_NaN (l : list Task) :
  forall a,
    fold_left (fun max t => math_max max (ToNumber toNum (or_else (idNumber t) (VNum 0)))) l (Num a) = NaN
    <-> Exists (fun t => ToNumber toNum (or_else (idNumber t) (VNum 0)) = NaN) l.
Proof.
  induction l as [|t l IH]; intros a.
  - split; [discriminate | intros H; inversion H].
  - cbn [fold_left]. destruct (ToNumber toNum (or_else (idNumber t) (VNum 0))) as [|n] eqn:E; cbn [math_max].
    + rewrite fold_from_NaN; split; [intros _; apply Exists_cons_hd; exact E | reflexivity].
    + rewrite IH; split; [apply Exists_cons_tl |].
      intros H; inversion H; subst; [congruence | assumption].
Qed.

End MaxId.

(** X5.  [maxId] is the largest sequence id of the batch: when every record
    carries a numeric id, it is a number that is at least 0 and at least every
    id, and it is 0 or the id of some record.  It is [NaN] exactly when the
    id of some record converts to [NaN]. *)
Theorem max_id_is_the_largest_id (toNum : value -> num) (allTasks : list Task) :
  (Forall (fun t => exists n, idNumber t = VNum n) allTasks ->
   exists m,
     Widget.max_id toNum allTasks = Num m
     /\ 0 <= m
     /\ Forall (fun t => forall n, idNumber t = VNum n -> n <= m) allTasks
     /\ (m = 0 \/ Exists (fun t => idNumber t = VNum m) allTasks))
  /\ (Widget.max_id toNum allTasks = NaN
      <-> Exists (fun t => ToNumber toNum (or_else (idNumber t) (VNum 0)) = NaN) allTasks).
Proof.
  split.
  - intros Hall. destruct (max_id_fold_numeric toNum allTasks Hall 0 ltac:(lia))
      as (m & Hm & Hle & Hbound & Hex).
    exists m; auto.
  - apply (max_id_fold_NaN toNum allTasks 0).
Qed.

(** In the payload of a pass no record is counted twice: [completed]
    and [inProgress] are numbers that together do not exceed [activeTasks],
    the number of records fetched. *)
Theorem widget_buckets_are_disjoint (toNum : value -> num) (allTasks : list Task)
  (clock : Z) :
  let p := Widget.aggregate toNum allTasks clock in
  (forall t, Widget.is_completed t && Widget.is_inProgress t = false)
  /\ exists c i,
      Widget.completed p = Num c /\ Widget.inProgress p = Num i
      /\ Widget.activeTasks p = Some (Num (Z.of_nat (List.length allTasks)))
      /\ 0 <= c /\ 0 <= i /\ c + i <= Z.of_nat (List.length allTasks).
Proof.
  assert (Hd : forall t, Widget.is_completed t && Widget.is_inProgress t = false).
  { intros t; unfold Widget.is_completed, Widget.is_inProgress.
    destruct (status t); try reflexivity; simpl.
    repeat match goal with
           | |- context [String.eqb ?a ?b] => destruct (String.eqb_spec a b); subst
           end; try reflexivity; discriminate. }
  split; [exact Hd |].
  do 2 eexists; repeat split; try apply Nat2Z.is_nonneg.
  pose proof (filter_two_disjoint _ _ allTasks Hd); lia.
Qed.

(** X6.  When no record carries a sequence id, [maxId] and [total] are 0 and
    [remaining] is the negated number of completed records. *)
Theorem remaining_is_negative_without_ids (toNum : value -> num) (allTasks : list Task)
  (clock : Z) :
  Forall (fun t => idNumber t = VNum 0) allTasks ->
  let p := Widget.aggregate toNum allTasks clock in
  Widget.total p = Num 0 /\ Widget.maxId p = Num 0
  /\ Widget.remaining p
     = Num (- Z.of_nat (List.length (filter Widget.is_completed allTasks))).
Proof.
  intros Hall p.
  assert (Hmax : Widget.max_id toNum allTasks = Num 0).
  { unfold Widget.max_id. induction Hall as [|t l Ht Hl IH]; [reflexivity |].
    cbn [fold_left]. rewrite Ht. exact IH. }
  subst p; unfold Widget.aggregate; cbn; rewrite Hmax; repeat split.
Qed.

Lemma remaining_of_two_done_without_ids :
  let p := Widget.aggregate (fun _ => NaN) [task_of 0 "Done"; task_of 0 "Done"] 5 in
  Widget.total p = Num 0 /\ Widget.maxId p = Num 0
  /\ Widget.remaining p
     = Num (- Z.of_nat (List.length (filter Widget.is_completed
                                            [task_of 0 "Done"; task_of 0 "Done"]))).
Proof.
  apply (remaining_is_negative_without_ids (fun _ => NaN) [task_of 0 "Done"; task_of 0 "Done"] 5).
  repeat constructor.
Defined.

End StatsFacts.
Module ServerFacts.
Import JS Fetch Scenario FetchFacts Runs StatsFacts Server.

Lemma filter_three_partition {T : Type} (p q r : T -> bool) (l : list T) :
  (forall x, p x && q x = false) -> (forall x, p x && r x = false) ->
  (forall x, q x && r x = false) ->
  (List.length (filter p l) + List.length (filter q l) + List.length (filter r l)
   <= List.length l)%nat
  /\ ((List.length (filter p l) + List.length (filter q l) + List.length (filter r l)
       = List.length l)%nat
      <-> Forall (fun x => p x || q x || r x = true) l).
Proof.
  intros Hpq Hpr Hqr; induction l as [|x l [IHle IHeq]].
  - split; [simpl; lia | split; [constructor | reflexivity]].
  - specialize (Hpq x); specialize (Hpr x); specialize (Hqr x).
    cbn [filter]; destruct (p x) eqn:Ep, (q x) eqn:Eq, (r x) eqn:Er;
      cbn [List.length] in *; try discriminate;
      (split; [lia |]); split; intros H.
    all: try (constructor; [rewrite Ep, Eq, Er; reflexivity | apply IHeq; lia]).
    all: try (inversion H as [|? ? Hx Hl]; subst; apply IHeq in Hl; lia).
    all: try (exfalso; lia).
    all: inversion H as [|? ? Hx Hl]; subst; rewrite Ep, Eq, Er in Hx; discriminate.
Qed.

Lemma server_buckets_disjoint (t : ServerTask) :
  is_inProgress t && is_completed t = false
  /\ is_inProgress t && is_todo t = false
  /\ is_completed t && is_todo t = false.
Proof.
  unfold is_inProgress, is_completed, is_todo.
  destruct (status (base t)); try (repeat split; reflexivity); simpl.
  repeat match goal with
         | |- context [String.eqb ?a ?b] => destruct (String.eqb_spec a b); subst
         end; repeat split; try reflexivity; discriminate.
Qed.

(** X7.  The three status buckets of [getNotionTasks] never overlap: their
    counts add up to at most [total], and to exactly [total] when every
    record carries one of the ten labels the buckets know. *)
Theorem notion_task_buckets_partition (toNum : value -> num) (allTasks : list ServerTask) :
  let s := task_stats toNum allTasks in
  exists i c d,
    total s = Num (Z.of_nat (List.length allTasks))
    /\ inProgress s = Num i /\ completed s = Num c /\ todo s = Num d
    /\ 0 <= i /\ 0 <= c /\ 0 <= d
    /\ i + c + d <= Z.of_nat (List.length allTasks)
    /\ (i + c + d = Z.of_nat (List.length allTasks)
        <-> Forall (fun t => is_inProgress t || is_completed t || is_todo t = true) allTasks).
Proof.
  destruct (filter_three_partition is_inProgress is_completed is_todo allTasks)
    as [Hle Heq]; try (intros t; apply (server_buckets_disjoint t)).
  do 3 eexists; repeat split; try apply Nat2Z.is_nonneg; cbn.
  - lia.
  - intros H; apply Heq; lia.
  - intros H; apply Heq in H; lia.
Qed.

(** The callback of [server.js] maps a record as the widget's does, and adds
    [taskType]. *)
Lemma mapTask_is_base task :
  mapTask task = match mapServerTask task with
                 | Normal s => Normal (base s)
                 | Throw m => Throw m
                 end.
Proof.
  destruct (nullish task) eqn:Ht.
  - unfold mapTask, mapServerTask; rewrite (get_absent _ _ Ht); reflexivity.
  - destruct (nullish (member task "properties")) eqn:Hp.
    + unfold mapTask, mapServerTask, status_of.
      rewrite (get_present _ _ Ht); simpl. rewrite (get_absent _ _ Hp); reflexivity.
    + destruct (mapServerTask_present task Ht Hp) as (s & -> & Hb & _). exact Hb.
Qed.

Lemma map_throwing_is_base xs :
  map_throwing mapTask xs = match map_throwing mapServerTask xs with
                            | Normal l => Normal (map base l)
                            | Throw m => Throw m
                            end.
Proof.
  induction xs as [|x xs IH]; [reflexivity |].
  cbn [map_throwing]. rewrite mapTask_is_base, IH.
  destruct (mapServerTask x); [| reflexivity]. cbn [bind].
  destruct (map_throwing mapServerTask xs); reflexivity.
Qed.

Lemma absorb_is_base (acc : list ServerTask) response :
  absorb mapTask (map base acc) response
  = match absorb mapServerTask acc response with
    | Normal (acc', hm, nc) => Normal (map base acc', hm, nc)
    | Throw m => Throw m
    end.
Proof.
  unfold absorb. destruct (get response "results") as [results|]; [| reflexivity].
  cbn [bind]. destruct (truthy results).
  - unfold map_results. destruct results; try reflexivity.
    rewrite map_throwing_is_base. destruct (map_throwing mapServerTask xs); [| reflexivity].
    cbn [bind].
    destruct (get response "has_more"); [| reflexivity]. cbn [bind].
    destruct (get response "next_cursor"); [| reflexivity]. cbn [bind].
    rewrite map_app; reflexivity.
  - cbn [bind]. destruct (get response "has_more"); [| reflexivity]. cbn [bind].
    destruct (get response "next_cursor"); reflexivity.
Qed.

Lemma loop_is_base api fuel :
  forall (acc : list ServerTask) hm nc r,
    loop mapTask api fuel (map base acc) hm nc r
    = match loop mapServerTask api fuel acc hm nc r with
      | (Returned l, n) => (Returned (map base l), n)
      | (Thrown m, n) => (Thrown m, n)
      | (Running, n) => (Running, n)
      end.
Proof.
  induction fuel as [|fuel IH]; intros acc hm nc r;
    rewrite (loop_unfold mapTask), (loop_unfold mapServerTask), length_map;
    destruct (truthy hm && (Z.of_nat (List.length acc) <? CAP)); try reflexivity.
  destruct (api r (cursor_of nc)) as [response | m]; [| reflexivity].
  rewrite absorb_is_base.
  destruct (absorb mapServerTask acc response) as [[[acc' hm'] nc'] | m]; [| reflexivity].
  apply IH.
Qed.

Lemma filter_map_base (p : Task -> bool) (l : list ServerTask) :
  filter p (map base l) = map base (filter (fun s => p (base s)) l).
Proof.
  induction l as [|s l IH]; [reflexivity |].
  cbn [map filter]; destruct (p (base s)); cbn [map]; rewrite IH; reflexivity.
Qed.

Lemma fold_left_map_base {B : Type} (g : B -> Task -> B) (l : list ServerTask) (b : B) :
  fold_left g (map base l) b = fold_left (fun acc s => g acc (base s)) l b.
Proof. revert b; induction l as [|s l IH]; intros b; [reflexivity | apply IH]. Qed.

(** X8.  The widget API and [/mc/notion-tasks] agree.  On the same
    upstream the two copies of the fetch end the same way after the same
    requests, the records of [server.js] being those of the widget with
    [taskType] added; and on the same batch the statistics agree: the same
    [completed] and [inProgress], [maxIdNumber] equal to [maxId], and [total]
    of the server equal to [activeTasks] of the widget, whose own [total] is
    [maxId]. *)
Theorem widget_and_server_agree (api : endpoint) (toNum : value -> num)
  (fuel r : nat) (clock : Z) :
  fetchAllNotionTasks api fuel r
  = match fetchAllNotionTasks_server api fuel r with
    | (Returned l, n) => (Returned (map base l), n)
    | (Thrown m, n) => (Thrown m, n)
    | (Running, n) => (Running, n)
    end
  /\ forall l : list ServerTask,
      let w := Widget.aggregate toNum (map base l) clock in
      let s := task_stats toNum l in
      Widget.completed w = completed s
      /\ Widget.inProgress w = inProgress s
      /\ Some (Widget.maxId w) = maxIdNumber s
      /\ Widget.activeTasks w = Some (total s)
      /\ Widget.total w = Widget.maxId w.
Proof.
  split.
  - unfold fetchAllNotionTasks, fetchAllNotionTasks_server, fetchAll.
    apply (loop_is_base api fuel [] (VBool true) VNull r).
  - intros l; cbn.
    unfold Widget.count, count, Widget.max_id.
    rewrite !filter_map_base, !length_map, fold_left_map_base. repeat split.
Qed.

Lemma getNotionTasks_unfold rt fuel requests clock :
  Widget.NOTION_API_KEY rt <> "" ->
  getNotionTasks rt fuel requests clock
  = match fetchAllNotionTasks_server (Widget.notion rt) fuel requests with
    | (Returned allTasks, n) =>
        (Returned {| statusCode := 200; error := None;
                     tasks := firstn 100 allTasks;
                     stats := task_stats (Widget.ToNumberObj rt) allTasks;
                     source := Some "Notion"; timestamp := Some clock |}, n)
    | (Thrown _, n) => (Returned (failure "Failed to fetch from Notion"), n)
    | (Running, n) => (Running, n)
    end.
Proof.
  intros Hk; apply String.eqb_neq in Hk; unfold getNotionTasks; rewrite Hk; reflexivity.
Qed.

(** X9.  [getNotionTasks] keeps nothing from one request to the next and
    shows no stale data: when the pass fails it answers 500 with the error
    [Failed to fetch from Notion], no task and all-zero statistics, where the
    widget on the same upstream, after the same requests, still serves the
    entry it cached.  When the pass succeeds it answers 200 and lists the
    first 100 records at most, while [stats.total] counts all of them. *)
Theorem getNotionTasks_has_no_fallback rt fuel requests clock :
  Widget.NOTION_API_KEY rt <> "" ->
  (forall m n,
      fetchAllNotionTasks_server (Widget.notion rt) fuel requests = (Thrown m, n) ->
      getNotionTasks rt fuel requests clock
      = (Returned {| statusCode := 500;
                     error := Some "Failed to fetch from Notion";
                     tasks := [];
                     stats := {| total := Num 0; inProgress := Num 0;
                                 completed := Num 0; todo := Num 0;
                                 maxIdNumber := None |};
                     source := None; timestamp := None |}, n)
      /\ forall st now cached_entry,
          Widget.cachedStats st = Some cached_entry ->
          Widget.requests st = requests ->
          Widget.fresh st now = false ->
          Widget.getDWEStats rt fuel now clock st
          = (Returned cached_entry, Widget.with_requests st n))
  /\ (forall allTasks n,
         fetchAllNotionTasks_server (Widget.notion rt) fuel requests
         = (Returned allTasks, n) ->
         exists response,
           getNotionTasks rt fuel requests clock = (Returned response, n)
           /\ statusCode response = 200
           /\ error response = None
           /\ tasks response = firstn 100 allTasks
           /\ (List.length (tasks response) <= 100)%nat
           /\ total (stats response) = Num (Z.of_nat (List.length allTasks))).
Proof.
  intros Hk; rewrite (getNotionTasks_unfold _ _ _ _ Hk); split.
  - intros m n Hfail; rewrite Hfail; split; [reflexivity |].
    intros st now cached_entry Hc Hr Hstale.
    assert (Hw : fetchAllNotionTasks (Widget.notion rt) fuel (Widget.requests st)
                 = (Thrown m, n)).
    { unfold fetchAllNotionTasks, fetchAllNotionTasks_server, fetchAll in *.
      pose proof (loop_is_base (Widget.notion rt) fuel [] (VBool true) VNull requests) as Hb.
      cbn [map] in Hb. rewrite Hr, Hb, Hfail. reflexivity. }
    rewrite (WidgetFacts.getDWEStats_refresh rt fuel now clock st (conj Hstale Hk)), Hw, Hc.
    reflexivity.
  - intros allTasks n ->; eexists.
    split; [reflexivity|]. split; [reflexivity|]. split; [reflexivity|].
    split; [reflexivity|]. split; [|reflexivity].
    cbn [tasks]; rewrite length_firstn; lia.
Qed.

Lemma flaky_upstream_shows_the_difference :
  getNotionTasks (configured flaky) 10 1 300001
  = (Returned {| statusCode := 500;
                 error := Some "Failed to fetch from Notion";
                 tasks := [];
                 stats := {| total := Num 0; inProgress := Num 0;
                             completed := Num 0; todo := Num 0;
                             maxIdNumber := None |};
                 source := None; timestamp := None |}, 2%nat)
  /\ Widget.getDWEStats (configured flaky) 10 300000 300001
       (snd (Widget.getDWEStats (configured flaky) 10 0 1 Widget.initial))
     = (Returned {| Widget.total := Num 7; Widget.completed := Num 2;
                    Widget.inProgress := Num 0; Widget.remaining := Num 5;
                    Widget.maxId := Num 7; Widget.activeTasks := Some (Num 2);
                    Widget.lastUpdated := 1; Widget.cached := None;
                    Widget.error := None |},
        Widget.with_requests
          (snd (Widget.getDWEStats (configured flaky) 10 0 1 Widget.initial)) 2)
  /\ exists response,
       getNotionTasks (configured single_page) 10 0 1001 = (Returned response, 1%nat)
       /\ statusCode response = 200
       /\ error response = None
       /\ List.length (tasks response) = 2%nat
       /\ total (stats response) = Num 2.
Proof.
  destruct (getNotionTasks_has_no_fallback (configured flaky) 10 1 300001)
    as [Hfail _]; [simpl; discriminate|].
  destruct (Hfail "socket hang up" 2%nat eq_refl) as [Hserver Hwidget].
  split; [exact Hserver|].
  split; [apply Hwidget; reflexivity|].
  destruct (getNotionTasks_has_no_fallback (configured single_page) 10 0 1001)
    as [_ Hok]; [simpl; discriminate|].
  destruct (Hok (match fst (fetchAllNotionTasks_server single_page 10 0) with
                 | Returned l => l | _ => [] end) 1%nat eq_refl)
    as (response & Hres & Hcode & Herr & Htasks & _ & Htotal).
  exists response.
  split; [exact Hres|]. split; [exact Hcode|]. split; [exact Herr|].
  split; [rewrite Htasks; reflexivity | rewrite Htotal; reflexivity].
Defined.

(** X10.  A record with a [properties] container is always mapped: nothing
    throws, and every field whose key is absent from the container takes its
    default, in both copies of the callback. *)
Theorem record_with_properties_is_mapped task :
  nullish task = false -> nullish (member task "properties") = false ->
  let props := member task "properties" in
  exists r s,
    mapTask task = Normal r /\ mapServerTask task = Normal s /\ base s = r
    /\ id r = member task "id"
    /\ (nullish (member props "Status") = true -> status r = VStr "No Status")
    /\ (nullish (member props "ID") = true -> idNumber r = VNum 0)
    /\ (nullish (member props "Task name") = true -> name r = VStr "Untitled")
    /\ (nullish (member props "Priority") = true -> priority r = VStr "Medium")
    /\ (nullish (member props "Role") = true -> role r = VStr "Unassigned")
    /\ (nullish (member props "Due date") = true -> dueDate r = VNull)
    /\ (nullish (member props "Past due") = true -> pastDue r = VBool false)
    /\ (nullish (member props "Summary") = true -> summary r = VStr "")
    /\ (nullish (member props "Task type") = true -> taskType s = VStr "Task").
Proof.
  intros Ht Hp props.
  destruct (mapServerTask_present task Ht Hp) as (s & Hs & Hb & Htype).
  pose proof (mapTask_present task Ht Hp) as Hr; cbv zeta in Hr; fold props in Hr, Htype.
  rewrite Hr in Hb; injection Hb as Hb.
  eexists; exists s; split; [exact Hr | split; [exact Hs | split; [symmetry; exact Hb |]]].
  cbn [id status idNumber name priority role dueDate pastDue summary].
  split; [reflexivity |].
  repeat split; intros H; rewrite ?Htype; try (apply status_label_missing; exact H);
    rewrite ?(opt_get_missing _ _ H); reflexivity.
Qed.

Lemma bare_record_is_mapped :
  let props := member bare_record "properties" in
  exists r s,
    mapTask bare_record = Normal r /\ mapServerTask bare_record = Normal s /\ base s = r
    /\ id r = member bare_record "id"
    /\ (nullish (member props "Status") = true -> status r = VStr "No Status")
    /\ (nullish (member props "ID") = true -> idNumber r = VNum 0)
    /\ (nullish (member props "Task name") = true -> name r = VStr "Untitled")
    /\ (nullish (member props "Priority") = true -> priority r = VStr "Medium")
    /\ (nullish (member props "Role") = true -> role r = VStr "Unassigned")
    /\ (nullish (member props "Due date") = true -> dueDate r = VNull)
    /\ (nullish (member props "Past due") = true -> pastDue r = VBool false)
    /\ (nullish (member props "Summary") = true -> summary r = VStr "")
    /\ (nullish (member props "Task type") = true -> taskType s = VStr "Task").
Proof.
  apply (record_with_properties_is_mapped bare_record); reflexivity.
Defined.

(** X11.  A record that carries no status is given the label [No Status]:
    [getNotionTasks] counts it as todo and as nothing else, and the widget
    counts it neither as completed nor as in progress. *)
Theorem record_without_status_is_todo task :
  nullish task = false -> nullish (member task "properties") = false ->
  nullish (member (member task "properties") "Status") = true ->
  exists s,
    mapServerTask task = Normal s /\ mapTask task = Normal (base s)
    /\ is_todo s = true /\ is_inProgress s = false /\ is_completed s = false
    /\ Widget.is_completed (base s) = false /\ Widget.is_inProgress (base s) = false.
Proof.
  intros Ht Hp Hs.
  destruct (mapServerTask_present task Ht Hp) as (s & Hmap & Hb & _).
  pose proof (mapTask_present task Ht Hp) as Hr; cbv zeta in Hr.
  rewrite Hr in Hb; injection Hb as Hb.
  assert (Hst : status (base s) = VStr "No Status")
    by (rewrite <- Hb; cbn [status]; apply status_label_missing; exact Hs).
  exists s; split; [exact Hmap | split; [rewrite <- Hb; exact Hr |]].
  unfold is_todo, is_inProgress, is_completed, Widget.is_completed, Widget.is_inProgress.
  rewrite Hst; repeat split.
Qed.

Lemma bare_record_is_todo :
  exists s,
    mapServerTask bare_record = Normal s /\ mapTask bare_record = Normal (base s)
    /\ is_todo s = true /\ is_inProgress s = false /\ is_completed s = false
    /\ Widget.is_completed (base s) = false /\ Widget.is_inProgress (base s) = false.
Proof.
  apply (record_without_status_is_todo bare_record); reflexivity.
Defined.

End ServerFacts.
Module CronSteps.
Import JS DateTime Str Cron DateFacts CronFacts Clock.

Lemma format_clock12 now next :
  format (Num now) (Num next)
  = dayLabel (Num now) (Num next) ++ clock12 (HourFromTime next) (MinFromTime next).
Proof. reflexivity. Qed.

Lemma WeekDay_range t : 0 <= WeekDay t <= 6.
Proof. unfold WeekDay; pose proof (Z.mod_pos_bound (Day t + 4) 7); lia. Qed.

(** A literal minute field sets the minute within the hour of [now]. *)
Lemma minute_step_literal m M now :
  ordinary now ->
  startsWith m "*/" = false -> String.eqb m "*" = false ->
  parseInt m = Num M -> 0 <= M < 60 ->
  minute_step m (Num now) (Num now)
  = (Num (now + (M - MinFromTime now) * msPerMinute), false).
Proof.
  intros Hord Hs He Hp HM; unfold minute_step; rewrite Hs, He, Hp.
  pose proof (MinFromTime_range now).
  rewrite (setMinutes_Num now) by (auto; unfold_time; lia).
  reflexivity.
Qed.

(** A literal hour field sets the hour, and moves to the next day when that
    is not after [now]. *)
Lemma hour_step_literal m h H now t :
  ordinary now ->
  startsWith h "*/" = false -> String.eqb h "*" = false ->
  parseInt h = Num H -> 0 <= H < 24 ->
  now - msPerDay <= t <= now + msPerDay ->
  hour_step m h false (Num now) (Num t)
  = Num (if t + (H - HourFromTime t) * msPerHour <=? now
         then t + (H - HourFromTime t) * msPerHour + 1 * msPerDay
         else t + (H - HourFromTime t) * msPerHour).
Proof.
  intros Hord Hs He Hp HH Ht; unfold hour_step; rewrite Hs, He, Hp. cbn [negb].
  pose proof (HourFromTime_range t).
  rewrite (setHours_Num now) by (auto; unfold_time; lia).
  cbn [lte].
  destruct (t + (H - HourFromTime t) * msPerHour <=? now); [| reflexivity].
  rewrite (setDate_Num now) by (auto; unfold_time; lia).
  reflexivity.
Qed.

Lemma hour_step_star m hourModified now next :
  hour_step m "*" hourModified now next = next.
Proof. reflexivity. Qed.

Lemma weekday_step_star now next : weekday_step "*" now next = next.
Proof. reflexivity. Qed.

(** A literal day-of-week field adds the distance to the target weekday, or
    a week when the distance is 0 and the candidate is not after [now]. *)
Lemma weekday_step_literal d D now t :
  ordinary now ->
  String.eqb d "*" = false -> includes d "/" = false ->
  parseInt d = Num D -> 0 <= D <= 6 ->
  now - msPerDay <= t <= now + msPerDay ->
  weekday_step d (Num now) (Num t)
  = Num (if ((D - WeekDay now) mod 7 =? 0) && (t <=? now)
         then t + 7 * msPerDay
         else t + (D - WeekDay now) mod 7 * msPerDay).
Proof.
  intros Hord He Hi Hp HD Ht; unfold weekday_step; rewrite He, Hi, Hp. cbn [negb andb].
  pose proof (WeekDay_range now) as Hw.
  cbn [getDay lift sub add rem]. change (7 =? 0) with false. cbv iota.
  assert (Hrem : Z.rem (D - WeekDay now + 7) 7 = (D - WeekDay now) mod 7).
  { rewrite Z.rem_mod_nonneg by lia.
    replace (D - WeekDay now + 7) with (D - WeekDay now + 1 * 7) by lia.
    apply Z.mod_add; lia. }
  rewrite Hrem. cbn [strict_eq lte].
  pose proof (Z.mod_pos_bound (D - WeekDay now) 7 ltac:(lia)) as Hk.
  destruct (((D - WeekDay now) mod 7 =? 0) && (t <=? now)) eqn:E.
  - apply andb_true_iff in E as [_ E]. apply Z.leb_le in E.
    rewrite (setDate_Num now) by (auto; unfold_time; lia). reflexivity.
  - rewrite (setDate_Num now) by (auto; unfold_time; lia). reflexivity.
Qed.

(** The instant of the day of [now] at hour [H] and minute [M]. *)
Lemma today_at now M H :
  0 <= M < 60 -> 0 <= H < 24 ->
  HourFromTime (now + (M - MinFromTime now) * msPerMinute) = HourFromTime now
  /\ HourFromTime (now + (M - MinFromTime now) * msPerMinute
                   + (H - HourFromTime now) * msPerHour) = H
  /\ MinFromTime (now + (M - MinFromTime now) * msPerMinute
                  + (H - HourFromTime now) * msPerHour) = M
  /\ Day (now + (M - MinFromTime now) * msPerMinute
          + (H - HourFromTime now) * msPerHour) = Day now.
Proof.
  intros HM HH.
  pose proof (MinFromTime_range now) as Hmin.
  pose proof (HourFromTime_range now) as Hhour.
  revert Hmin Hhour; unfold_time; intros; Z.div_mod_to_equations; lia.
Qed.

Lemma days_later b j :
  HourFromTime (b + j * msPerDay) = HourFromTime b
  /\ MinFromTime (b + j * msPerDay) = MinFromTime b
  /\ Day (b + j * msPerDay) = Day b + j.
Proof.
  unfold_time.
  replace (b + j * 86400000) with (b + (j * 24) * 3600000) at 1 by lia.
  replace (b + j * 86400000) with (b + (j * 1440) * 60000) at 1 by lia.
  rewrite !Z.div_add by lia.
  replace (b / 3600000 + j * 24) with (b / 3600000 + j * 24) by lia.
  rewrite Z.mod_add by lia.
  replace (b / 60000 + j * 1440) with (b / 60000 + (j * 24) * 60) by lia.
  rewrite Z.mod_add by lia. auto.
Qed.

Lemma same_day_span a b : Day a = Day b -> a - msPerDay < b < a + msPerDay.
Proof. unfold_time; intros; Z.div_mod_to_equations; lia. Qed.

End CronSteps.
Module CronSchedules.
Import JS DateTime Str Cron DateFacts CronFacts Clock CronSteps.

Lemma at_least_five parts (a b c d e : string) :
  parts = [a; b; c; d; e] -> (List.length parts <? 5)%nat = false.
Proof. intros ->; reflexivity. Qed.

(** X12.  For a schedule with a literal minute and hour and [*] as day of
    week, whatever the day-of-month and month fields say, the candidate is
    that time of day today when it is still ahead and tomorrow otherwise: it
    is after [now] and at most a day ahead, and the label is the time alone
    for today and carries [Tomorrow] (the weekday name across a month end)
    for tomorrow. *)
Theorem daily_schedule_runs_today_or_tomorrow schedule m h dom mon M H now :
  ordinary now ->
  split_ws schedule = [m; h; dom; mon; "*"] ->
  startsWith m "*/" = false -> String.eqb m "*" = false ->
  parseInt m = Num M -> 0 <= M < 60 ->
  startsWith h "*/" = false -> String.eqb h "*" = false ->
  parseInt h = Num H -> 0 <= H < 24 ->
  let base := now + (M - MinFromTime now) * msPerMinute
              + (H - HourFromTime now) * msPerHour in
  let next := if base <=? now then base + msPerDay else base in
  candidate m h "*" (Num now) = Num next
  /\ now < next <= now + msPerDay
  /\ HourFromTime next = H /\ MinFromTime next = M
  /\ calculateNextRun schedule now
     = (if base <=? now
        then if MonthFromTime next =? MonthFromTime now then "Tomorrow "
             else weekday_short (Num next) ++ " "
        else "") ++ clock12 H M.
Proof.
  intros Hord Hsplit Hms Hme Hmp HM Hhs Hhe Hhp HH base next.
  pose proof (MinFromTime_range now) as Hmin.
  pose proof (HourFromTime_range now) as Hhour.
  set (t := now + (M - MinFromTime now) * msPerMinute).
  destruct (today_at now M H HM HH) as (Ht & Hbh & Hbm & Hbd).
  fold t in Ht. fold base in Hbh, Hbm, Hbd.
  pose proof (same_day_span _ _ Hbd) as Hspan.
  assert (Hcand : candidate m h "*" (Num now) = Num next).
  { unfold candidate. rewrite (minute_step_literal m M now Hord Hms Hme Hmp HM).
    fold t. rewrite (hour_step_literal m h H now t Hord Hhs Hhe Hhp HH)
      by (subst t; unfold_time; lia).
    rewrite weekday_step_star, Ht. subst next base t.
    destruct (now + (M - MinFromTime now) * msPerMinute
              + (H - HourFromTime now) * msPerHour <=? now); f_equal; lia. }
  assert (Hnext : HourFromTime next = H /\ MinFromTime next = M
                  /\ Day next = Day now + (if base <=? now then 1 else 0)).
  { subst next; destruct (base <=? now).
    - destruct (days_later base 1) as (H1 & H2 & H3).
      replace (base + 1 * msPerDay) with (base + msPerDay) in * by lia.
      rewrite H1, H2, H3, Hbh, Hbm, Hbd; repeat split.
    - rewrite Hbh, Hbm, Hbd; repeat split; lia. }
  destruct Hnext as (Hnh & Hnm & Hnd).
  split; [exact Hcand | split; [| split; [exact Hnh | split; [exact Hnm |]]]].
  - subst next; destruct (Z.leb_spec base now); unfold_time; lia.
  - unfold calculateNextRun; rewrite Hsplit. cbn [List.length Nat.ltb Nat.leb nth].
    rewrite Hcand, format_clock12, Hnh, Hnm. f_equal.
    destruct (base <=? now).
    + apply next_day_label; lia.
    + apply same_day_has_no_prefix; lia.
Qed.

Lemma half_past_two_in_the_morning_of_2024 :
  let now := at_civil 2024 1 1 10 0 in
  let base := now + (30 - MinFromTime now) * msPerMinute
              + (14 - HourFromTime now) * msPerHour in
  let next := if base <=? now then base + msPerDay else base in
  (candidate "30" "14" "*" (Num now) = Num next
   /\ now < next <= now + msPerDay
   /\ HourFromTime next = 14 /\ MinFromTime next = 30
   /\ calculateNextRun "30 14 * * *" now
      = (if base <=? now
         then if MonthFromTime next =? MonthFromTime now then "Tomorrow "
              else weekday_short (Num next) ++ " "
         else "") ++ clock12 14 30)
  /\ calculateNextRun "30 14 * * *" now = "2:30pm".
Proof.
  split; [| reflexivity].
  apply (daily_schedule_runs_today_or_tomorrow "30 14 * * *" "30" "14" "*" "*" 30 14
           (at_civil 2024 1 1 10 0)); try reflexivity; try lia.
  vm_compute; split; discriminate.
Defined.

(** X13.  For a schedule with a literal minute, hour and day of week, the
    candidate falls on the target weekday only while the time of day is
    still ahead of [now].  Once it has passed, the hour step has already
    moved the candidate to tomorrow and the distance to the target weekday
    is added on top: the candidate falls on the day after the target
    weekday. *)
Theorem weekday_schedule_is_a_day_late_once_the_time_has_passed
  schedule m h dom mon d M H D now :
  ordinary now ->
  split_ws schedule = [m; h; dom; mon; d] ->
  startsWith m "*/" = false -> String.eqb m "*" = false ->
  parseInt m = Num M -> 0 <= M < 60 ->
  startsWith h "*/" = false -> String.eqb h "*" = false ->
  parseInt h = Num H -> 0 <= H < 24 ->
  String.eqb d "*" = false -> includes d "/" = false ->
  parseInt d = Num D -> 0 <= D <= 6 ->
  let base := now + (M - MinFromTime now) * msPerMinute
              + (H - HourFromTime now) * msPerHour in
  let late := if base <=? now then 1 else 0 in
  let next := base + ((D - WeekDay now) mod 7 + late) * msPerDay in
  candidate m h d (Num now) = Num next
  /\ calculateNextRun schedule now = format (Num now) (Num next)
  /\ now < next
  /\ HourFromTime next = H /\ MinFromTime next = M
  /\ WeekDay next = (D + late) mod 7.
Proof.
  intros Hord Hsplit Hms Hme Hmp HM Hhs Hhe Hhp HH Hde Hdi Hdp HD base late next.
  pose proof (MinFromTime_range now) as Hmin.
  pose proof (HourFromTime_range now) as Hhour.
  set (t := now + (M - MinFromTime now) * msPerMinute).
  destruct (today_at now M H HM HH) as (Ht & Hbh & Hbm & Hbd).
  fold t in Ht. fold base in Hbh, Hbm, Hbd.
  pose proof (same_day_span _ _ Hbd) as Hspan.
  pose proof (WeekDay_range now) as Hwd.
  pose proof (Z.mod_pos_bound (D - WeekDay now) 7 ltac:(lia)) as Hk.
  assert (Hcand : candidate m h d (Num now) = Num next).
  { unfold candidate. rewrite (minute_step_literal m M now Hord Hms Hme Hmp HM).
    fold t. rewrite (hour_step_literal m h H now t Hord Hhs Hhe Hhp HH)
      by (subst t; unfold_time; lia).
    rewrite Ht. change (t + (H - HourFromTime now) * msPerHour) with base.
    subst next late. destruct (Z.leb_spec base now) as [Hpast | Hahead].
    - rewrite (weekday_step_literal d D now _ Hord Hde Hdi Hdp HD)
        by (unfold_time; lia).
      replace (base + 1 * msPerDay <=? now) with false
        by (symmetry; apply Z.leb_gt; unfold_time; lia).
      rewrite andb_false_r. f_equal; lia.
    - rewrite (weekday_step_literal d D now _ Hord Hde Hdi Hdp HD)
        by (unfold_time; lia).
      replace (base <=? now) with false by (symmetry; apply Z.leb_gt; lia).
      rewrite andb_false_r. f_equal; lia. }
  split; [exact Hcand | split; [| split]].
  - unfold calculateNextRun; rewrite Hsplit. cbn [List.length Nat.ltb Nat.leb nth].
    rewrite Hcand; reflexivity.
  - subst next late; destruct (Z.leb_spec base now); unfold_time; nia.
  - destruct (days_later base ((D - WeekDay now) mod 7 + late)) as (Hh' & Hm' & Hd').
    fold next in Hh', Hm', Hd'.
    rewrite Hh', Hm', Hbh, Hbm; split; [reflexivity | split; [reflexivity |]].
    assert (Hlate : 0 <= late <= 1) by (subst late; destruct (base <=? now); lia).
    unfold WeekDay in *; rewrite Hd', Hbd.
    clear - Hk Hwd Hlate HD. revert Hk Hwd; generalize (Day now); intros dn; intros.
    Z.div_mod_to_equations; lia.
Qed.

Lemma wednesday_job_on_a_monday_afternoon :
  let now := at_civil 2024 1 1 14 0 in
  let base := now + (0 - MinFromTime now) * msPerMinute
              + (9 - HourFromTime now) * msPerHour in
  let late := if base <=? now then 1 else 0 in
  let next := base + ((3 - WeekDay now) mod 7 + late) * msPerDay in
  (candidate "0" "9" "3" (Num now) = Num next
   /\ calculateNextRun "0 9 * * 3" now = format (Num now) (Num next)
   /\ now < next
   /\ HourFromTime next = 9 /\ MinFromTime next = 0
   /\ WeekDay next = (3 + late) mod 7)
  /\ next = at_civil 2024 1 4 9 0
  /\ calculateNextRun "0 9 * * 3" now = "Thu 9:00am".
Proof.
  split; [| split; reflexivity].
  apply (weekday_schedule_is_a_day_late_once_the_time_has_passed
           "0 9 * * 3" "0" "9" "*" "*" "3" 0 9 3 (at_civil 2024 1 1 14 0));
    try reflexivity; try lia.
  vm_compute; split; discriminate.
Defined.

(** X14.  With [*] as minute and hour and as day of week the candidate is
    exactly one minute after [now], across the end of the hour and of the
    day as well. *)
Theorem every_minute_schedule_is_a_minute_ahead schedule dom mon now :
  ordinary now ->
  split_ws schedule = ["*"; "*"; dom; mon; "*"] ->
  candidate "*" "*" "*" (Num now) = Num (now + msPerMinute)
  /\ calculateNextRun schedule now = format (Num now) (Num (now + msPerMinute)).
Proof.
  intros Hord Hsplit.
  assert (Hcand : candidate "*" "*" "*" (Num now) = Num (now + msPerMinute)).
  { unfold candidate, minute_step.
    change (startsWith "*" "*/") with false; change (String.eqb "*" "*") with true.
    cbv iota. cbn [getMinutes lift add].
    rewrite (setMinutes_Num now) by (auto; unfold_time; lia).
    rewrite hour_step_star, weekday_step_star. f_equal; lia. }
  split; [exact Hcand |].
  unfold calculateNextRun; rewrite Hsplit. cbn [List.length Nat.ltb Nat.leb nth].
  rewrite Hcand; reflexivity.
Qed.

Lemma every_minute_at_the_end_of_the_year :
  (candidate "*" "*" "*" (Num (at_civil 2024 12 31 23 59))
   = Num (at_civil 2024 12 31 23 59 + msPerMinute)
   /\ calculateNextRun "* * * * *" (at_civil 2024 12 31 23 59)
      = format (Num (at_civil 2024 12 31 23 59))
               (Num (at_civil 2024 12 31 23 59 + msPerMinute)))
  /\ calculateNextRun "* * * * *" (at_civil 2024 12 31 23 59) = "Wed 12:00am".
Proof.
  split; [| reflexivity].
  apply (every_minute_schedule_is_a_minute_ahead "* * * * *" "*" "*").
  - vm_compute; split; discriminate.
  - reflexivity.
Defined.

(** X15.  With a literal minute and [*] as hour and day of week the hour is
    never advanced: the candidate is that minute of the current hour, which
    is not after [now] once the minute has been reached, and the label is
    that time of day without a day prefix. *)
Theorem literal_minute_stays_in_the_current_hour schedule m dom mon M now :
  ordinary now ->
  split_ws schedule = [m; "*"; dom; mon; "*"] ->
  startsWith m "*/" = false -> String.eqb m "*" = false ->
  parseInt m = Num M -> 0 <= M < 60 ->
  let next := now + (M - MinFromTime now) * msPerMinute in
  candidate m "*" "*" (Num now) = Num next
  /\ (M <= MinFromTime now -> next <= now)
  /\ calculateNextRun schedule now = clock12 (HourFromTime now) M.
Proof.
  intros Hord Hsplit Hms Hme Hmp HM next.
  assert (Hcand : candidate m "*" "*" (Num now) = Num next).
  { unfold candidate. rewrite (minute_step_literal m M now Hord Hms Hme Hmp HM).
    rewrite hour_step_star, weekday_step_star; reflexivity. }
  pose proof (MinFromTime_range now) as Hmin.
  assert (Hf : HourFromTime next = HourFromTime now /\ MinFromTime next = M
               /\ Day next = Day now)
    by (subst next; clear - Hmin HM; revert Hmin; unfold_time; intros;
        Z.div_mod_to_equations; lia).
  destruct Hf as (Hh & Hm & Hd).
  split; [exact Hcand | split].
  - intros Hle; subst next; unfold_time; nia.
  - unfold calculateNextRun; rewrite Hsplit. cbn [List.length Nat.ltb Nat.leb nth].
    rewrite Hcand, format_clock12, Hh, Hm, (same_day_has_no_prefix _ _ Hd); reflexivity.
Qed.

Lemma quarter_past_at_half_past_ten :
  let now := at_civil 2024 1 1 10 30 in
  let next := now + (15 - MinFromTime now) * msPerMinute in
  (candidate "15" "*" "*" (Num now) = Num next
   /\ (15 <= MinFromTime now -> next <= now)
   /\ calculateNextRun "15 * * * *" now = clock12 (HourFromTime now) 15)
  /\ calculateNextRun "15 * * * *" now = "10:15am".
Proof.
  split; [| reflexivity].
  apply (literal_minute_stays_in_the_current_hour "15 * * * *" "15" "*" "*" 15
           (at_civil 2024 1 1 10 30)); try reflexivity; try lia.
  vm_compute; split; discriminate.
Defined.

(** X16.  With an hour step [*/N] and a literal minute, the minute field is
    overwritten: the candidate is the start of the current hour moved [N]
    hours ahead, at minute 0 whatever the minute field says, and it is not
    aligned to the multiples of [N]. *)
Theorem hour_step_discards_the_minute schedule m h dom mon M N now :
  ordinary now ->
  split_ws schedule = [m; h; dom; mon; "*"] ->
  startsWith m "*/" = false -> String.eqb m "*" = false ->
  parseInt m = Num M -> 0 <= M < 60 ->
  startsWith h "*/" = true -> parseInt (replace "*/" "" h) = Num N -> 0 < N < 24 ->
  let next := now - MinFromTime now * msPerMinute + N * msPerHour in
  candidate m h "*" (Num now) = Num next
  /\ calculateNextRun schedule now = format (Num now) (Num next)
  /\ MinFromTime next = 0
  /\ next / msPerHour = now / msPerHour + N.
Proof.
  intros Hord Hsplit Hms Hme Hmp HM Hhs Hhp HN next.
  pose proof (MinFromTime_range now) as Hmin.
  pose proof (HourFromTime_range now) as Hhour.
  set (t := now + (M - MinFromTime now) * msPerMinute).
  assert (Ht : HourFromTime t = HourFromTime now /\ MinFromTime t = M)
    by (subst t; clear - Hmin HM; revert Hmin; unfold_time; intros;
        Z.div_mod_to_equations; lia).
  destruct Ht as (Hth & Htm).
  set (u := t + N * msPerHour).
  assert (Hu : MinFromTime u = M)
    by (subst u; clear - Htm; revert Htm; generalize t; intros t0; unfold_time; intros;
        Z.div_mod_to_equations; lia).
  assert (Hcand : candidate m h "*" (Num now) = Num next).
  { unfold candidate. rewrite (minute_step_literal m M now Hord Hms Hme Hmp HM).
    fold t. unfold hour_step; rewrite Hhs, Hms, Hhp. cbn [negb getHours lift add].
    rewrite (setHours_Num now) by (auto; rewrite Hth; subst t; unfold_time; lia).
    rewrite Hth. replace (t + (HourFromTime now + N - HourFromTime now) * msPerHour)
      with u by (subst u; lia).
    rewrite (setMinutes_Num now) by (auto; rewrite Hu; subst u t; unfold_time; lia).
    rewrite Hu, weekday_step_star. f_equal; subst next u t; unfold_time; lia. }
  split; [exact Hcand | split].
  - unfold calculateNextRun; rewrite Hsplit. cbn [List.length Nat.ltb Nat.leb nth].
    rewrite Hcand; reflexivity.
  - subst next; clear - Hmin; revert Hmin; unfold_time; intros; Z.div_mod_to_equations; lia.
Qed.

Lemma every_two_hours_at_ten_past_seven :
  let now := at_civil 2024 1 1 7 10 in
  let next := now - MinFromTime now * msPerMinute + 2 * msPerHour in
  (candidate "30" "*/2" "*" (Num now) = Num next
   /\ calculateNextRun "30 */2 * * *" now = format (Num now) (Num next)
   /\ MinFromTime next = 0
   /\ next / msPerHour = now / msPerHour + 2)
  /\ calculateNextRun "30 */2 * * *" now = "9:00am".
Proof.
  split; [| reflexivity].
  apply (hour_step_discards_the_minute "30 */2 * * *" "30" "*/2" "*" "*" 30 2
           (at_civil 2024 1 1 7 10)); try reflexivity; try lia.
  vm_compute; split; discriminate.
Defined.

End CronSchedules.
Module CrontabFacts.
Import JS DateTime Str Cron CronFacts Crontab.

Lemma has_space_app a b : has_space (a ++ b) = (has_space a || has_space b)%bool.
Proof.
  induction a as [|c a IH]; [reflexivity |].
  cbn [append has_space]; rewrite IH, orb_assoc; reflexivity.
Qed.

Lemma app_empty_r (a : string) : a ++ "" = a.
Proof. induction a as [|c a IH]; [reflexivity | cbn [append]; rewrite IH; reflexivity]. Qed.

Lemma app_assoc_str (a b c : string) : (a ++ b) ++ c = a ++ (b ++ c).
Proof. induction a as [|x a IH]; [reflexivity | cbn [append]; rewrite IH; reflexivity]. Qed.

Lemma last_char_cons c s : s <> "" -> last_char (String c s) = last_char s.
Proof. destruct s; [contradiction | reflexivity]. Qed.

(** The fields of [split_scan] are proper fields when the input does not end
    in white space and the scan is not about to give an empty one. *)
Lemma split_scan_fields s :
  forall cur in_gap,
    has_space cur = false -> ends_well s ->
    (in_gap = true -> s <> "") ->
    (in_gap = false ->
     cur <> "" \/ exists c rest, s = String c rest /\ is_space c = false) ->
    Forall is_field (split_scan cur in_gap s).
Proof.
  induction s as [|c rest IH]; intros cur in_gap Hcur Hend Hgap Hword.
  - destruct in_gap; [exfalso; apply Hgap; reflexivity |].
    destruct (Hword eq_refl) as [Hne | (c & rest & Habs & _)]; [| discriminate].
    constructor; [split; assumption | constructor].
  - assert (Hrest : is_space c = true -> rest <> "" /\ ends_well rest).
    { intros Hc; unfold ends_well in *; destruct rest as [|c' rest'].
      - simpl in Hend; congruence.
      - split; [discriminate | rewrite last_char_cons in Hend by discriminate; exact Hend]. }
    assert (Hend' : is_space c = false -> ends_well rest).
    { intros Hc; unfold ends_well in *; destruct rest as [|c' rest']; [exact I |].
      rewrite last_char_cons in Hend by discriminate; exact Hend. }
    cbn [split_scan]; destruct (is_space c) eqn:Hc.
    + destruct (Hrest eq_refl) as [Hne Hew].
      destruct in_gap.
      * apply IH; auto. intros; discriminate.
      * constructor.
        -- split; [| exact Hcur].
           destruct (Hword eq_refl) as [H | (c0 & r0 & Heq & Hns)]; [exact H |].
           injection Heq as <- <-; congruence.
        -- apply IH; auto. intros; discriminate.
    + apply IH.
      * rewrite has_space_app, Hcur; simpl; rewrite Hc; reflexivity.
      * apply Hend'; reflexivity.
      * intros; discriminate.
      * intros _; left; destruct cur; discriminate.
Qed.

Lemma trimStart_head s :
  trimStart s = "" \/ exists c rest, trimStart s = String c rest /\ is_space c = false.
Proof.
  induction s as [|c s IH]; [left; reflexivity |].
  cbn [trimStart]; destruct (is_space c) eqn:E; [exact IH |].
  right; exists c, s; auto.
Qed.

Lemma trimEnd_head c rest :
  is_space c = false -> exists rest', trimEnd (String c rest) = String c rest'.
Proof.
  intros Hc; cbn [trimEnd]; destruct (trimEnd rest); rewrite ?Hc; eauto.
Qed.

Lemma trimEnd_ends_well s : ends_well (trimEnd s).
Proof.
  unfold ends_well; induction s as [|c s IH]; [exact I |].
  cbn [trimEnd]; destruct (trimEnd s) as [|c' s'] eqn:E.
  - destruct (is_space c) eqn:Hc; [exact I | simpl; exact Hc].
  - rewrite last_char_cons by discriminate; exact IH.
Qed.

(** The fields of a trimmed line are proper fields, unless the line is blank. *)
Lemma trimmed_line_fields line :
  trim line = "" \/ Forall is_field (split_ws (trim line)).
Proof.
  unfold trim; destruct (trimStart_head line) as [-> | (c & rest & -> & Hc)];
    [left; reflexivity |].
  right; destruct (trimEnd_head c rest Hc) as [rest' Heq].
  unfold split_ws; apply split_scan_fields; auto.
  - apply trimEnd_ends_well.
  - intros; discriminate.
  - intros _; right; exists c, rest'; auto.
Qed.

(** A field is read as it is. *)
Lemma split_scan_field w :
  has_space w = false ->
  forall cur rest, split_scan cur false (w ++ rest) = split_scan (cur ++ w) false rest.
Proof.
  induction w as [|c w IH]; intros Hw cur rest.
  - rewrite app_empty_r; reflexivity.
  - cbn [has_space] in Hw; apply orb_false_iff in Hw as [Hc Hw].
    cbn [append split_scan]; rewrite Hc, (IH Hw), app_assoc_str; reflexivity.
Qed.

Lemma split_scan_gap_field w rest :
  is_field w -> split_scan "" true (w ++ rest) = split_scan "" false (w ++ rest).
Proof.
  intros [Hne Hw]; destruct w as [|c w]; [contradiction |].
  cbn [has_space] in Hw; apply orb_false_iff in Hw as [Hc _].
  cbn [append split_scan]; rewrite Hc; reflexivity.
Qed.

(** Joining fields with one space and splitting again gives them back. *)
Lemma split_join_fields fields :
  Forall is_field fields -> fields <> [] ->
  split_ws (join " " fields) = fields.
Proof.
  unfold split_ws; induction 1 as [|w rest Hw Hrest IH]; intros Hne; [contradiction |].
  destruct rest as [|w' rest'].
  - cbn [join]. rewrite <- (app_empty_r w) at 1.
    rewrite (split_scan_field w (proj2 Hw)); reflexivity.
  - change (join " " (w :: w' :: rest')) with (w ++ " " ++ join " " (w' :: rest')).
    rewrite (split_scan_field w (proj2 Hw)).
    change ("" ++ w) with w.
    change (" " ++ join " " (w' :: rest')) with (String " " (join " " (w' :: rest'))).
    cbn [split_scan]. change (is_space " ") with true. cbv iota.
    inversion Hrest as [|? ? Hw' Hrest']; subst.
    f_equal.
    assert (Hj : exists tail, join " " (w' :: rest') = w' ++ tail)
      by (destruct rest'; [exists ""; cbn [join]; rewrite app_empty_r | eexists]; reflexivity).
    destruct Hj as [tail Hj]. rewrite Hj, (split_scan_gap_field w' tail Hw'), <- Hj.
    apply IH; discriminate.
Qed.

Lemma firstn_fields {T : Type} (P : T -> Prop) n (l : list T) :
  Forall P l -> Forall P (firstn n l).
Proof.
  intros H; revert n; induction H; intros [|n]; cbn [firstn]; constructor; auto.
Qed.

(** The schedule of an entry is made of the first five fields of its line,
    and splits into these again. *)
Lemma cron_of_line_schedule line idx now entry :
  cron_of_line line idx now = Some entry ->
  split_ws (schedule entry) = firstn 5 (split_ws (trim line))
  /\ List.length (split_ws (schedule entry)) = 5%nat
  /\ nextRun entry = calculateNextRun (schedule entry) now
  /\ nextRun entry <> "Unknown"
  /\ command entry = scriptName (skipn 5 (split_ws (trim line)))
  /\ status entry = "active".
Proof.
  unfold cron_of_line; intros Hentry.
  destruct (6 <=? List.length (split_ws (trim line)))%nat eqn:Hlen; [| discriminate].
  apply Nat.leb_le in Hlen. injection Hentry as <-.
  change (schedule _) with (join " " (firstn 5 (split_ws (trim line)))).
  change (nextRun _)
    with (calculateNextRun (join " " (firstn 5 (split_ws (trim line)))) now).
  assert (Hfields : Forall is_field (split_ws (trim line))).
  { destruct (trimmed_line_fields line) as [Hblank | H]; [| exact H].
    rewrite Hblank in Hlen; simpl in Hlen; lia. }
  assert (Hsplit : split_ws (join " " (firstn 5 (split_ws (trim line))))
                   = firstn 5 (split_ws (trim line))).
  { apply split_join_fields; [apply firstn_fields; exact Hfields |].
    destruct (split_ws (trim line)); [simpl in Hlen; lia | discriminate]. }
  assert (Hfive : List.length (firstn 5 (split_ws (trim line))) = 5%nat)
    by (rewrite length_firstn; lia).
  rewrite Hsplit; repeat split; [exact Hfive |].
  unfold calculateNextRun; rewrite Hsplit, Hfive. apply format_not_Unknown.
Qed.

Lemma includes_app a b c : includes (a ++ b) c = (includes a c || includes b c)%bool.
Proof.
  induction a as [|x a IH]; [reflexivity |].
  cbn [append includes]; rewrite IH, orb_assoc; reflexivity.
Qed.

Lemma includes_drop n s c : includes s c = false -> includes (drop n s) c = false.
Proof.
  revert s; induction n as [|n IH]; intros s Hs; [exact Hs |].
  destruct s as [|x s]; [reflexivity |].
  cbn [includes] in Hs; apply orb_false_iff in Hs as [_ Hs]. apply IH; exact Hs.
Qed.

Lemma includes_replace pat rep s c :
  includes s c = false -> includes rep c = false ->
  includes (replace pat rep s) c = false.
Proof.
  intros Hs Hrep; induction s as [|x s IH].
  - cbn [replace]; destruct (String.prefix pat ""); [| reflexivity].
    rewrite includes_app, Hrep; apply includes_drop; reflexivity.
  - cbn [replace]; destruct (String.prefix pat (String x s)).
    + rewrite includes_app, Hrep; apply includes_drop; exact Hs.
    + cbn [includes] in Hs |- *; apply orb_false_iff in Hs as [Hx Hs].
      rewrite Hx, (IH Hs); reflexivity.
Qed.

Lemma split_scan_on_pieces sep s :
  forall cur, includes cur sep = false ->
  Forall (fun piece => includes piece sep = false) (split_scan_on sep cur s).
Proof.
  induction s as [|x s IH]; intros cur Hcur; cbn [split_scan_on].
  - constructor; [exact Hcur | constructor].
  - destruct (Ascii.eqb x sep) eqn:E.
    + constructor; [exact Hcur | apply IH; reflexivity].
    + apply IH; rewrite includes_app, Hcur; cbn [includes]; rewrite E; reflexivity.
Qed.

Lemma last_in_Forall {T : Type} (P : T -> Prop) (l : list T) d :
  Forall P l -> P d -> P (List.last l d).
Proof.
  intros H Hd; induction H as [|x l Hx Hl IH]; [exact Hd |].
  destruct l; [exact Hx | exact IH].
Qed.

Lemma basename_has_no_slash part : includes (basename part) "/" = false.
Proof.
  unfold basename, split_on.
  apply (last_in_Forall (fun piece => includes piece "/" = false));
    [apply split_scan_on_pieces |]; reflexivity.
Qed.

(** The command shown is a bare name. *)
Lemma scriptName_has_no_slash commandParts :
  includes (scriptName commandParts) "/" = false.
Proof.
  unfold scriptName.
  set (first := match find _ commandParts with
                | Some part => replace ".sh" "" (basename part)
                | None => "System"
                end).
  assert (Hfirst : includes first "/" = false).
  { unfold first; destruct (find _ commandParts); [| reflexivity].
    apply includes_replace; [apply basename_has_no_slash | reflexivity]. }
  clearbody first.
  destruct (String.eqb first "System" && (0 <? List.length commandParts)%nat)%bool;
    [| exact Hfirst].
  destruct (find _ commandParts); [apply basename_has_no_slash | exact Hfirst].
Qed.

Lemma crons_of_lines_entries lines :
  forall idx clock,
    Forall (fun entry =>
              List.length (split_ws (schedule entry)) = 5%nat
              /\ nextRun entry <> "Unknown"
              /\ includes (command entry) "/" = false
              /\ status entry = "active")
           (crons_of_lines lines idx clock)
    /\ (List.length (crons_of_lines lines idx clock) <= List.length lines)%nat.
Proof.
  induction lines as [|line rest IH]; intros idx clock; cbn [crons_of_lines].
  - split; [constructor | reflexivity].
  - destruct (IH (S idx) clock) as [Hall Hlen].
    destruct (cron_of_line line idx (clock idx)) as [entry|] eqn:E.
    + destruct (cron_of_line_schedule _ _ _ _ E) as (_ & H5 & _ & Hu & Hc & Hs).
      split; [constructor; [| exact Hall] | cbn [List.length]; lia].
      repeat split; auto. rewrite Hc; apply scriptName_has_no_slash.
    + split; [exact Hall | cbn [List.length]; lia].
Qed.

(** X17.  Whatever the [crontab] pipeline printed, every entry [getCrons]
    lists has a schedule of exactly five fields and a next-run label that is
    never [Unknown], shows a command without any slash, and is [active];
    there are no more entries than lines, and none at all after an error or
    an empty output. *)
Theorem getCrons_entries_are_labelled error stdout clock :
  Forall (fun entry =>
            List.length (split_ws (schedule entry)) = 5%nat
            /\ nextRun entry <> "Unknown"
            /\ includes (command entry) "/" = false
            /\ status entry = "active")
         (getCrons error stdout clock)
  /\ (List.length (getCrons error stdout clock)
      <= List.length (split_on "010" (trim stdout)))%nat
  /\ (error = true \/ stdout = "" -> getCrons error stdout clock = []).
Proof.
  unfold getCrons; split; [| split].
  - destruct (negb error && negb (String.eqb stdout ""))%bool; [| constructor].
    apply crons_of_lines_entries.
  - destruct (negb error && negb (String.eqb stdout ""))%bool; [| simpl; lia].
    apply crons_of_lines_entries.
  - intros [-> | ->]; [reflexivity | rewrite andb_false_r; reflexivity].
Qed.

(** X18.  The schedule an entry shows is the first five fields of its line
    joined by single spaces, however the line was spaced: splitting it gives
    these five fields back, and the label of the entry is the one
    [calculateNextRun] gives for them. *)
Theorem cron_schedule_is_the_first_five_fields line idx now entry :
  cron_of_line line idx now = Some entry ->
  split_ws (schedule entry) = firstn 5 (split_ws (trim line))
  /\ nextRun entry = calculateNextRun (schedule entry) now
  /\ command entry = scriptName (skipn 5 (split_ws (trim line))).
Proof.
  intros H; destruct (cron_of_line_schedule _ _ _ _ H) as (H1 & _ & H3 & _ & H5 & _).
  auto.
Qed.

Lemma backup_entry_is_labelled :
  let line := "  */15   *  * * *   /usr/local/bin/backup.sh >> /tmp/backup.log" in
  let now := at_civil 2024 1 1 10 7 in
  let entry := {| id := "CRON-001"; schedule := "*/15 * * * *"; command := "backup";
                  status := "active"; nextRun := "10:15am" |} in
  cron_of_line line 0 now = Some entry
  /\ split_ws (schedule entry) = firstn 5 (split_ws (trim line))
  /\ nextRun entry = calculateNextRun (schedule entry) now
  /\ command entry = scriptName (skipn 5 (split_ws (trim line))).
Proof.
  split; [reflexivity |].
  apply (cron_schedule_is_the_first_five_fields
           "  */15   *  * * *   /usr/local/bin/backup.sh >> /tmp/backup.log" 0).
  reflexivity.
Defined.

End CrontabFacts.
Module ServicesFacts.
Import JS Str Crontab Services.

Lemma run_snoc table events event :
  run table (events ++ [event]) = on_exit (run table events) event.
Proof. unfold run; rewrite fold_left_app; reflexivity. Qed.

(** While commands are still running nothing has been sent; [pending] counts
    the callbacks still to come and [results] holds those that came. *)
Lemma run_counts table events :
  pending (run table events) = Z.of_nat (List.length table) - Z.of_nat (List.length events)
  /\ results (run table events) = map (fun e => result_of (fst e) (snd e)) events
  /\ ((List.length events < List.length table)%nat -> sent (run table events) = []).
Proof.
  induction events as [|event events IH] using rev_ind.
  - repeat split; unfold run; cbn; lia.
  - destruct IH as (Hp & Hr & Hs).
    rewrite run_snoc, length_app, map_app; cbn [List.length map].
    unfold on_exit; cbn [pending results sent]; rewrite Hp, Hr.
    split; [lia | split; [reflexivity |]].
    intros Hlt.
    replace (Z.of_nat (List.length table) - Z.of_nat (List.length events) - 1 =? 0)
      with false by (symmetry; apply Z.eqb_neq; lia).
    apply Hs; lia.
Qed.

(** X19.  [getServices] answers exactly once, whatever the order in which
    the seven checks end: nothing is sent while a check is still running,
    and the callback of the last one sends all seven results, in the order
    of completion. *)
Theorem getServices_answers_once_after_the_last_check (events : list (Service * string)) :
  Forall (fun s => spawns s = true) services
  /\ ((List.length events < List.length services)%nat -> sent (run services events) = [])
  /\ (List.length events = List.length services ->
      sent (run services events) = [map (fun e => result_of (fst e) (snd e)) events]
      /\ List.length (results (run services events)) = 7%nat
      /\ pending (run services events) = 0).
Proof.
  split; [repeat constructor | split].
  - apply run_counts.
  - intros Hlen.
    destruct events as [|event events] using rev_ind; [discriminate |].
    clear IHevents. rewrite length_app in Hlen; cbn [List.length] in Hlen.
    destruct (run_counts services events) as (Hp & Hr & Hs).
    rewrite run_snoc; unfold on_exit; cbn [pending results sent].
    rewrite Hp, Hr, Hs by lia.
    replace (Z.of_nat (List.length services) - Z.of_nat (List.length events) - 1 =? 0)
      with true by (symmetry; apply Z.eqb_eq; lia).
    rewrite map_app; cbn [map app]. change (List.length services) with 7%nat in *.
    repeat split.
    + rewrite length_app, length_map; cbn [List.length]; lia.
    + lia.
Qed.

End ServicesFacts.
Module StoreFacts.
Import JS Store.

Lemma assoc_set_field k v fields : assoc k (set_field k v fields) = v.
Proof.
  induction fields as [|[k' v'] rest IH]; cbn [set_field assoc].
  - rewrite String.eqb_refl; reflexivity.
  - destruct (String.eqb k k') eqn:E; cbn [assoc]; rewrite ?String.eqb_refl, ?E; auto.
Qed.

Lemma assoc_set_field_other k k' v fields :
  k' <> k -> assoc k' (set_field k v fields) = assoc k' fields.
Proof.
  intros Hne; induction fields as [|[k0 v0] rest IH]; cbn [set_field assoc].
  - apply String.eqb_neq in Hne; rewrite Hne; reflexivity.
  - destruct (String.eqb k k0) eqn:E; cbn [assoc].
    + apply String.eqb_eq in E; subst k0.
      apply String.eqb_neq in Hne; rewrite Hne; reflexivity.
    + rewrite IH; reflexivity.
Qed.

Lemma last50_suffix {T : Type} (l : list T) :
  exists older, l = (older ++ last50 l)%list
                /\ List.length (last50 l) = Nat.min 50 (List.length l).
Proof.
  exists (firstn (List.length l - 50) l); unfold last50; split.
  - symmetry; apply firstn_skipn.
  - rewrite length_skipn; lia.
Qed.

Lemma last50_snoc {T : Type} (l : list T) x :
  exists shown, last50 (l ++ [x]) = (shown ++ [x])%list.
Proof.
  unfold last50; rewrite length_app; cbn [List.length].
  rewrite skipn_app.
  replace (List.length l + 1 - 50 - List.length l)%nat with 0%nat by lia.
  eexists; reflexivity.
Qed.

Lemma activity_read fields l b stamp writable :
  assoc "entries" fields = VArr l ->
  handleActivity GET b stamp writable (Some (JsonText (VObj fields)))
  = (Answered 200 (JsonText (log_of (last50 l))), Some (JsonText (VObj fields))).
Proof. intros H; cbn -[last50]; rewrite H; reflexivity. Qed.

(** X20.  Reading the activity log returns its most recent entries, 50 at
    most: the entries shown are the log without its older part, and the file
    is left as it is. *)
Theorem activity_log_shows_the_last_fifty activity fields l b stamp writable :
  activity = VObj fields -> assoc "entries" fields = VArr l ->
  exists older shown,
    handleActivity GET b stamp writable (Some (JsonText activity))
    = (Answered 200 (JsonText (log_of shown)), Some (JsonText activity))
    /\ l = (older ++ shown)%list
    /\ List.length shown = Nat.min 50 (List.length l).
Proof.
  intros -> Hentries.
  destruct (last50_suffix l) as (older & Hl & Hlen).
  exists older, (last50 l); split; [| split; assumption].
  apply activity_read; exact Hentries.
Qed.

Lemma log_of_sixty_shows_fifty :
  exists older shown,
    handleActivity GET Malformed "" true (Some (JsonText (log_of (repeat VNull 60))))
    = (Answered 200 (JsonText (log_of shown)), Some (JsonText (log_of (repeat VNull 60))))
    /\ repeat VNull 60 = (older ++ shown)%list
    /\ List.length shown = Nat.min 50 (List.length (repeat VNull 60)).
Proof.
  apply (activity_log_shows_the_last_fifty (log_of (repeat VNull 60))
           [("entries", VArr (repeat VNull 60))]); reflexivity.
Defined.

(** X21.  An object posted to the activity log is appended with the
    timestamp of the server, which replaces one the client sent, and is the
    last entry the next read shows.  A log that is empty or cannot be read is
    started anew with this entry alone. *)
Theorem posted_entry_is_read_back_last entry stamp f l b' stamp' writable' :
  (f = None \/ f = Some EmptyText) /\ l = []
  \/ (exists fields, f = Some (JsonText (VObj fields)) /\ assoc "entries" fields = VArr l) ->
  let entry' := VObj (set_field "timestamp" (VStr stamp) entry) in
  exists activity' shown,
    handleActivity POST (Parses (VObj entry)) stamp true f
    = (Answered 200 success_body, Some (JsonText activity'))
    /\ member activity' "entries" = VArr (l ++ [entry'])
    /\ member entry' "timestamp" = VStr stamp
    /\ handleActivity GET b' stamp' writable' (Some (JsonText activity'))
       = (Answered 200 (JsonText (log_of (shown ++ [entry']))), Some (JsonText activity')).
Proof.
  intros Hf entry'.
  assert (Hstamp : member entry' "timestamp" = VStr stamp)
    by (apply assoc_set_field).
  destruct (last50_snoc l entry') as [shown Hshown].
  destruct Hf as [[Hf ->] | (fields & -> & Hentries)].
  - exists (VObj [("entries", VArr [entry'])]), shown.
    assert (Hpost : handleActivity POST (Parses (VObj entry)) stamp true f
                    = (Answered 200 success_body,
                       Some (JsonText (VObj [("entries", VArr [entry'])]))))
      by (destruct Hf as [-> | ->]; reflexivity).
    split; [exact Hpost | split; [reflexivity | split; [exact Hstamp |]]].
    rewrite (activity_read [("entries", VArr [entry'])] ([] ++ [entry']) b' stamp' writable'
               eq_refl), Hshown; reflexivity.
  - exists (VObj (set_field "entries" (VArr (l ++ [entry'])) fields)), shown.
    split; [| split; [apply assoc_set_field | split; [exact Hstamp |]]].
    + cbn. rewrite Hentries. reflexivity.
    + rewrite (activity_read _ (l ++ [entry']) _ _ _ (assoc_set_field _ _ _)), Hshown.
      reflexivity.
Qed.

Lemma first_entry_starts_the_log :
  let entry' := VObj (set_field "timestamp" (VStr "2024-01-01T10:00:00.000Z")
                                [("message", VStr "deployed"); ("timestamp", VStr "1999")]) in
  exists activity' shown,
    handleActivity POST (Parses (VObj [("message", VStr "deployed"); ("timestamp", VStr "1999")]))
                   "2024-01-01T10:00:00.000Z" true None
    = (Answered 200 success_body, Some (JsonText activity'))
    /\ member activity' "entries" = VArr ([] ++ [entry'])
    /\ member entry' "timestamp" = VStr "2024-01-01T10:00:00.000Z"
    /\ handleActivity GET Malformed "" false (Some (JsonText activity'))
       = (Answered 200 (JsonText (log_of (shown ++ [entry']))), Some (JsonText activity')).
Proof.
  apply (posted_entry_is_read_back_last
           [("message", VStr "deployed"); ("timestamp", VStr "1999")]
           "2024-01-01T10:00:00.000Z" None []).
  left; split; [left |]; reflexivity.
Defined.


End StoreFacts.

(* ================================================================== *)
(** * Facts about [getLaunchd] *)
(* ================================================================== *)

Module LaunchdFacts.
Import JS Str Crontab Launchd.

Section Table.

(** What a line of the output may change in a job of the table: nothing but
    its status and pid, and only towards [running] with the pid of a line. *)
Variable listed : Job -> Job -> Prop.
Hypothesis listed_def : forall j0 j,
  listed j0 j <->
  id j = id j0 /\ name j = name j0 /\ nextRun j = nextRun j0 /\
  (status j = status j0 \/ status j = "running") /\
  (pid j = pid j0 \/ exists p, pid j = Some p /\ p <> "-" /\ status j = "running").

Lemma mark_running_listed (label p : string) (table0 table : list Job) :
  p <> "-" ->
  Forall2 listed table0 table ->
  Forall2 listed table0 (mark_running label p table).
Proof.
  intros Hp H. induction H as [|j0 j t0 t Hj Ht IH]; cbn [mark_running].
  - constructor.
  - destruct (names label j).
    + constructor; [|exact Ht].
      apply listed_def in Hj. destruct Hj as (Hi & Hn & Hr & _ & _).
      apply listed_def. cbn. repeat split; try assumption.
      * right. reflexivity.
      * right. exists p. repeat split; [exact Hp].
    + constructor; assumption.
Qed.

Lemma on_line_listed (line : string) (table0 table : list Job) :
  Forall2 listed table0 table ->
  Forall2 listed table0 (on_line table line).
Proof.
  intros H. unfold on_line.
  destruct (includes_str line "com.dwe"); [|exact H].
  destruct (3 <=? List.length (split_ws (trim line)))%nat; [|exact H].
  cbv zeta.
  destruct (existsb _ table); cbn [andb]; [|exact H].
  destruct (String.eqb_spec (nth 0 (split_ws (trim line)) "") "-") as [|Hp];
    cbn [negb]; [exact H|].
  apply mark_running_listed; assumption.
Qed.

Lemma fold_on_line_listed (lines : list string) (table0 table : list Job) :
  Forall2 listed table0 table ->
  Forall2 listed table0 (fold_left on_line lines table).
Proof.
  revert table. induction lines as [|line rest IH]; intros table H; cbn [fold_left].
  - exact H.
  - apply IH, on_line_listed, H.
Qed.

End Table.

(** X24.  Whatever [launchctl] printed, and whether or not it failed,
    [getLaunchd] answers with the five jobs of its table in their order, each
    with its id, name and next run unchanged.  A status is either the one of
    the table or [running], so the job that the table lists as running is
    never shown as waiting, and a pid is only ever attached together with the
    status [running] and is never the placeholder [-]. *)
Theorem getLaunchd_reports_the_five_jobs (error : bool) (stdout : string) :
  Forall2
    (fun j0 j =>
       id j = id j0 /\ name j = name j0 /\ nextRun j = nextRun j0 /\
       (status j = status j0 \/ status j = "running") /\
       (pid j = None \/ exists p, pid j = Some p /\ p <> "-" /\ status j = "running"))
    jobs (getLaunchd error stdout).
Proof.
  set (listed := fun j0 j : Job =>
       id j = id j0 /\ name j = name j0 /\ nextRun j = nextRun j0 /\
       (status j = status j0 \/ status j = "running") /\
       (pid j = pid j0 \/ exists p, pid j = Some p /\ p <> "-" /\ status j = "running")).
  assert (Hstart : Forall2 listed jobs jobs).
  { unfold jobs, listed. repeat constructor. }
  assert (H : Forall2 listed jobs (getLaunchd error stdout)).
  { unfold getLaunchd. destruct (negb error && negb (String.eqb stdout ""))%bool.
    - apply (fold_on_line_listed listed); [intros; reflexivity | exact Hstart].
    - exact Hstart. }
  clear Hstart. revert H. generalize (getLaunchd error stdout).
  assert (Hnone : Forall (fun j => pid j = None) jobs).
  { unfold jobs. repeat constructor. }
  revert Hnone. generalize jobs. intros t0 Hnone t H.
  induction H as [|j0 j t0 t Hj Ht IH]; constructor.
  - inversion Hnone as [|? ? H0 H1]; subst.
    destruct Hj as (Hi & Hn & Hr & Hs & Hp). repeat split; try assumption.
    rewrite H0 in Hp. exact Hp.
  - apply IH. inversion Hnone; assumption.
Qed.

End LaunchdFacts.

(* ================================================================== *)
(** * Facts about the client *)
(* ================================================================== *)

Module ClientFacts.
Import JS Str Client.

Lemma cache_get_set_same (k : string) (e : entry) (m : list (string * entry)) :
  cache_get k (cache_set k e m) = Some e.
Proof.
  induction m as [|[k' e'] rest IH]; cbn [cache_set cache_get].
  - rewrite String.eqb_refl. reflexivity.
  - destruct (String.eqb k k') eqn:E; cbn [cache_get].
    + rewrite String.eqb_refl. reflexivity.
    + rewrite E. exact IH.
Qed.

Lemma cache_get_set_other (k k' : string) (e : entry) (m : list (string * entry)) :
  k' <> k ->
  cache_get k' (cache_set k e m) = cache_get k' m.
Proof.
  intros Hk. induction m as [|[k0 e0] rest IH]; cbn [cache_set cache_get].
  - apply String.eqb_neq in Hk. rewrite Hk. reflexivity.
  - destruct (String.eqb_spec k k0) as [->|Hk0]; cbn [cache_get].
    + apply String.eqb_neq in Hk. rewrite Hk. reflexivity.
    + rewrite IH. reflexivity.
Qed.

(** Only [null] gets past the default of the parameter as a value without
    properties. *)
Lemma or_default_nullish (options : value) :
  (options = VNull /\ or_default options = VNull)
  \/ (options <> VNull /\ nullish (or_default options) = false).
Proof.
  destruct options; cbn; (left; split; reflexivity) || (right; split; [discriminate | reflexivity]).
Qed.

Lemma try_fetch_sends (rt : runtime) (url : string) (options : value) (st : state) :
  nullish options = false ->
  try_fetch rt url options st
  = (settle (snd (upstream rt (List.length (sent st)))),
     {| cache := cache st; lastRequestTime := lastRequestTime st;
        now := now st + fst (upstream rt (List.length (sent st)));
        sent := (sent st ++ [url])%list |}).
Proof.
  intros Hn. unfold try_fetch, get. rewrite Hn.
  destruct (upstream rt (List.length (sent st))) as [took x]. reflexivity.
Qed.

(** The three attempts of a request whose options have properties, from the
    state the throttle leaves. *)
Lemma attempts_three (rt : runtime) (key url : string) (options : value)
  (st st' : state) (r : completion value) :
  nullish options = false ->
  attempts rt key url options [0; 1; 2] st = (r, st') ->
  lastRequestTime st' = lastRequestTime st /\
  ((exists d n, r = Normal d /\ (n < 3)%nat /\
      sent st' = (sent st ++ repeat url (S n))%list /\
      cache st' = cache_set key {| data := d; timestamp := now st' |} (cache st))
   \/
   (exists message, r = Throw message /\
      sent st' = (sent st ++ [url; url; url])%list /\
      cache st' = cache st /\
      settle (snd (upstream rt (List.length (sent st) + 2))) = Throw message /\
      now st' = now st
                + fst (upstream rt (List.length (sent st))) + 1000
                + fst (upstream rt (List.length (sent st) + 1)) + 2000
                + fst (upstream rt (List.length (sent st) + 2)))).
Proof.
  intros Hn. cbn [attempts]. rewrite (try_fetch_sends _ _ _ _ Hn).
  destruct (upstream rt (List.length (sent st))) as [t0 x0] eqn:U0. cbn [fst snd].
  destruct (settle x0) as [d0|m0] eqn:S0.
  { intros H. injection H as <- <-. cbn. split; [reflexivity|].
    left. exists d0, 0%nat. split; [reflexivity|split; [lia|split; reflexivity]]. }
  change (0 =? RETRY_ATTEMPTS - 1) with false. cbv iota.
  rewrite (try_fetch_sends _ _ _ _ Hn).
  cbn [sleep at_time sent now cache lastRequestTime].
  rewrite length_app. cbn [List.length].
  destruct (upstream rt (List.length (sent st) + 1)) as [t1 x1] eqn:U1. cbn [fst snd].
  destruct (settle x1) as [d1|m1] eqn:S1.
  { intros H. injection H as <- <-. cbn. split; [reflexivity|].
    left. exists d1, 1%nat. rewrite <- app_assoc.
    split; [reflexivity|split; [lia|split; reflexivity]]. }
  change (1 =? RETRY_ATTEMPTS - 1) with false. cbv iota.
  rewrite (try_fetch_sends _ _ _ _ Hn).
  cbn [sleep at_time sent now cache lastRequestTime].
  rewrite !length_app. cbn [List.length].
  replace (List.length (sent st) + 1 + 1)%nat with (List.length (sent st) + 2)%nat by lia.
  destruct (upstream rt (List.length (sent st) + 2)) as [t2 x2] eqn:U2. cbn [fst snd].
  destruct (settle x2) as [d2|m2] eqn:S2.
  { intros H. injection H as <- <-. cbn. split; [reflexivity|].
    left. exists d2, 2%nat. rewrite <- !app_assoc.
    split; [reflexivity|split; [lia|split; reflexivity]]. }
  change (2 =? RETRY_ATTEMPTS - 1) with true. cbv iota.
  intros H. injection H as <- <-. cbn. split; [reflexivity|].
  right. exists m2. rewrite <- !app_assoc. cbn [app].
  repeat split; assumption.
Qed.

(** The three attempts of a request whose options are [null]: every one
    throws before [fetch] is reached, and only the back-off passes. *)
Lemma attempts_null (rt : runtime) (key url : string) (st : state) :
  attempts rt key url VNull [0; 1; 2] st
  = (Throw "Cannot read properties of null (reading 'headers')",
     at_time (now st + 3000) st).
Proof.
  cbn [attempts try_fetch get nullish].
  change (0 =? RETRY_ATTEMPTS - 1) with false.
  change (1 =? RETRY_ATTEMPTS - 1) with false.
  change (2 =? RETRY_ATTEMPTS - 1) with true.
  change (2 ^ 0 * 1000) with 1000. change (2 ^ 1 * 1000) with 2000.
  cbv iota. unfold sleep, at_time. cbn [cache lastRequestTime now sent].
  f_equal. f_equal. lia.
Qed.

(** What [send] does to the fields before the first attempt. *)
Lemma send_unfold (rt : runtime) (key endpoint : string) (options : value) (st : state) :
  send rt key endpoint options st =
  attempts rt key (API_BASE ++ endpoint) options [0; 1; 2]
    {| cache := cache st;
       lastRequestTime := Z.max (now st) (lastRequestTime st + minRequestInterval);
       now := Z.max (now st) (lastRequestTime st + minRequestInterval);
       sent := sent st |}.
Proof.
  unfold send. cbv zeta.
  change (map Z.of_nat (seq 0 (Z.to_nat RETRY_ATTEMPTS))) with [0; 1; 2].
  f_equal.
  destruct (Z.ltb_spec (now st - lastRequestTime st) minRequestInterval);
    cbn [sleep at_time cache now sent lastRequestTime]; f_equal; lia.
Qed.

(** A call that gets past the cache ends in one of three ways. *)
Lemma send_cases (rt : runtime) (key endpoint : string) (options : value)
  (st st' : state) (r : completion value) :
  send rt key endpoint (or_default options) st = (r, st') ->
  lastRequestTime st' = Z.max (now st) (lastRequestTime st + minRequestInterval) /\
  ((options <> VNull /\ exists d n, r = Normal d /\ (n < 3)%nat /\
      sent st' = (sent st ++ repeat (API_BASE ++ endpoint)%string (S n))%list /\
      cache st' = cache_set key {| data := d; timestamp := now st' |} (cache st))
   \/
   (options <> VNull /\ exists message, r = Throw message /\
      sent st' = (sent st ++ repeat (API_BASE ++ endpoint)%string 3)%list /\
      cache st' = cache st /\
      settle (snd (upstream rt (List.length (sent st) + 2))) = Throw message /\
      now st' = lastRequestTime st'
                + fst (upstream rt (List.length (sent st))) + 1000
                + fst (upstream rt (List.length (sent st) + 1)) + 2000
                + fst (upstream rt (List.length (sent st) + 2)))
   \/
   (options = VNull /\
      r = Throw "Cannot read properties of null (reading 'headers')" /\
      sent st' = sent st /\ cache st' = cache st /\
      now st' = lastRequestTime st' + 3000)).
Proof.
  rewrite send_unfold. intros H.
  destruct (or_default_nullish options) as [[Ho Hd]|[Ho Hn]].
  - rewrite Hd, attempts_null in H. injection H as <- <-.
    cbn [at_time cache now sent lastRequestTime]. split; [reflexivity|].
    right. right. repeat split. exact Ho.
  - apply (attempts_three _ _ _ _ _ _ _ Hn) in H.
    cbn [cache now sent lastRequestTime] in H.
    destruct H as [Hl H]. split; [exact Hl|].
    destruct H as [(d & n & Hr & Hlt & Hs & Hc)|(m & Hr & Hs & Hc & Hm & Ht)].
    + left. split; [exact Ho|]. exists d, n. repeat split; assumption.
    + right. left. split; [exact Ho|]. exists m. rewrite Hl. repeat split; assumption.
Qed.

(** What a call of [request] is: a hit, or a [send]. *)
Lemma request_cases (rt : runtime) (endpoint : string) (options : value) (st : state) :
  (exists cached,
     cache_get (cacheKey rt endpoint options) (cache st) = Some cached /\
     now st - timestamp cached < cacheTimeout /\
     request rt endpoint options st = (Normal (data cached), st))
  \/ request rt endpoint options st
     = send rt (cacheKey rt endpoint options) endpoint (or_default options) st.
Proof.
  unfold request. cbv zeta.
  destruct (cache_get (cacheKey rt endpoint options) (cache st)) as [cached|] eqn:Hc;
    [|right; reflexivity].
  destruct (Z.ltb_spec (now st - timestamp cached) cacheTimeout) as [Hf|Hf];
    [|right; reflexivity].
  left. exists cached. repeat split. exact Hf.
Qed.

(** The log of fetches only grows. *)
Lemma request_sends (rt : runtime) (endpoint : string) (options : value) (st : state) :
  exists urls,
    sent (snd (request rt endpoint options st)) = (sent st ++ urls)%list.
Proof.
  destruct (request_cases rt endpoint options st) as [(cached & _ & _ & ->)| ->].
  - exists []. rewrite app_nil_r. reflexivity.
  - destruct (send rt (cacheKey rt endpoint options) endpoint (or_default options) st)
      as [r st'] eqn:Hs.
    apply send_cases in Hs. cbn [snd].
    destruct Hs as [_ [(_ & d & n & _ & _ & Hs & _)
                      |[(_ & m & _ & Hs & _)|(_ & _ & Hs & _)]]].
    + eexists. exact Hs.
    + eexists. exact Hs.
    + exists []. rewrite app_nil_r. exact Hs.
Qed.

(** X25.  A result that [request] returned can be asked for again without
    reaching the server: the cache holds it under the key of the request, and
    a later call with the same endpoint and options, made while the entry is
    less than a minute old, returns the same data, sends nothing and leaves
    the client as it is. *)
Theorem returned_data_is_served_again (rt : runtime) (endpoint : string)
  (options d : value) (st st' : state) :
  request rt endpoint options st = (Normal d, st') ->
  exists e,
    cache_get (cacheKey rt endpoint options) (cache st') = Some e /\
    data e = d /\
    now st' - timestamp e < cacheTimeout /\
    forall t, t - timestamp e < cacheTimeout ->
      request rt endpoint options (at_time t st') = (Normal d, at_time t st').
Proof.
  intros H.
  assert (Hhit : forall e, cache_get (cacheKey rt endpoint options) (cache st') = Some e ->
            data e = d ->
            forall t, t - timestamp e < cacheTimeout ->
            request rt endpoint options (at_time t st') = (Normal d, at_time t st')).
  { intros e He Hd t Ht. unfold request. cbv zeta. cbn [at_time cache now].
    rewrite He. apply Z.ltb_lt in Ht. rewrite Ht, Hd. reflexivity. }
  destruct (request_cases rt endpoint options st) as [(cached & Hc & Hf & E)|E];
    rewrite E in H.
  - injection H as <- <-. exists cached.
    split; [exact Hc|]. split; [reflexivity|]. split; [exact Hf|].
    apply Hhit; [exact Hc | reflexivity].
  - apply send_cases in H.
    destruct H as [_ [(_ & d' & n & Hr & _ & _ & Hc)
                     |[(_ & m & Hr & _)|(_ & Hr & _)]]]; try discriminate.
    injection Hr as <-.
    assert (He : cache_get (cacheKey rt endpoint options) (cache st')
                 = Some {| data := d; timestamp := now st' |})
      by (rewrite Hc; apply cache_get_set_same).
    exists {| data := d; timestamp := now st' |}.
    split; [exact He|]. split; [reflexivity|].
    split; [cbn; unfold cacheTimeout; lia|].
    apply (Hhit _ He). reflexivity.
Qed.

Lemma status_is_served_again :
  request up "/status" (VObj [])
    (at_time 50000 (snd (request up "/status" (VObj []) (initial 1000))))
  = (Normal (VObj [("online", VBool true)]),
     at_time 50000 (snd (request up "/status" (VObj []) (initial 1000)))).
Proof.
  destruct (returned_data_is_served_again up "/status" (VObj [])
              (VObj [("online", VBool true)]) (initial 1000)
              (snd (request up "/status" (VObj []) (initial 1000))))
    as (e & He & _ & _ & Hagain); [reflexivity|].
  vm_compute in He. injection He as <-.
  apply Hagain. reflexivity.
Defined.

(** X26.  A request fails only after three attempts and three seconds of
    back-off, and a failure is never cached.  When [request] throws, the
    cache is as it was and the request started at the later of the call and
    100 ms after the previous start.  Either the options are [null]: then
    every attempt throws the TypeError of [options.headers] before [fetch]
    is reached, no fetch is sent, and the clock stands 3000 ms after the
    start.  Or exactly three fetches went to the endpoint, the error is the
    one of the third, and the clock stands at the start plus the time the
    three fetches took plus 1000 and 2000 ms of waiting. *)
Theorem request_fails_after_three_attempts (rt : runtime) (endpoint : string)
  (options : value) (message : string) (st st' : state) :
  request rt endpoint options st = (Throw message, st') ->
  cache st' = cache st /\
  lastRequestTime st' = Z.max (now st) (lastRequestTime st + 100) /\
  ((options = VNull /\
    message = "Cannot read properties of null (reading 'headers')" /\
    sent st' = sent st /\
    now st' = lastRequestTime st' + 3000)
   \/
   (options <> VNull /\
    sent st' = (sent st ++ repeat (API_BASE ++ endpoint)%string 3)%list /\
    settle (snd (upstream rt (List.length (sent st) + 2))) = Throw message /\
    now st' = lastRequestTime st'
              + fst (upstream rt (List.length (sent st)))
              + fst (upstream rt (List.length (sent st) + 1))
              + fst (upstream rt (List.length (sent st) + 2)) + 3000)).
Proof.
  intros H.
  destruct (request_cases rt endpoint options st) as [(cached & _ & _ & E)|E];
    rewrite E in H; [discriminate|].
  apply send_cases in H.
  destruct H as [Hl [(_ & d & n & Hr & _)
                    |[(Ho & m & Hr & Hs & Hc & Hm & Ht)|(Ho & Hr & Hs & Hc & Ht)]]];
    [discriminate| |].
  - injection Hr as <-. split; [exact Hc|]. split; [exact Hl|].
    right. split; [exact Ho|]. split; [exact Hs|]. split; [exact Hm|]. lia.
  - injection Hr as <-. split; [exact Hc|]. split; [exact Hl|].
    left. split; [exact Ho|]. split; [reflexivity|]. split; [exact Hs | exact Ht].
Qed.

Lemma request_to_a_server_that_is_down :
  (sent (snd (request down "/status" (VObj []) (initial 1000)))
   = repeat (API_BASE ++ "/status") 3 /\
   cache (snd (request down "/status" (VObj []) (initial 1000))) = [] /\
   now (snd (request down "/status" (VObj []) (initial 1000))) = 1000 + 5 + 5 + 5 + 3000)
  /\
  (fst (request up "/status" VNull (initial 1000))
   = Throw "Cannot read properties of null (reading 'headers')" /\
   sent (snd (request up "/status" VNull (initial 1000))) = [] /\
   cache (snd (request up "/status" VNull (initial 1000))) = [] /\
   now (snd (request up "/status" VNull (initial 1000))) = 1000 + 3000).
Proof.
  split.
  - destruct (request_fails_after_three_attempts down "/status" (VObj []) "fetch failed"
                (initial 1000) (snd (request down "/status" (VObj []) (initial 1000))))
      as (Hc & Hl & [(Ho & _)|(_ & Hs & _ & Ht)]); [reflexivity|discriminate|].
    split; [exact Hs | split; [exact Hc|]].
    rewrite Ht, Hl. reflexivity.
  - destruct (request_fails_after_three_attempts up "/status" VNull
                "Cannot read properties of null (reading 'headers')"
                (initial 1000) (snd (request up "/status" VNull (initial 1000))))
      as (Hc & Hl & [(_ & _ & Hs & Ht)|(Ho & _)]);
      [reflexivity| |exfalso; apply Ho; reflexivity].
    split; [reflexivity|]. split; [exact Hs|]. split; [exact Hc|].
    rewrite Ht, Hl. reflexivity.
Defined.

(** X27.  A call of [request] is either answered from the cache, and then it
    changes nothing, or it records a start time that is at least
    [minRequestInterval] after the start of the previous request and not
    before the call.  In that case it sends between one and three fetches,
    all to [API_BASE] followed by the endpoint, unless the options are
    [null], when it sends none. *)
Theorem request_hits_or_sends (rt : runtime) (endpoint : string) (options : value)
  (st : state) :
  snd (request rt endpoint options st) = st \/
  ((options = VNull /\ sent (snd (request rt endpoint options st)) = sent st)
   \/
   (options <> VNull /\
    exists n, (1 <= n <= 3)%nat /\
      sent (snd (request rt endpoint options st))
      = (sent st ++ repeat (API_BASE ++ endpoint)%string n)%list)) /\
  lastRequestTime st + minRequestInterval
  <= lastRequestTime (snd (request rt endpoint options st)) /\
  now st <= lastRequestTime (snd (request rt endpoint options st)).
Proof.
  destruct (request_cases rt endpoint options st) as [(cached & _ & _ & ->)| ->];
    [left; reflexivity|].
  right.
  destruct (send rt (cacheKey rt endpoint options) endpoint (or_default options) st)
    as [r st'] eqn:Hs.
  apply send_cases in Hs. cbn [snd].
  destruct Hs as [Hl [(Ho & d & n & _ & Hn & Hs & _)
                     |[(Ho & m & _ & Hs & _)|(Ho & _ & Hs & _)]]].
  - split; [right; split; [exact Ho|]; exists (S n); split; [lia | exact Hs] | lia].
  - split; [right; split; [exact Ho|]; exists 3%nat; split; [lia | exact Hs] | lia].
  - split; [left; split; [exact Ho | exact Hs] | lia].
Qed.

(** X28.  A request touches no cache entry but its own: whatever the outcome,
    what the cache holds under any other key is what it held before. *)
Theorem request_keeps_the_other_entries (rt : runtime) (endpoint : string)
  (options : value) (st : state) (k : string) :
  k <> cacheKey rt endpoint options ->
  cache_get k (cache (snd (request rt endpoint options st))) = cache_get k (cache st).
Proof.
  intros Hk.
  destruct (request_cases rt endpoint options st) as [(cached & _ & _ & ->)| ->];
    [reflexivity|].
  destruct (send rt (cacheKey rt endpoint options) endpoint (or_default options) st)
    as [r st'] eqn:Hs.
  apply send_cases in Hs. cbn [snd].
  destruct Hs as [_ [(_ & d & n & _ & _ & _ & Hc)
                    |[(_ & m & _ & _ & Hc & _)|(_ & _ & _ & Hc & _)]]]; rewrite Hc.
  - apply cache_get_set_other, Hk.
  - reflexivity.
  - reflexivity.
Qed.

Lemma status_request_keeps_the_weather :
  cache_get "/weather?city=London:{}"
    (cache (snd (request up "/status" (VObj [])
                   (snd (request up "/weather?city=London" (VObj []) (initial 1000))))))
  = Some {| data := VObj [("online", VBool true)]; timestamp := 1020 |}.
Proof.
  rewrite (request_keeps_the_other_entries up "/status" (VObj [])
             (snd (request up "/weather?city=London" (VObj []) (initial 1000)))
             "/weather?city=London:{}").
  - reflexivity.
  - discriminate.
Defined.

Lemma batch_length (rt : runtime) (operations : list operation) (results rs : list value)
  (st st' : state) :
  batch rt operations results st = (Normal rs, st') ->
  List.length rs = (List.length results + List.length operations)%nat.
Proof.
  revert results st. induction operations as [|op rest IH]; intros results st H;
    cbn [batch] in H.
  - injection H as <- <-. cbn. lia.
  - destruct (request rt (endpoint op) (options op) st) as [[result|m] st1];
      [|discriminate].
    apply IH in H. rewrite length_app in H. cbn [List.length] in *. lia.
Qed.

Lemma batch_sends (rt : runtime) (operations : list operation) (results : list value)
  (st : state) :
  exists urls, sent (snd (batch rt operations results st)) = (sent st ++ urls)%list.
Proof.
  revert results st. induction operations as [|op rest IH]; intros results st;
    cbn [batch].
  - exists []. rewrite app_nil_r. reflexivity.
  - destruct (request_sends rt (endpoint op) (options op) st) as [urls1 Hr].
    destruct (request rt (endpoint op) (options op) st) as [[result|m] st1];
      cbn [snd] in *.
    + destruct (IH (results ++ [result])%list st1) as [urls Hu]. rewrite Hu, Hr.
      rewrite <- app_assoc. eexists. reflexivity.
    + eexists. exact Hr.
Qed.

(** X29.  [performBatchOperations] is all or nothing in what it returns: one
    result for each operation, in order of the operations, or the empty
    array.  What the operations before a failing one fetched is not undone:
    the fetches were sent and stay in the log. *)
Theorem batch_returns_all_results_or_none (rt : runtime) (operations : list operation)
  (st : state) :
  (fst (performBatchOperations rt operations st) = [] \/
   List.length (fst (performBatchOperations rt operations st))
   = List.length operations) /\
  exists urls,
    sent (snd (performBatchOperations rt operations st)) = (sent st ++ urls)%list.
Proof.
  unfold performBatchOperations.
  pose proof (batch_sends rt operations [] st) as Hs.
  destruct (batch rt operations [] st) as [[rs|m] st'] eqn:Hb; cbn [fst snd] in *.
  - split; [|exact Hs]. right. apply batch_length in Hb. exact Hb.
  - split; [|exact Hs]. left. reflexivity.
Qed.

(** X30.  [checkServerStatus] never hands [null] or [undefined] to its
    caller, and it ends in one of three ways.  The request for [/status]
    returned a status with properties: that status is returned as it is.  The
    request returned [null]: the result is [{online: false, error}] with the
    TypeError of reading [online].  The request threw: the result is
    [{online: false, error}] with the message thrown, which is that of the
    third of three fetches sent to [/status], and the cache is as it was.
    In each case the client is left as the request left it. *)
Theorem checkServerStatus_is_never_null (rt : runtime) (st : state) :
  nullish (fst (checkServerStatus rt st)) = false /\
  snd (checkServerStatus rt st) = snd (request rt "/status" (VObj []) st) /\
  ((exists status,
      request rt "/status" (VObj []) st = (Normal status, snd (checkServerStatus rt st)) /\
      nullish status = false /\
      fst (checkServerStatus rt st) = status)
   \/
   (exists status,
      request rt "/status" (VObj []) st = (Normal status, snd (checkServerStatus rt st)) /\
      nullish status = true /\
      fst (checkServerStatus rt st)
      = VObj [("online", VBool false);
              ("error", VStr ("Cannot read properties of "
                              ++ (match status with VNull => "null" | _ => "undefined" end)
                              ++ " (reading 'online')"))])
   \/
   (exists message,
      request rt "/status" (VObj []) st = (Throw message, snd (checkServerStatus rt st)) /\
      fst (checkServerStatus rt st)
      = VObj [("online", VBool false); ("error", VStr message)] /\
      settle (snd (upstream rt (List.length (sent st) + 2))) = Throw message /\
      sent (snd (checkServerStatus rt st))
      = (sent st ++ repeat (API_BASE ++ "/status")%string 3)%list /\
      cache (snd (checkServerStatus rt st)) = cache st)).
Proof.
  unfold checkServerStatus.
  destruct (request rt "/status" (VObj []) st) as [[status|m] st'] eqn:Hr; cbn [fst snd].
  - unfold get. destruct (nullish status) eqn:Hn; cbn [fst snd].
    + split; [reflexivity|]. split; [reflexivity|].
      right. left. exists status. split; [reflexivity|]. split; [exact Hn|]. reflexivity.
    + split; [exact Hn|]. split; [reflexivity|].
      left. exists status. split; [reflexivity|]. split; [exact Hn|]. reflexivity.
  - split; [reflexivity|]. split; [reflexivity|].
    right. right. exists m. split; [reflexivity|]. split; [reflexivity|].
    destruct (request_cases rt "/status" (VObj []) st) as [(cached & _ & _ & E)|E];
      rewrite E in Hr; [discriminate|].
    apply send_cases in Hr.
    destruct Hr as [_ [(_ & d & n & Hd & _)
                      |[(_ & m' & Hm & Hs & Hc & Hset & _)|(Ho & _)]]];
      [discriminate| |discriminate].
    injection Hm as <-. split; [exact Hset|]. split; [exact Hs | exact Hc].
Qed.

Lemma status_check_of_three_servers :
  fst (checkServerStatus up (initial 1000)) = VObj [("online", VBool true)]
  /\ fst (checkServerStatus recovering (initial 1000))
     = VObj [("online", VBool false);
             ("error", VStr "Cannot read properties of null (reading 'online')")]
  /\ fst (checkServerStatus down (initial 1000))
     = VObj [("online", VBool false); ("error", VStr "fetch failed")].
Proof.
  split; [|split].
  - destruct (checkServerStatus_is_never_null up (initial 1000))
      as (_ & _ & [(status & Hr & _ & ->)|[(status & Hr & Hn & _)|(m & Hr & _)]]).
    + vm_compute in Hr. injection Hr as <-. reflexivity.
    + vm_compute in Hr. injection Hr as <-. discriminate Hn.
    + vm_compute in Hr. discriminate Hr.
  - destruct (checkServerStatus_is_never_null recovering (initial 1000))
      as (_ & _ & [(status & Hr & Hn & _)|[(status & Hr & _ & ->)|(m & Hr & _)]]).
    + vm_compute in Hr. injection Hr as <-. discriminate Hn.
    + vm_compute in Hr. injection Hr as <-. reflexivity.
    + vm_compute in Hr. discriminate Hr.
  - destruct (checkServerStatus_is_never_null down (initial 1000))
      as (_ & _ & [(status & Hr & _)|[(status & Hr & _)|(m & Hr & -> & _)]]).
    + vm_compute in Hr. discriminate Hr.
    + vm_compute in Hr. discriminate Hr.
    + vm_compute in Hr. injection Hr as <-. reflexivity.
Defined.

End ClientFacts.
